(** * Ferpoks WhatsApp dashboard (app.py): tenant resolution, default
    seeding, settings and template repositories, the ad-hoc send pipeline,
    the inbound event recorder and the preview renderer.

    The handlers of app.py are embedded as functions in a small
    state-and-exception monad over the five SQLite tables and the trace of
    calls made to the WhatsApp transport.  Request bodies are the values
    that [request.json()] returns, held in the type [json] below. *)

From Stdlib Require Import ZArith List String Ascii Bool Lia.
From Stdlib Require Import Floats.SpecFloat.
From Stdlib Require Import DecimalString.
Import ListNotations.

Open Scope string_scope.
Open Scope Z_scope.
Open Scope list_scope.

(* ================================================================== *)
(** ** Python values *)

(** A value produced by [json.loads]: [None], [bool], [int], [float]
    (an IEEE value, held as [spec_float]), [str], [list] and [dict].  A dict
    keeps its keys in insertion order. *)
#[local] Unset Elimination Schemes.
Inductive json : Type :=
| JNull
| JBool (b : bool)
| JInt (z : Z)
| JFloat (f : spec_float)
| JStr (s : string)
| JArr (items : list json)
| JObj (fields : list (string * json)).
#[local] Set Elimination Schemes.

Definition dict : Type := list (string * json).

(** Truth value testing, as in [if x:], [not x] and [x or y]. *)
Definition truthy (v : json) : bool :=
  match v with
  | JNull => false
  | JBool b => b
  | JInt z => negb (z =? 0)
  | JFloat (S754_zero _) => false
  | JFloat _ => true
  | JStr s => negb (s =? "")%string
  | JArr items => match items with [] => false | _ => true end
  | JObj fields => match fields with [] => false | _ => true end
  end.

(** [a or b] *)
Definition py_or (a b : json) : json := if truthy a then a else b.

(** Truth value of a [str]. *)
Definition str_truthy (s : string) : bool := negb (s =? "")%string.

(** Truth value of an [Optional[str]]. *)
Definition opt_truthy (o : option string) : bool :=
  match o with
  | None => false
  | Some s => str_truthy s
  end.

(** [a or b] where [a] is an [Optional[str]] and [b] a [str]. *)
Definition opt_or (a : option string) (b : string) : string :=
  match a with
  | Some s => if str_truthy s then s else b
  | None => b
  end.

Fixpoint lookup (k : string) (d : dict) : option json :=
  match d with
  | [] => None
  | (k', v) :: rest => if (k' =? k)%string then Some v else lookup k rest
  end.

(** [d.get(k)] *)
Definition get (d : dict) (k : string) : json :=
  match lookup k d with
  | Some v => v
  | None => JNull
  end.

(** [d.get(k, default)] *)
Definition get_default (d : dict) (k : string) (default : json) : json :=
  match lookup k d with
  | Some v => v
  | None => default
  end.

(** [str(n)] for an [int]. *)
Definition str_of_int (n : Z) : string := NilZero.string_of_int (Z.to_int n).

(** [int(f)] for a [float]: truncation toward zero; [None] where Python
    raises ([OverflowError] on an infinity, [ValueError] on a NaN). *)
Definition int_of_float (f : spec_float) : option Z :=
  match f with
  | S754_zero _ => Some 0
  | S754_infinity _ => None
  | S754_nan => None
  | S754_finite s m e =>
      let mag := if 0 <=? e then Z.pos m * 2 ^ e else Z.pos m / 2 ^ (- e) in
      Some (if s then - mag else mag)
  end.

(* ------------------------------------------------------------------ *)
(** *** Text *)

(** A [str] is held in UTF-8, one [ascii] a byte.  A [str] can also hold a
    lone surrogate (U+D800..U+DFFF: [json.loads] gives one for an escape of
    that range), which UTF-8 has no form for; it is held as the three bytes
    237, 160..191, 128..191 that the [surrogatepass] handler writes.  In
    UTF-8 proper the byte 237 is followed by 128..159 only. *)

(** A text of ASCII characters only: what [hmac.compare_digest] accepts
    of a [str] (it raises TypeError on any other). *)
Definition is_ascii (s : string) : bool :=
  forallb (fun c => (nat_of_ascii c <? 128)%nat) (list_ascii_of_string s).

(** The two bytes open a surrogate. *)
Definition surrogate_lead (a b : ascii) : bool :=
  ((nat_of_ascii a =? 237) && (160 <=? nat_of_ascii b)
   && (nat_of_ascii b <=? 191))%nat.

(** [s.encode("utf-8")] succeeds: the text holds no surrogate.  sqlite3
    encodes every [str] it binds, and raises UnicodeEncodeError when this
    fails. *)
Fixpoint encodable (s : string) : bool :=
  match s with
  | EmptyString => true
  | String a rest =>
      negb (match rest with
            | String b _ => surrogate_lead a b
            | EmptyString => false
            end)
      && encodable rest
  end.

(* ------------------------------------------------------------------ *)
(** *** [json.dumps] *)

Definition QUOTE : string := String "034"%char EmptyString.
Definition BACKSLASH : string := String "092"%char EmptyString.

Definition hex_digit (n : nat) : string :=
  String (nth n (list_ascii_of_string "0123456789abcdef") "0"%char) EmptyString.

(** How [json.dumps(..., ensure_ascii=False)] writes one character of a
    [str]: the quote, the backslash and the control characters are escaped,
    every other byte is written as it is. *)
Definition escape_char (c : ascii) : string :=
  let n := nat_of_ascii c in
  (if (n =? 34)%nat then BACKSLASH ++ QUOTE
   else if (n =? 92)%nat then BACKSLASH ++ BACKSLASH
   else if (n =? 10)%nat then BACKSLASH ++ "n"
   else if (n =? 13)%nat then BACKSLASH ++ "r"
   else if (n =? 9)%nat then BACKSLASH ++ "t"
   else if (n =? 8)%nat then BACKSLASH ++ "b"
   else if (n =? 12)%nat then BACKSLASH ++ "f"
   else if (n <? 32)%nat
        then BACKSLASH ++ "u00" ++ hex_digit (n / 16) ++ hex_digit (n mod 16)
   else String c EmptyString)%string.

Fixpoint escape (s : string) : string :=
  match s with
  | EmptyString => EmptyString
  | String c rest => (escape_char c ++ escape rest)%string
  end.

Definition quoted (s : string) : string := (QUOTE ++ escape s ++ QUOTE)%string.

(** [sep.join(parts)] *)
Fixpoint join (sep : string) (parts : list string) : string :=
  match parts with
  | [] => EmptyString
  | [x] => x
  | x :: rest => (x ++ sep ++ join sep rest)%string
  end.

(** [json.dumps(v, ensure_ascii=False)] with the default separators, for
    a value [json.loads] returned.  [float_repr] is [float.__repr__] on a
    finite float. *)
Section Dumps.

Variable float_repr : spec_float -> string.

Definition dumps_float (f : spec_float) : string :=
  match f with
  | S754_nan => "NaN"
  | S754_infinity false => "Infinity"
  | S754_infinity true => "-Infinity"
  | _ => float_repr f
  end.

Fixpoint json_dumps (v : json) : string :=
  match v with
  | JNull => "null"
  | JBool b => if b then "true" else "false"
  | JInt z => str_of_int z
  | JFloat f => dumps_float f
  | JStr s => quoted s
  | JArr items => ("[" ++ join ", " (map json_dumps items) ++ "]")%string
  | JObj fields =>
      ("{" ++ join ", "
                (map (fun kv => match kv with
                                | (k, x) => quoted k ++ ": " ++ json_dumps x
                                end) fields)
           ++ "}")%string
  end.

End Dumps.

(** Whether the text of [json.dumps(v, ensure_ascii=False)] can be
    encoded: the text holds every key and every [str] of [v] as it is, but
    for the escapes, which are ASCII, and what it adds is ASCII; so it can
    be encoded exactly when every key and every [str] of [v] can. *)
Fixpoint json_encodable (v : json) : bool :=
  match v with
  | JStr s => encodable s
  | JArr items => forallb json_encodable items
  | JObj fields =>
      forallb (fun kv => match kv with
                         | (k, x) => encodable k && json_encodable x
                         end) fields
  | _ => true
  end.

(* ------------------------------------------------------------------ *)
(** *** [str.strip()] *)

(** The characters [str.isspace] accepts, in the UTF-8 form text is held
    in: the ASCII ones, then U+0085, U+00A0, U+1680, U+2000..U+200A,
    U+2028, U+2029, U+202F, U+205F and U+3000. *)
Definition bytes (l : list nat) : string :=
  string_of_list_ascii (map ascii_of_nat l).

Definition WHITESPACE : list string :=
  map bytes
    [ [9]; [10]; [11]; [12]; [13]; [28]; [29]; [30]; [31]; [32];
      [194; 133]; [194; 160]; [225; 154; 128];
      [226; 128; 128]; [226; 128; 129]; [226; 128; 130]; [226; 128; 131];
      [226; 128; 132]; [226; 128; 133]; [226; 128; 134]; [226; 128; 135];
      [226; 128; 136]; [226; 128; 137]; [226; 128; 138];
      [226; 128; 168]; [226; 128; 169]; [226; 128; 175];
      [226; 129; 159]; [227; 128; 128] ]%nat.

Fixpoint drop (n : nat) (s : string) : string :=
  match n, s with
  | O, _ => s
  | S n', String _ r => drop n' r
  | S _, EmptyString => EmptyString
  end.

Definition rev_string (s : string) : string :=
  string_of_list_ascii (rev (list_ascii_of_string s)).

(** The text after one leading white-space character, when there is one. *)
Definition strip_one (ws : list string) (s : string) : option string :=
  match find (fun w => prefix w s) ws with
  | Some w => Some (drop (String.length w) s)
  | None => None
  end.

Fixpoint lstrip_fuel (ws : list string) (fuel : nat) (s : string) : string :=
  match fuel with
  | O => s
  | S fuel' =>
      match strip_one ws s with
      | Some s' => lstrip_fuel ws fuel' s'
      | None => s
      end
  end.

(** Every step removes at least one byte, so the length is fuel enough. *)
Definition lstrip (s : string) : string :=
  lstrip_fuel WHITESPACE (String.length s) s.

Definition rstrip (s : string) : string :=
  rev_string (lstrip_fuel (map rev_string WHITESPACE) (String.length s)
                          (rev_string s)).

Definition strip (s : string) : string := rstrip (lstrip s).

(* ================================================================== *)
(** ** The database *)

(** *** Binding a parameter to a TEXT column *)

(** What sqlite3 stores when a Python value is bound to a column of TEXT
    affinity (or compared with one): [None] is NULL, a [str] is itself, a
    number is turned into its text, but for a NaN, which SQLite stores as
    NULL.  The outer [None] is the exception that sqlite3 raises on a
    [list] or a [dict], on an [int] that does not fit 64 bits, and on a
    [str] it cannot encode.  The text SQLite gives a REAL is left to
    [float_text]. *)
Section Bind.

Variable float_text : spec_float -> string.

Definition sql_text (v : json) : option (option string) :=
  match v with
  | JNull => Some None
  | JBool b => Some (Some (if b then "1" else "0"))
  | JInt z =>
      if (- 2 ^ 63 <=? z) && (z <? 2 ^ 63)
      then Some (Some (str_of_int z))
      else None
  | JFloat S754_nan => Some None
  | JFloat f => Some (Some (float_text f))
  | JStr s => if encodable s then Some (Some s) else None
  | JArr _ => None
  | JObj _ => None
  end.

End Bind.

(** *** Rows *)

(** merchants *)
Record merchant : Type := mkMerchant {
  id : Z;
  store_id : string;
  store_domain : option string;
  access_token : option string;
  refresh_token : option string;
  token_expires_at : option Z;
  waba_token : option string;
  waba_phone_id : option string;
  plan : option string;
  plan_until : option Z;
  created_at : option Z
}.

(** store_settings; [settings_json] holds the value whose [json.dumps]
    text the column stores. *)
Record settings_row : Type := mkSettings {
  ss_store_id : string;
  settings_json : json;
  updated_at : Z
}.

(** templates *)
Record template : Type := mkTemplate {
  t_store_id : string;
  tkey : option string;
  display_name : option string;
  body : option string
}.

(** events; [payload] holds the value whose [json.dumps] text the column
    stores. *)
Record event : Type := mkEvent {
  e_store_id : option string;
  event_type : option string;
  payload : json;
  e_created_at : Z
}.

(** logs *)
Record log : Type := mkLog {
  l_store_id : string;
  to_msisdn : string;
  l_template : string;
  status : string;
  error : json;
  l_created_at : Z
}.

(** One call to the WhatsApp transport: token, phone identifier,
    destination and text. *)
Record wa_call : Type := mkCall {
  c_token : string;
  c_phone_id : string;
  c_to : string;
  c_body : string
}.

(** The five tables behind the shared connection, and the calls made to
    the transport so far.  Every table but [merchants] has its [id]
    column only to order rows: AUTOINCREMENT gives each new row an id above
    all earlier ones, so those tables are lists in ascending [id] order and
    an INSERT adds at the end.  All handlers use the one connection
    [conn], so a statement's effect is visible to the next statement
    whether or not [conn.commit()] has run. *)
Record World : Type := mkWorld {
  merchants : list merchant;
  store_settings : list settings_row;
  templates : list template;
  events : list event;
  logs : list log;
  sent : list wa_call
}.

Definition set_merchants (f : list merchant -> list merchant) (w : World) : World :=
  mkWorld (f (merchants w)) (store_settings w) (templates w) (events w)
          (logs w) (sent w).

Definition set_store_settings (f : list settings_row -> list settings_row)
  (w : World) : World :=
  mkWorld (merchants w) (f (store_settings w)) (templates w) (events w)
          (logs w) (sent w).

Definition set_templates (f : list template -> list template) (w : World) : World :=
  mkWorld (merchants w) (store_settings w) (f (templates w)) (events w)
          (logs w) (sent w).

Definition set_events (f : list event -> list event) (w : World) : World :=
  mkWorld (merchants w) (store_settings w) (templates w) (f (events w))
          (logs w) (sent w).

Definition set_logs (f : list log -> list log) (w : World) : World :=
  mkWorld (merchants w) (store_settings w) (templates w) (events w)
          (f (logs w)) (sent w).

Definition set_sent (f : list wa_call -> list wa_call) (w : World) : World :=
  mkWorld (merchants w) (store_settings w) (templates w) (events w)
          (logs w) (f (sent w)).

(* ================================================================== *)
(** ** Handlers as computations *)

(** What a handler can raise: the [HTTPException]s of app.py, and the
    Python exceptions that no handler catches (the framework answers those
    with status 500). *)
Inductive exn : Type :=
| HTTPException (status_code : Z) (detail : string)
| AttributeError
| TypeError
| ValueError
| OverflowError
| UnicodeEncodeError
| SqliteError
| TransportError.

Inductive result (A : Type) : Type :=
| Ok (a : A)
| Raise (e : exn).
Arguments Ok {A} a.
Arguments Raise {A} e.

(** A computation reads and writes the world and returns or raises.
    Nothing is rolled back when it raises: the world it leaves is the one
    the statements run so far have produced. *)
Definition M (A : Type) : Type := World -> result A * World.

Definition ret {A} (a : A) : M A := fun w => (Ok a, w).

Definition raise {A} (e : exn) : M A := fun w => (Raise e, w).

Definition bind {A B} (c : M A) (k : A -> M B) : M B :=
  fun w =>
    match c w with
    | (Ok a, w') => k a w'
    | (Raise e, w') => (Raise e, w')
    end.

(** A computation that does not touch the world. *)
Definition lift {A} (r : result A) : M A := fun w => (r, w).

Definition read {A} (f : World -> A) : M A := fun w => (Ok (f w), w).

Definition execute (f : World -> World) : M unit := fun w => (Ok tt, f w).

Declare Scope monad_scope.
Delimit Scope monad_scope with monad.
Notation "x <- c ;; k" := (bind c (fun x => k))
  (at level 61, c at next level, right associativity) : monad_scope.
Notation "c ;;; k" := (bind c (fun _ => k))
  (at level 61, right associativity) : monad_scope.
Open Scope monad_scope.

(** [for x in xs: body x] *)
Fixpoint for_each {A} (xs : list A) (body : A -> M unit) : M unit :=
  match xs with
  | [] => ret tt
  | x :: rest => body x ;;; for_each rest body
  end.

(** A value used as a [dict] ([v.get(...)]): anything else raises
    [AttributeError]. *)
Definition as_dict (v : json) : M dict :=
  match v with
  | JObj fields => ret fields
  | _ => raise AttributeError
  end.

(** The errors of the specification's taxonomy, as app.py raises them. *)
Definition TenantNotFound : exn := HTTPException 404 "Store not found".
Definition InvalidInput : exn := HTTPException 400 "Missing to_msisdn/body".
Definition CredentialsMissing : exn :=
  HTTPException 400 "WABA not configured for this store".

(* ================================================================== *)
(** ** Constants of app.py *)

Definition EVENT_KINDS : list string :=
  [ "order_created"; "order_paid"; "order_fulfilled"; "out_for_delivery";
    "delivered"; "order_canceled"; "refund_created" ].

Definition DEFAULT_ENABLED : json :=
  JObj (map (fun k => (k, JBool true)) EVENT_KINDS).

Definition DEFAULT_SETTINGS : json :=
  JObj [ ("enabled", DEFAULT_ENABLED); ("rate_limit_mps", JInt 60) ].

(** [tkey], [display_name], [body] *)
Definition DEFAULT_TEMPLATES : list (string * string * string) :=
  [ ("order_created", "تم إنشاء الطلب",
     "يا {name} 🎉 تم استلام طلبك #{order_no}. رابط الطلب: {order_url}");
    ("order_paid", "تم الدفع",
     "يا {name} ✨ تم تأكيد دفع طلبك #{order_no} ✅ سنطلعك على حالة الشحن أولاً بأول.");
    ("order_fulfilled", "تم الشحن",
     "يا {name} 📦 تم شحن طلبك #{order_no}. رقم التتبع: {tracking_no}");
    ("out_for_delivery", "خارج للتسليم",
     "يا {name} 🚚 طلبك #{order_no} في الطريق إليك.");
    ("delivered", "تم التسليم",
     "يا {name} ✅ تم تسليم طلبك #{order_no}. نتمنى لك تجربة ممتعة.");
    ("order_canceled", "تم الإلغاء",
     "يؤسفنا إبلاغك بإلغاء طلبك #{order_no}. لأي استفسار نحن هنا دائمًا.");
    ("refund_created", "استرجاع",
     "تم فتح طلب استرجاع للطلب #{order_no}. سيتواصل فريقنا معك بالتفاصيل.") ].

Definition PLACEHOLDERS : list string :=
  [ "{name}"; "{order_no}"; "{order_url}"; "{tracking_no}" ].

(* ================================================================== *)
(** ** Data functions *)

(** *** get_store *)

(** [ORDER BY id DESC]: insertion sort on the [id] column. *)
Fixpoint insert_desc (m : merchant) (rows : list merchant) : list merchant :=
  match rows with
  | [] => [m]
  | r :: rest => if id r <=? id m then m :: rows else r :: insert_desc m rest
  end.

Definition order_by_id_desc (rows : list merchant) : list merchant :=
  fold_right insert_desc [] rows.

(** [SELECT * FROM merchants WHERE store_id=?] then [fetchone()] *)
Definition select_merchant (sid : string) (w : World) : option merchant :=
  find (fun m => (store_id m =? sid)%string) (merchants w).

(** [SELECT * FROM merchants ORDER BY id DESC LIMIT 2] then [fetchall()] *)
Definition select_newest_two (w : World) : list merchant :=
  firstn 2 (order_by_id_desc (merchants w)).

Definition get_store (sid : option string) (w : World) : option merchant :=
  if opt_truthy sid then
    match sid with
    | Some s => select_merchant s w
    | None => None
    end
  else
    let row := select_newest_two w in
    match row with
    | [] => None
    | [r] => Some r
    | _ => None
    end.

(** *** ensure_defaults *)

(** [SELECT settings_json FROM store_settings WHERE store_id=?] then
    [fetchone()] *)
Definition select_settings (sid : string) (w : World) : option settings_row :=
  find (fun r => (ss_store_id r =? sid)%string) (store_settings w).

(** UNIQUE(store_id) on store_settings. *)
Definition settings_conflict (new old : settings_row) : bool :=
  (ss_store_id old =? ss_store_id new)%string.

(** A row that INSERT OR REPLACE of [new] leaves in store_settings. *)
Definition other_tenant (new old : settings_row) : bool :=
  negb (settings_conflict new old).

(** UNIQUE(store_id, tkey) on templates; a NULL [tkey] conflicts with
    nothing. *)
Definition template_conflict (new old : template) : bool :=
  (t_store_id old =? t_store_id new)%string &&
  match tkey old, tkey new with
  | Some a, Some b => (a =? b)%string
  | _, _ => false
  end.

(** [INSERT OR IGNORE INTO store_settings ...] *)
Definition insert_or_ignore_settings (r : settings_row) (w : World) : World :=
  if existsb (settings_conflict r) (store_settings w) then w
  else set_store_settings (fun rows => rows ++ [r]) w.

(** [INSERT OR REPLACE INTO store_settings ...]: the rows in conflict are
    deleted, then the new row is inserted. *)
Definition insert_or_replace_settings (r : settings_row) (w : World) : World :=
  set_store_settings (fun rows => filter (other_tenant r) rows ++ [r]) w.

(** [INSERT OR IGNORE INTO templates ...] *)
Definition insert_or_ignore_template (t : template) (w : World) : World :=
  if existsb (template_conflict t) (templates w) then w
  else set_templates (fun rows => rows ++ [t]) w.

(** The row [(store_id, t["tkey"], t["display_name"], t["body"])]. *)
Definition default_row (sid : string) (t : string * string * string) : template :=
  match t with
  | (k, name, text) => mkTemplate sid (Some k) (Some name) (Some text)
  end.

(** [for t in ts: INSERT OR IGNORE INTO templates ...] *)
Definition seed_templates (sid : string) (ts : list (string * string * string))
  (w : World) : World :=
  fold_left (fun w' t => insert_or_ignore_template (default_row sid t) w') ts w.

Definition ensure_defaults (sid : string) (now : Z) (w : World) : World :=
  let w1 :=
    match select_settings sid w with
    | None => insert_or_ignore_settings (mkSettings sid DEFAULT_SETTINGS now) w
    | Some _ => w
    end in
  seed_templates sid DEFAULT_TEMPLATES w1.

(** [SELECT tkey, display_name, body FROM templates WHERE store_id=?
    ORDER BY id] then [fetchall()] *)
Definition select_templates (sid : string) (w : World) : list template :=
  filter (fun t => (t_store_id t =? sid)%string) (templates w).

(** [WHERE store_id=? AND tkey=?]: a NULL on either side matches nothing. *)
Definition template_matches (sid : string) (k : option string) (t : template) : bool :=
  (t_store_id t =? sid)%string &&
  match tkey t, k with
  | Some a, Some b => (a =? b)%string
  | _, _ => false
  end.

(** [UPDATE templates SET display_name=?, body=? WHERE store_id=? AND tkey=?] *)
Definition update_template (sid : string) (k disp txt : option string)
  (w : World) : World :=
  set_templates
    (map (fun t => if template_matches sid k t
                   then mkTemplate (t_store_id t) (tkey t) disp txt
                   else t)) w.

(** [UPDATE merchants SET waba_token=?, waba_phone_id=? WHERE store_id=?] *)
Definition set_waba (wtok wpid : option string) (m : merchant) : merchant :=
  mkMerchant (id m) (store_id m) (store_domain m) (access_token m)
             (refresh_token m) (token_expires_at m) wtok wpid
             (plan m) (plan_until m) (created_at m).

Definition update_waba (sid : string) (wtok wpid : option string)
  (w : World) : World :=
  set_merchants
    (map (fun m => if (store_id m =? sid)%string then set_waba wtok wpid m else m)) w.

(* ================================================================== *)
(** ** The handlers *)

(** What the transport answered: the parsed JSON, or the raw bytes under
    the key [text] when the answer did not parse. *)
Inductive response_data : Type :=
| Parsed (data : json)
| RawText (raw : string).

(** An inbound request to /webhook: the body and the X-Signature header. *)
Record webhook_request : Type := mkRequest {
  raw_body : string;
  x_signature : option string
}.

(** What sqlite3 raises on a parameter it cannot bind. *)
Definition bind_error (v : json) : exn :=
  match v with
  | JInt _ => OverflowError
  | JStr _ => UnicodeEncodeError
  | _ => SqliteError
  end.

Section App.

(** Process-wide configuration, read from the environment at start. *)
Variable SALLA_WEBHOOK_SEC : string.
Variable GLOBAL_WABA_TOKEN : string.
Variable GLOBAL_WABA_PHONE_ID : string.

(** Library functions the handlers call: the text SQLite gives a REAL,
    [int()] on a [str] ([None]: ValueError), [json.loads] ([None]: the
    body is not JSON), and the hex digest of HMAC-SHA256 under a key. *)
Variable float_text : spec_float -> string.
Variable int_of_str : string -> option Z.
Variable json_loads : string -> option json.
Variable hmac_sha256_hex : string -> string -> string.

(** The messaging provider: the status and data it answers a call with,
    or [None] when the HTTP client raises. *)
Variable transport : wa_call -> option (Z * response_data).

(** A parameter of a statement bound to a TEXT column. *)
Definition bind_text (v : json) : M (option string) :=
  match sql_text float_text v with
  | Some x => ret x
  | None => raise (bind_error v)
  end.

(** A [str] bound to a TEXT column. *)
Definition bind_str (s : string) : M unit :=
  if encodable s then ret tt else raise UnicodeEncodeError.

(** [json.dumps(v, ensure_ascii=False)] bound to a TEXT column. *)
Definition bind_json (v : json) : M unit :=
  if json_encodable v then ret tt else raise UnicodeEncodeError.

(** [hmac.compare_digest(digest, sig)] for a [digest] that [hexdigest()]
    gave, a text of hexadecimal digits: [None] is the TypeError raised on a
    [sig] with a character outside ASCII (such a [sig] is never the
    digest). *)
Definition compare_digest (digest sig : string) : option bool :=
  if (digest =? sig)%string then Some true
  else if is_ascii sig then Some false
  else None.

(** [int(v)]: a [bool] counts as 0 or 1, a [float] is truncated, a [str]
    is parsed; [None], a [list] and a [dict] are refused. *)
Definition int_of (v : json) : result Z :=
  match v with
  | JBool b => Ok (if b then 1 else 0)
  | JInt z => Ok z
  | JFloat f =>
      match f with
      | S754_infinity _ => Raise OverflowError
      | _ => match int_of_float f with
             | Some z => Ok z
             | None => Raise ValueError
             end
      end
  | JStr s =>
      match int_of_str s with
      | Some z => Ok z
      | None => Raise ValueError
      end
  | JNull => Raise TypeError
  | JArr _ => Raise TypeError
  | JObj _ => Raise TypeError
  end.

Definition py_int (v : json) : M Z := lift (int_of v).

(** [v.strip()]: only a [str] has the method. *)
Definition py_strip (v : json) : M string :=
  match v with
  | JStr s => ret (strip s)
  | _ => raise AttributeError
  end.

(** The values [for t in v] goes through: the items of a list, the
    characters of a [str], the keys of a [dict]; other values are not
    iterable. *)
Definition iterate (v : json) : M (list json) :=
  match v with
  | JArr items => ret items
  | JStr s => ret (map (fun c => JStr (String c EmptyString))
                       (list_ascii_of_string s))
  | JObj fields => ret (map (fun kv => JStr (fst kv)) fields)
  | _ => raise TypeError
  end.

(** [json.dumps(res.get("data"))]: bytes are not serialisable. *)
Definition json_dumps_data (d : response_data) : M json :=
  match d with
  | Parsed data => ret data
  | RawText _ => raise TypeError
  end.

(** [store = get_store(sid)] followed by [if not store: raise
    HTTPException(404, detail)]. *)
Definition require_store (sid : option string) (detail : string) : M merchant :=
  store <- read (get_store sid) ;;
  match store with
  | Some st => ret st
  | None => raise (HTTPException 404 detail)
  end.

(** *** POST /webhook *)
Definition webhook (request : webhook_request) (now : Z) : M json :=
  let raw := raw_body request in
  let sig := match x_signature request with Some s => s | None => "" end in
  (if str_truthy SALLA_WEBHOOK_SEC then
     let digest := hmac_sha256_hex SALLA_WEBHOOK_SEC raw in
     match compare_digest digest sig with
     | None => raise TypeError
     | Some false => raise (HTTPException 401 "Invalid signature")
     | Some true => ret tt
     end
   else ret tt) ;;;
  payload <- match json_loads raw with
             | Some v => ret v
             | None => raise ValueError
             end ;;
  p <- as_dict payload ;;
  let event_type := py_or (get p "event") (get_default p "type" (JStr "unknown")) in
  let store_id := get_default p "store_id" (JStr "unknown") in
  sid <- bind_text store_id ;;
  ety <- bind_text event_type ;;
  bind_json payload ;;;
  execute (set_events (fun rows => rows ++ [mkEvent sid ety payload now])) ;;;
  ret (JObj [("ok", JBool true)]).

(** *** GET /api/store *)
Definition api_store (sid : option string) : M merchant :=
  require_store sid "Store not found. استخدم ?sid=...".

(** *** GET /api/settings *)
Definition api_get_settings (sid : option string) : M json :=
  store <- require_store sid "Store not found" ;;
  row <- read (select_settings (store_id store)) ;;
  ret (match row with
       | Some r => settings_json r
       | None => DEFAULT_SETTINGS
       end).

(** *** POST /api/settings *)
Definition api_save_settings (body : json) (sid : option string) (now : Z)
  : M json :=
  store <- require_store sid "Store not found" ;;
  b <- as_dict body ;;
  let enabled := py_or (get b "enabled") DEFAULT_ENABLED in
  rate_limit_mps <- py_int (py_or (get b "rate_limit_mps") (JInt 60)) ;;
  let settings :=
    JObj [ ("enabled", enabled); ("rate_limit_mps", JInt rate_limit_mps) ] in
  bind_json settings ;;;
  execute (insert_or_replace_settings
             (mkSettings (store_id store) settings now)) ;;;
  ret (JObj [("ok", JBool true)]).

(** *** GET /api/templates *)
Definition api_get_templates (sid : option string) (now : Z)
  : M (list template) :=
  store <- require_store sid "Store not found" ;;
  rows <- read (select_templates (store_id store)) ;;
  match rows with
  | [] =>
      execute (ensure_defaults (store_id store) now) ;;;
      read (select_templates (store_id store))
  | _ => ret rows
  end.

(** *** POST /api/templates *)

(** The body of the loop [for t in tpls]. *)
Definition save_template (store : merchant) (t : json) : M unit :=
  t <- as_dict t ;;
  let tkey := get t "tkey" in
  let disp := py_or (get t "display_name") tkey in
  let txt := py_or (get t "body") (JStr "") in
  k <- bind_text tkey ;;
  d <- bind_text disp ;;
  x <- bind_text txt ;;
  execute (insert_or_ignore_template (mkTemplate (store_id store) k d x)) ;;;
  execute (update_template (store_id store) k d x).

Definition api_save_templates (body : json) (sid : option string) : M json :=
  store <- require_store sid "Store not found" ;;
  b <- as_dict body ;;
  tpls <- iterate (py_or (get b "templates") (JArr [])) ;;
  for_each tpls (save_template store) ;;;
  ret (JObj [("ok", JBool true)]).

(** *** POST /api/waba *)
Definition api_save_waba (body : json) (sid : option string) : M json :=
  store <- require_store sid "Store not found" ;;
  b <- as_dict body ;;
  let wtok := py_or (get b "waba_token") (JStr "") in
  let wpid := py_or (get b "waba_phone_id") (JStr "") in
  tok <- bind_text wtok ;;
  pid <- bind_text wpid ;;
  execute (update_waba (store_id store) tok pid) ;;;
  ret (JObj [("ok", JBool true)]).

(** *** send_whatsapp_text *)
Definition send_whatsapp_text (waba_token waba_phone_id to_msisdn body : string)
  : M (Z * response_data) :=
  let call := mkCall waba_token waba_phone_id to_msisdn body in
  execute (set_sent (fun calls => calls ++ [call])) ;;;
  match transport call with
  | Some res => ret res
  | None => raise TransportError
  end.

(** *** POST /api/test-send *)
Definition api_test_send (body : json) (sid : option string) (now : Z)
  : M (Z * response_data) :=
  store <- require_store sid "Store not found" ;;
  b <- as_dict body ;;
  to_msisdn <- py_strip (py_or (get b "to_msisdn") (JStr "")) ;;
  msg_body <- py_strip (py_or (get b "body") (JStr "")) ;;
  if negb (str_truthy to_msisdn) || negb (str_truthy msg_body)
  then raise InvalidInput
  else
    let wtk := opt_or (waba_token store) GLOBAL_WABA_TOKEN in
    let wpid := opt_or (waba_phone_id store) GLOBAL_WABA_PHONE_ID in
    if negb (str_truthy wtk) || negb (str_truthy wpid)
    then raise CredentialsMissing
    else
      res <- send_whatsapp_text wtk wpid to_msisdn msg_body ;;
      err <- json_dumps_data (snd res) ;;
      bind_str to_msisdn ;;;
      execute (set_logs (fun rows => rows ++
                 [mkLog (store_id store) to_msisdn "manual_test"
                        (str_of_int (fst res)) err now])) ;;;
      ret res.

End App.

(* ------------------------------------------------------------------ *)
(** *** Onboarding and the dashboard page *)

(** What GET /dashboard answers with: the page that asks for a store, or
    the dashboard itself. *)
Inductive page : Type :=
| ChooseStore
| Dashboard.

(** [INSERT OR REPLACE INTO merchants ...]: the rows in conflict on
    [store_id] (UNIQUE) or on [id] (the primary key) are deleted, then the
    new row is inserted. *)
Definition merchant_conflict (new old : merchant) : bool :=
  (store_id old =? store_id new)%string || (id old =? id new).

Definition insert_or_replace_merchant (m : merchant) (w : World) : World :=
  set_merchants
    (fun rows => filter (fun old => negb (merchant_conflict m old)) rows ++ [m]) w.

Section Onboarding.

Variable float_text : spec_float -> string.
Variable int_of_str : string -> option Z.

(** The token endpoint: what [(await http_post(SALLA_TOKEN_URL,
    data=data)).json()] gives for an authorization code, or the exception
    the request or the parsing raises. *)
Variable http_post_json : string -> result json.

(** [hash(v)] for a hashable value. *)
Variable py_hash : json -> Z.

(** [hash(v)]: a [list] and a [dict] are unhashable. *)
Definition hash_of (v : json) : M Z :=
  match v with
  | JArr _ => raise TypeError
  | JObj _ => raise TypeError
  | _ => ret (py_hash v)
  end.

(** An [int] bound to an INTEGER column: it has to fit 64 bits. *)
Definition bind_integer (z : Z) : M Z :=
  if (- 2 ^ 63 <=? z) && (z <? 2 ^ 63) then ret z else raise OverflowError.

(** *** GET /callback

    [rowid] is the [id] AUTOINCREMENT gives the inserted row, and [now1],
    [now2], [now3] are the three readings of the clock. *)
Definition callback (code : option string) (rowid now1 now2 now3 : Z)
  : M string :=
  if negb (opt_truthy code) then raise (HTTPException 400 "Missing code")
  else
    tok <- lift (http_post_json (match code with Some c => c | None => "" end)) ;;
    tok <- as_dict tok ;;
    let access_tok := get tok "access_token" in
    let refresh_tok := get tok "refresh_token" in
    expires_in <- py_int int_of_str (get_default tok "expires_in" (JInt 3600)) ;;
    let exp := now1 + expires_in in
    h <- hash_of access_tok ;;
    let store_id := ("store-" ++ str_of_int (h mod 999999))%string in
    let store_domain := "example.salla.sa" in
    a <- bind_text float_text access_tok ;;
    r <- bind_text float_text refresh_tok ;;
    e <- bind_integer exp ;;
    execute (insert_or_replace_merchant
               (mkMerchant rowid store_id (Some store_domain) a r (Some e)
                           None None (Some "basic") None (Some now2))) ;;;
    execute (ensure_defaults store_id now3) ;;;
    ret ("/dashboard?sid=" ++ store_id)%string.

End Onboarding.

(** *** GET /dashboard *)
Definition dashboard (sid : option string) (now : Z) : M page :=
  store <- read (get_store sid) ;;
  match store with
  | None => ret ChooseStore
  | Some st => execute (ensure_defaults (store_id st) now) ;;; ret Dashboard
  end.

(* ================================================================== *)
(** ** The preview renderer *)

(** [s.replaceAll(pat, rep)] of the dashboard script, for a text pattern
    and a replacement without [$]: every occurrence of [pat], found left
    to right, none overlapping the one before.  [skip] counts the characters
    of a match still to pass over.  Text is held in UTF-8, where an ASCII
    pattern occurs exactly where it does in the script's UTF-16 string. *)
Fixpoint replaceAll_from (skip : nat) (pat rep s : string) : string :=
  match s with
  | EmptyString => EmptyString
  | String c rest =>
      match skip with
      | S k => replaceAll_from k pat rep rest
      | O =>
          if prefix pat s
          then (rep ++ replaceAll_from (String.length pat - 1) pat rep rest)%string
          else String c (replaceAll_from 0 pat rep rest)
      end
  end.

(** With the empty pattern the replacement goes before every character
    and at the end. *)
Fixpoint intersperse (rep s : string) : string :=
  match s with
  | EmptyString => rep
  | String c rest => (rep ++ String c (intersperse rep rest))%string
  end.

Definition replaceAll (pat rep s : string) : string :=
  match pat with
  | EmptyString => intersperse rep s
  | _ => replaceAll_from 0 pat rep s
  end.

(** The text [updatePreview] puts in the preview box for a template
    body. *)
Definition updatePreview (body : string) : string :=
  replaceAll "{tracking_no}" "TRK123"
    (replaceAll "{order_url}" "https://salla.sa/orders/12345"
       (replaceAll "{order_no}" "12345"
          (replaceAll "{name}" "عميلنا" body))).

Definition PLACEHOLDER_NAMES : list string :=
  [ "name"; "order_no"; "order_url"; "tracking_no" ].

Definition placeholder (name : string) : string :=
  String "{" (name ++ "}")%string.

(** The values [updatePreview] substitutes. *)
Definition SAMPLE_VALUES : list (string * string) :=
  [ ("name", "عميلنا"); ("order_no", "12345");
    ("order_url", "https://salla.sa/orders/12345");
    ("tracking_no", "TRK123") ].

(** Whether the character occurs in the text. *)
Fixpoint has (c : ascii) (s : string) : bool :=
  match s with
  | EmptyString => false
  | String a rest => Ascii.eqb a c || has c rest
  end.

Definition brace_free (s : string) : bool :=
  negb (has "{" s) && negb (has "}" s).



(* ================================================================== *)
(** ** Vocabulary of the statements *)

(** *** The settings repository *)

(** The row [api_save_settings] writes for a body and a tenant. *)
Definition saved_settings (st : merchant) (b : dict) (rate : Z) (now : Z)
  : settings_row :=
  mkSettings (store_id st)
    (JObj [ ("enabled", py_or (get b "enabled") DEFAULT_ENABLED);
            ("rate_limit_mps", JInt rate) ])
    now.

(** The rate limit that is stored, when [int()] accepts the submitted
    value (or 60 in the place of an absent or falsy one). *)
Definition stored_rate (int_of_str : string -> option Z) (v : json) (rate : Z)
  : Prop :=
  int_of int_of_str (py_or v (JInt 60)) = Ok rate.

(** *** The inbound event recorder *)

(** The request passes the signature check of [webhook]: no secret is
    configured, or the X-Signature header (the empty text when missing) is
    the digest of the body. *)
Definition signature_verified (SALLA_WEBHOOK_SEC : string)
  (hmac_sha256_hex : string -> string -> string) (request : webhook_request)
  : Prop :=
  SALLA_WEBHOOK_SEC = "" \/
  hmac_sha256_hex SALLA_WEBHOOK_SEC (raw_body request)
  = match x_signature request with Some s => s | None => "" end.

(** The text in the [payload] column of an event:
    [json.dumps(payload, ensure_ascii=False)]. *)
Definition payload_text (float_repr : spec_float -> string) (e : event)
  : string :=
  json_dumps float_repr (payload e).

(** The value recorded as event type: the [event] field when it is truthy,
    else the [type] field, else ["unknown"] when there is no [type] field. *)
Definition event_type_of (p : dict) : json :=
  if truthy (get p "event") then get p "event"
  else match lookup "type" p with
       | Some v => v
       | None => JStr "unknown"
       end.

(** The value recorded as tenant: the [store_id] field, or ["unknown"]
    when there is none. *)
Definition store_id_of (p : dict) : json :=
  match lookup "store_id" p with
  | Some v => v
  | None => JStr "unknown"
  end.

(** *** The template repository *)

(** The three values one entry of the submitted list binds: [tkey],
    [disp] and [txt] of the loop body.  [None] when the entry is not a
    dict or a value cannot be bound. *)
Definition entry_params (float_text : spec_float -> string) (item : json)
  : option (option string * option string * option string) :=
  match item with
  | JObj t =>
      let tkey := get t "tkey" in
      let disp := py_or (get t "display_name") tkey in
      let txt := py_or (get t "body") (JStr "") in
      match sql_text float_text tkey, sql_text float_text disp,
            sql_text float_text txt with
      | Some k, Some d, Some x => Some (k, d, x)
      | _, _, _ => None
      end
  | _ => None
  end.

(** The two statements of the loop body. *)
Definition upsert_template (sid : string)
  (e : option string * option string * option string) (w : World) : World :=
  match e with
  | (k, d, x) =>
      update_template sid k d x
        (insert_or_ignore_template (mkTemplate sid k d x) w)
  end.

Definition upsert_all (sid : string)
  (entries : list (option string * option string * option string))
  (w : World) : World :=
  fold_left (fun w' e => upsert_template sid e w') entries w.

Definition entry_key (e : option string * option string * option string)
  : option string := fst (fst e).

(** The rows of tenant [sid] with key [k] exist and all carry [d], [x]. *)
Definition key_rows (sid : string) (k : string) (d x : option string)
  (rows : list template) : Prop :=
  (exists r, In r rows /\ t_store_id r = sid /\ tkey r = Some k) /\
  (forall r, In r rows -> t_store_id r = sid -> tkey r = Some k ->
             display_name r = d /\ body r = x).

(** What the UPDATE does to one row. *)
Definition updated (sid : string) (k d x : option string) (t : template)
  : template :=
  if template_matches sid k t then mkTemplate (t_store_id t) (tkey t) d x else t.




(** What the UPDATEs of a whole save do to one row, in order. *)
Definition updated_all (sid : string)
  (entries : list (option string * option string * option string))
  (t : template) : template :=
  fold_left (fun r e => match e with (k, d, x) => updated sid k d x r end)
            entries t.

(** The last entry of a save whose UPDATE reaches the row. *)
Fixpoint last_match (sid : string)
  (entries : list (option string * option string * option string))
  (t : template) : option (option string * option string * option string) :=
  match entries with
  | [] => None
  | e :: rest =>
      match last_match sid rest t with
      | Some e' => Some e'
      | None => if template_matches sid (entry_key e) t then Some e else None
      end
  end.

(** *** The constraints of the schema *)

(** UNIQUE(store_id, tkey) on templates: no two rows in conflict. *)
Fixpoint templates_unique (rows : list template) : Prop :=
  match rows with
  | [] => True
  | r :: rest =>
      existsb (template_conflict r) rest = false /\ templates_unique rest
  end.

(** The UNIQUE and PRIMARY KEY constraints of the three keyed tables. *)
Definition constraints (w : World) : Prop :=
  NoDup (map id (merchants w)) /\
  NoDup (map store_id (merchants w)) /\
  NoDup (map ss_store_id (store_settings w)) /\
  templates_unique (templates w).

(** The tenant has a settings row and a template for each event kind. *)
Definition seeded (sid : string) (w : World) : Prop :=
  select_settings sid w <> None /\
  Forall (fun k => exists t, In t (templates w) /\
                             t_store_id t = sid /\ tkey t = Some k)
         EVENT_KINDS.

(* ================================================================== *)
(** ** Test data *)

Definition tenant (n : Z) (sid : string) (tok pid : option string) : merchant :=
  mkMerchant n sid (Some "example.salla.sa") (Some "at") (Some "rt")
             (Some 3600) tok pid (Some "basic") None (Some 0).

Definition world_of (ms : list merchant) : World :=
  mkWorld ms [] [] [] [] [].

Definition store_1 : merchant := tenant 1 "store-1" None None.
Definition store_2 : merchant := tenant 2 "store-2" None None.

(** Two tenants, each with a template under [order_paid]. *)
Definition two_tenants : World :=
  mkWorld [store_1; store_2] []
    [ mkTemplate "store-1" (Some "order_paid") (Some "Paid") (Some "old 1");
      mkTemplate "store-2" (Some "order_paid") (Some "Paid") (Some "old 2");
      mkTemplate "store-1" (Some "delivered") (Some "Done") (Some "old 3") ]
    [] [] [].

(** A transport that answers every call with status 200. *)
Definition transport_200 (c : wa_call) : option (Z * response_data) :=
  Some (200, Parsed (JObj [("messages", JArr [])])).

(** A provider that is down, one that answers with a web page, and one
    that refuses the token. *)
Definition transport_down (c : wa_call) : option (Z * response_data) := None.

Definition transport_html (c : wa_call) : option (Z * response_data) :=
  Some (502, RawText "<html>Bad Gateway</html>").

Definition transport_401 (c : wa_call) : option (Z * response_data) :=
  Some (401, Parsed (JObj [("error", JStr "bad token")])).

Definition float_text_0 (f : spec_float) : string := "0.0".

(** [int()] on text, for decimal digits only; enough for the examples. *)
Definition int_of_digits (s : string) : option Z :=
  match NilEmpty.uint_of_string s with
  | Some u => Some (Z.of_uint u)
  | None => None
  end.

(** A parser that knows one body, and a digest function. *)
Definition loads_as (v : json) (raw : string) : option json := Some v.
Definition digest_0 (key raw : string) : string := "00".

Definition send_request (to msg : string) : json :=
  JObj [("to_msisdn", JStr to); ("body", JStr msg)].

Definition settings_request (enabled : json) (rate : json) : json :=
  JObj [("enabled", enabled); ("rate_limit_mps", rate)].

(** One entry of a template save. *)
Definition template_entry (key name text : string) : json :=
  JObj [("tkey", JStr key); ("display_name", JStr name); ("body", JStr text)].

Definition templates_request (items : list json) : json :=
  JObj [("templates", JArr items)].

(** An event with an empty [event] field and a [type] field. *)
Definition payload_empty_event : json :=
  JObj [ ("event", JStr ""); ("type", JStr "order.created");
         ("store_id", JStr "store-1"); ("data", JObj [("id", JInt 12345)]) ].

(** A body without white space, what it parses to, and a parser that
    knows this one body. *)
Definition compact_request : webhook_request :=
  mkRequest ("{" ++ QUOTE ++ "event" ++ QUOTE ++ ":"
                 ++ QUOTE ++ "order.paid" ++ QUOTE ++ "}")%string
            None.

Definition compact_payload : json := JObj [("event", JStr "order.paid")].

Definition loads_compact (raw : string) : option json :=
  if (raw =? raw_body compact_request)%string then Some compact_payload
  else None.

(** A text that is one lone surrogate, U+D800, and an event that holds
    it. *)
Definition LONE_SURROGATE : string := bytes [237; 160; 128]%nat.

Definition payload_surrogate : json :=
  JObj [ ("event", JStr "order.paid"); ("note", JStr LONE_SURROGATE) ].

Definition payload_both : json :=
  JObj [ ("event", JStr "order.paid"); ("type", JStr "order.created");
         ("data", JObj [("id", JInt 12345)]) ].

(** A token endpoint that grants every code the same tokens, a hash, and
    the state after onboarding with them where [store-1] already exists. *)
Definition token_endpoint (code : string) : result json :=
  Ok (JObj [ ("access_token", JStr "A"); ("refresh_token", JStr "R");
             ("expires_in", JInt 60) ]).

Definition hash_1 (v : json) : Z := 1.

Definition onboarded : World :=
  snd (callback float_text_0 int_of_digits token_endpoint hash_1
         (Some "code") 3 10 11 12 two_tenants).

(* ================================================================== *)
(** ** Sanity checks on concrete inputs *)

Example PLACEHOLDERS_names : map placeholder PLACEHOLDER_NAMES = PLACEHOLDERS.
Proof. reflexivity. Qed.

Example json_dumps_example :
  json_dumps float_text_0
    (JObj [("event", JStr "order.paid"); ("ids", JArr [JInt 1; JNull])])
  = ("{" ++ QUOTE ++ "event" ++ QUOTE ++ ": " ++ QUOTE ++ "order.paid" ++ QUOTE
         ++ ", " ++ QUOTE ++ "ids" ++ QUOTE ++ ": [1, null]}")%string.
Proof. reflexivity. Qed.

Example encodable_example :
  encodable "عميلنا" = true /\
  encodable (bytes [97; 237; 160; 128]%nat) = false /\
  json_encodable (JObj [("note", JStr (bytes [237; 160; 128]%nat))]) = false.
Proof. repeat split. Qed.

Example webhook_non_ascii_signature :
  webhook "secret" float_text_0 (loads_as payload_both) digest_0
          (mkRequest "{...}" (Some (bytes [195; 169]%nat))) 3 (world_of [store_1])
  = (Raise TypeError, world_of [store_1]).
Proof. reflexivity. Qed.

Example updatePreview_example :
  updatePreview "{name}: {order_no} {foo} {tracking_no}"
  = "عميلنا: 12345 {foo} TRK123".
Proof. vm_compute. reflexivity. Qed.

Example replaceAll_overlap : replaceAll "aa" "b" "aaa" = "ba".
Proof. reflexivity. Qed.

Example replaceAll_empty : replaceAll "" "-" "ab" = "-a-b-".
Proof. reflexivity. Qed.

Example strip_example : strip "  9665 12 	" = "9665 12".
Proof. vm_compute. reflexivity. Qed.

Example strip_nbsp : strip (bytes [194; 160; 65; 226; 128; 137]%nat) = "A".
Proof. vm_compute. reflexivity. Qed.

Example int_of_float_example :
  int_of_float (S754_finite true 11 (-2)) = Some (-2).
Proof. reflexivity. Qed.

(* ================================================================== *)
(** ** Text that can be encoded *)

Lemma json_induction (P : json -> Prop) :
  P JNull -> (forall b, P (JBool b)) -> (forall z, P (JInt z)) ->
  (forall f, P (JFloat f)) -> (forall s, P (JStr s)) ->
  (forall items, Forall P items -> P (JArr items)) ->
  (forall fields, Forall (fun kv => P (snd kv)) fields -> P (JObj fields)) ->
  forall v, P v.
Proof.
  intros HN HB HZ HF HS HA HO. fix IH 1. intros v.
  destruct v as [| b | z | f | s | items | fields].
  - exact HN.
  - apply HB.
  - apply HZ.
  - apply HF.
  - apply HS.
  - apply HA. induction items as [| x items IHi]; constructor; [apply IH | exact IHi].
  - apply HO. induction fields as [| [k x] fields IHf]; constructor;
      [apply IH | exact IHf].
Qed.

(** A byte of an ASCII character. *)
#[local] Abbreviation low c := (nat_of_ascii c <? 128)%nat.

Lemma is_ascii_cons (c : ascii) (s : string) :
  is_ascii (String c s) = low c && is_ascii s.
Proof. reflexivity. Qed.

Lemma is_ascii_append (a b : string) :
  is_ascii (a ++ b) = is_ascii a && is_ascii b.
Proof.
  induction a as [| c a IH]; [reflexivity |].
  cbn [append]. rewrite !is_ascii_cons, IH. apply andb_assoc.
Qed.

Lemma surrogate_lead_low_l (a b : ascii) :
  low a = true -> surrogate_lead a b = false.
Proof.
  intros L. unfold surrogate_lead. apply Nat.ltb_lt in L.
  destruct (Nat.eqb_spec (nat_of_ascii a) 237); [lia | reflexivity].
Qed.

Lemma surrogate_lead_low_r (a b : ascii) :
  low b = true -> surrogate_lead a b = false.
Proof.
  intros L. unfold surrogate_lead. apply Nat.ltb_lt in L.
  destruct (Nat.leb_spec 160 (nat_of_ascii b)); [lia |].
  now rewrite andb_false_r.
Qed.

Lemma encodable_cons (a : ascii) (r : string) :
  encodable (String a r)
  = negb (match r with
          | String b _ => surrogate_lead a b
          | EmptyString => false
          end) && encodable r.
Proof. reflexivity. Qed.

Lemma encodable_cons_low (a : ascii) (r : string) :
  low a = true -> encodable (String a r) = encodable r.
Proof.
  intros L. rewrite encodable_cons.
  destruct r as [| b r]; [reflexivity |].
  now rewrite (surrogate_lead_low_l a b L).
Qed.

(** ASCII text can be encoded, and so can a text with ASCII before it. *)
Lemma encodable_ascii_append (e r : string) :
  is_ascii e = true -> encodable (e ++ r) = encodable r.
Proof.
  induction e as [| c e IH]; intros A; [reflexivity |].
  rewrite is_ascii_cons in A. apply andb_prop in A. destruct A as [L A].
  cbn [append]. rewrite (encodable_cons_low c _ L). now apply IH.
Qed.

Lemma is_ascii_encodable (s : string) : is_ascii s = true -> encodable s = true.
Proof.
  induction s as [| c s IH]; intros A; [reflexivity |].
  rewrite is_ascii_cons in A. apply andb_prop in A. destruct A as [L A].
  rewrite (encodable_cons_low c s L). now apply IH.
Qed.

(** Two texts joined at an ASCII character can be encoded exactly when
    each can. *)
Lemma encodable_append_low (x : string) (c : ascii) (y : string) :
  low c = true ->
  encodable (x ++ String c y) = encodable x && encodable y.
Proof.
  intros L. induction x as [| a x IH].
  - cbn [append]. now rewrite (encodable_cons_low c y L).
  - cbn [append]. rewrite !encodable_cons, IH.
    destruct x as [| b x]; cbn [append].
    + now rewrite (surrogate_lead_low_r a c L).
    + now rewrite andb_assoc.
Qed.

(** An escape is ASCII and stands for an ASCII character. *)
Lemma escape_char_cases (c : ascii) :
  escape_char c = String c EmptyString \/
  (low c = true /\ is_ascii (escape_char c) = true /\
   exists e, escape_char c = String "092"%char e).
Proof.
  destruct c as [[|] [|] [|] [|] [|] [|] [|] [|]];
    first [ left; reflexivity
          | right; split; [reflexivity | split; [reflexivity |]];
            eexists; reflexivity ].
Qed.

Lemma escape_cons (c : ascii) (s : string) :
  escape (String c s) = (escape_char c ++ escape s)%string.
Proof. reflexivity. Qed.

Lemma escape_lead (a : ascii) (r : string) :
  match escape r with
  | String b _ => surrogate_lead a b
  | EmptyString => false
  end
  = match r with
    | String b _ => surrogate_lead a b
    | EmptyString => false
    end.
Proof.
  destruct r as [| b r]; [reflexivity |]. rewrite escape_cons.
  destruct (escape_char_cases b) as [E | [L [_ [e E]]]]; rewrite E.
  - reflexivity.
  - cbn [append]. rewrite (surrogate_lead_low_r a b L).
    now apply surrogate_lead_low_r.
Qed.

Lemma encodable_escape (s : string) : encodable (escape s) = encodable s.
Proof.
  induction s as [| c s IH]; [reflexivity |]. rewrite escape_cons.
  destruct (escape_char_cases c) as [E | [L [A _]]].
  - rewrite E. cbn [append]. now rewrite !encodable_cons, escape_lead, IH.
  - now rewrite (encodable_ascii_append _ _ A), (encodable_cons_low c s L).
Qed.

Lemma encodable_quoted (s : string) : encodable (quoted s) = encodable s.
Proof.
  unfold quoted, QUOTE. cbn [append].
  rewrite encodable_cons_low by reflexivity.
  rewrite encodable_append_low by reflexivity.
  rewrite encodable_escape. apply andb_true_r.
Qed.

Lemma encodable_join (parts : list string) :
  encodable (join ", " parts) = forallb encodable parts.
Proof.
  induction parts as [| x [| y parts] IH]; [reflexivity | |].
  - cbn [join forallb]. now rewrite andb_true_r.
  - change (join ", " (x :: y :: parts))
      with (x ++ String "," (String " " (join ", " (y :: parts))))%string.
    rewrite encodable_append_low by reflexivity.
    rewrite encodable_cons_low by reflexivity.
    now rewrite IH.
Qed.

Lemma is_ascii_string_of_uint (u : Decimal.uint) :
  is_ascii (NilEmpty.string_of_uint u) = true.
Proof.
  induction u; cbn [NilEmpty.string_of_uint]; [reflexivity | ..];
    rewrite is_ascii_cons; exact IHu.
Qed.

Lemma is_ascii_str_of_int (z : Z) : is_ascii (str_of_int z) = true.
Proof.
  unfold str_of_int, NilZero.string_of_int, NilZero.string_of_uint.
  destruct (Z.to_int z) as [u | u]; destruct u;
    try reflexivity; try apply is_ascii_string_of_uint;
    rewrite is_ascii_cons; apply is_ascii_string_of_uint.
Qed.

Section DumpsText.

Variable float_repr : spec_float -> string.
Hypothesis float_repr_ascii : forall f, is_ascii (float_repr f) = true.

(** The text [json.dumps(v, ensure_ascii=False)] writes can be encoded
    exactly when every key and every text of [v] can: what [bind_json]
    tests is whether sqlite3 can bind that text. *)
Lemma json_dumps_encodable (v : json) :
  encodable (json_dumps float_repr v) = json_encodable v.
Proof.
  induction v as [| b | z | f | s | items IH | fields IH] using json_induction.
  - reflexivity.
  - now destruct b.
  - apply is_ascii_encodable, is_ascii_str_of_int.
  - apply is_ascii_encodable.
    destruct f as [sg | sg | | sg m e]; try apply float_repr_ascii;
      try reflexivity; now destruct sg.
  - apply encodable_quoted.
  - change (json_dumps float_repr (JArr items))
      with (String "[" (join ", " (map (json_dumps float_repr) items)
                          ++ String "]" EmptyString))%string.
    rewrite encodable_cons_low by reflexivity.
    rewrite encodable_append_low by reflexivity.
    rewrite encodable_join, andb_true_r. cbn [json_encodable].
    induction IH as [| x items Hx _ IHitems]; [reflexivity |].
    cbn [map forallb]. now rewrite Hx, IHitems.
  - change (json_dumps float_repr (JObj fields))
      with (String "{"
              (join ", "
                 (map (fun kv => match kv with
                                 | (k, x) =>
                                     quoted k ++ ": " ++ json_dumps float_repr x
                                 end) fields)
               ++ String "}" EmptyString))%string.
    rewrite encodable_cons_low by reflexivity.
    rewrite encodable_append_low by reflexivity.
    rewrite encodable_join, andb_true_r. cbn [json_encodable].
    induction IH as [| [k x] fields Hx _ IHfields]; [reflexivity |].
    cbn [map forallb]. rewrite IHfields. f_equal.
    change (quoted k ++ ": " ++ json_dumps float_repr x)%string
      with (quoted k ++ String ":" (String " " (json_dumps float_repr x)))%string.
    rewrite encodable_append_low by reflexivity.
    rewrite encodable_cons_low by reflexivity.
    cbn [snd] in Hx. now rewrite encodable_quoted, Hx.
Qed.

End DumpsText.

(* ================================================================== *)
(** ** Tenant resolution *)

Lemma str_truthy_true (s : string) : s <> "" -> str_truthy s = true.
Proof.
  intros H. unfold str_truthy.
  destruct (String.eqb_spec s ""); [contradiction | reflexivity].
Qed.


Lemma insert_desc_length (m : merchant) (rows : list merchant) :
  List.length (insert_desc m rows) = S (List.length rows).
Proof.
  induction rows as [| r rest IH]; simpl; [reflexivity |].
  destruct (id r <=? id m); simpl; [reflexivity | now rewrite IH].
Qed.

Lemma order_by_id_desc_length (rows : list merchant) :
  List.length (order_by_id_desc rows) = List.length rows.
Proof.
  induction rows as [| r rest IH]; simpl; [reflexivity |].
  now rewrite insert_desc_length, IH.
Qed.

Lemma select_newest_two_length (w : World) :
  (List.length (select_newest_two w) <= 2)%nat.
Proof. unfold select_newest_two. apply firstn_le_length. Qed.

(** Without an identifier the answer is the single tenant, when there is
    exactly one. *)
Lemma get_store_no_sid (w : World) :
  get_store None w = match merchants w with [m] => Some m | _ => None end.
Proof.
  unfold get_store, select_newest_two; simpl.
  destruct (merchants w) as [| m1 [| m2 rest]] eqn:E; try reflexivity.
  pose proof (order_by_id_desc_length (m1 :: m2 :: rest)) as L.
  destruct (order_by_id_desc (m1 :: m2 :: rest)) as [| a [| b l]];
    simpl in L; try discriminate; reflexivity.
Qed.

Lemma get_store_explicit (s : string) (w : World) :
  s <> "" -> get_store (Some s) w = select_merchant s w.
Proof.
  intros H. unfold get_store; simpl. now rewrite (str_truthy_true s H).
Qed.

Lemma get_store_empty (w : World) : get_store (Some "") w = get_store None w.
Proof. reflexivity. Qed.

Lemma select_merchant_sound (s : string) (w : World) (m : merchant) :
  select_merchant s w = Some m -> In m (merchants w) /\ store_id m = s.
Proof.
  unfold select_merchant. intros H. apply find_some in H.
  destruct H as [Hin Heq]. apply String.eqb_eq in Heq. auto.
Qed.

Lemma select_merchant_none (s : string) (w : World) :
  (forall m, In m (merchants w) -> store_id m <> s) ->
  select_merchant s w = None.
Proof.
  unfold select_merchant. intros H.
  destruct (find _ (merchants w)) as [m |] eqn:F; [| reflexivity].
  apply find_some in F. destruct F as [Hin Heq].
  apply String.eqb_eq in Heq. now apply H in Hin.
Qed.

(** Under the UNIQUE constraint on [store_id] the row found is the one
    tenant with that identifier. *)
Lemma select_merchant_unique (s : string) (w : World) (m : merchant) :
  NoDup (map store_id (merchants w)) ->
  In m (merchants w) -> store_id m = s ->
  select_merchant s w = Some m.
Proof.
  unfold select_merchant.
  induction (merchants w) as [| r rest IH]; simpl; intros ND Hin Heq.
  - contradiction.
  - inversion ND as [| x l Hnot ND']; subst.
    destruct (String.eqb_spec (store_id r) (store_id m)) as [E | NE].
    + destruct Hin as [-> | Hin]; [reflexivity |].
      exfalso. apply Hnot. rewrite E. now apply in_map.
    + destruct Hin as [-> | Hin]; [congruence |]. now apply IH.
Qed.

(** C1 (as amended).  For every NON-EMPTY explicit identifier the resolver
    answers with the row of [merchants] whose [store_id] equals it exactly
    (the only such row under the UNIQUE constraint), and with not-found
    when no row matches.  Without an identifier it reads at most the two
    newest rows ([ORDER BY id DESC LIMIT 2]) and its answer is decided by
    those rows alone: not-found for no tenant, the tenant for exactly one,
    not-found for two or more. *)
Theorem get_store_resolution (w : World) :
  (forall s, s <> "" ->
     get_store (Some s) w = select_merchant s w /\
     (forall m, get_store (Some s) w = Some m ->
                In m (merchants w) /\ store_id m = s) /\
     (forall m, NoDup (map store_id (merchants w)) ->
                In m (merchants w) -> store_id m = s ->
                get_store (Some s) w = Some m) /\
     ((forall m, In m (merchants w) -> store_id m <> s) ->
      get_store (Some s) w = None)) /\
  (List.length (select_newest_two w) <= 2)%nat /\
  (forall w', select_newest_two w' = select_newest_two w ->
              get_store None w' = get_store None w) /\
  (merchants w = [] -> get_store None w = None) /\
  (forall m, merchants w = [m] -> get_store None w = Some m) /\
  ((2 <= List.length (merchants w))%nat -> get_store None w = None).
Proof.
  split; [| split; [| split; [| split; [| split]]]].
  - intros s Hs. rewrite (get_store_explicit s w Hs).
    split; [reflexivity | split; [| split]].
    + intros m. apply select_merchant_sound.
    + intros m. apply select_merchant_unique.
    + apply select_merchant_none.
  - apply select_newest_two_length.
  - intros w' H. unfold get_store; simpl. now rewrite H.
  - intros H. now rewrite get_store_no_sid, H.
  - intros m H. now rewrite get_store_no_sid, H.
  - intros H. rewrite get_store_no_sid.
    destruct (merchants w) as [| m1 [| m2 rest]]; simpl in H; try lia.
    reflexivity.
Qed.

Lemma get_store_resolution_witness :
  get_store (Some "store-2") (world_of [store_1; store_2]) = Some store_2 /\
  get_store (Some "store-9") (world_of [store_1; store_2]) = None /\
  get_store None (world_of []) = None /\
  get_store None (world_of [store_1]) = Some store_1 /\
  get_store None (world_of [store_1; store_2]) = None.
Proof.
  pose proof (get_store_resolution (world_of [store_1; store_2])) as [E [_ [_ [_ [_ Two]]]]].
  pose proof (get_store_resolution (world_of [store_1])) as [_ [_ [_ [_ [One _]]]]].
  pose proof (get_store_resolution (world_of [])) as [_ [_ [_ [Zero _]]]].
  assert (N2 : "store-2" <> "") by discriminate.
  assert (N9 : "store-9" <> "") by discriminate.
  destruct (E "store-2" N2) as [_ [_ [U _]]].
  destruct (E "store-9" N9) as [_ [_ [_ NF]]].
  split; [| split; [| split; [| split]]].
  - apply U.
    + simpl. repeat constructor; simpl; intuition discriminate.
    + simpl. auto.
    + reflexivity.
  - apply NF. simpl. intros m [<- | [<- | []]]; discriminate.
  - apply Zero. reflexivity.
  - apply One. reflexivity.
  - apply Two. simpl. lia.
Defined.

(** C1 as stated fails at the empty identifier: with one tenant
    [store-1], the explicit identifier [""] matches no row, yet the
    resolver answers with [store-1], whose [store_id] is not [""]. *)
Lemma get_store_empty_sid_counterexample :
  select_merchant "" (world_of [store_1]) = None /\
  get_store (Some "") (world_of [store_1]) = Some store_1 /\
  store_id store_1 <> "".
Proof. repeat split. discriminate. Qed.

(** C9.  The empty identifier is taken as no identifier: [get_store] and
    GET /api/store answer [sid=""] exactly as they answer a request without
    [sid], by the two-row peek: the tenant when there is exactly one, and
    not-found otherwise. *)
Theorem empty_sid_is_absent (w : World) :
  get_store (Some "") w = get_store None w /\
  api_store (Some "") w = api_store None w /\
  get_store (Some "") w
    = match select_newest_two w with [r] => Some r | _ => None end /\
  get_store (Some "") w
    = match merchants w with [m] => Some m | _ => None end /\
  api_store (Some "") w
    = match merchants w with
      | [m] => (Ok m, w)
      | _ => (Raise (HTTPException 404 "Store not found. استخدم ?sid=..."), w)
      end.
Proof.
  split; [reflexivity | split; [reflexivity | split; [| split]]].
  - unfold get_store; simpl.
    destruct (select_newest_two w) as [| a [| b l]]; reflexivity.
  - rewrite get_store_empty. apply get_store_no_sid.
  - unfold api_store, require_store, bind, read.
    rewrite get_store_empty, get_store_no_sid.
    destruct (merchants w) as [| m1 [| m2 rest]]; reflexivity.
Qed.

(* ================================================================== *)
(** ** The default seeder *)

Section Seeder.

Variable sid : string.

Lemma default_row_conflicts_itself (t : string * string * string) :
  template_conflict (default_row sid t) (default_row sid t) = true.
Proof.
  destruct t as [[k name] text]. unfold template_conflict; simpl.
  now rewrite !String.eqb_refl.
Qed.

Lemma insert_or_ignore_template_present (t : template) (w : World) :
  existsb (template_conflict t) (templates w) = true ->
  insert_or_ignore_template t w = w.
Proof. intros H. unfold insert_or_ignore_template. now rewrite H. Qed.

(** An insert adds at the end, and only a row in conflict with none. *)
Lemma insert_or_ignore_template_appends (t : template) (w : World) :
  exists added,
    insert_or_ignore_template t w = set_templates (fun rows => rows ++ added) w /\
    (added = [] /\ existsb (template_conflict t) (templates w) = true \/
     added = [t] /\ existsb (template_conflict t) (templates w) = false).
Proof.
  unfold insert_or_ignore_template.
  destruct (existsb (template_conflict t) (templates w)) eqn:E.
  - exists []. split; [| now left].
    destruct w; unfold set_templates; simpl. now rewrite app_nil_r.
  - exists [t]. split; [reflexivity | now right].
Qed.

Lemma insert_or_ignore_template_keeps (t u : template) (w : World) :
  existsb (template_conflict u) (templates w) = true ->
  existsb (template_conflict u) (templates (insert_or_ignore_template t w)) = true.
Proof.
  intros H. destruct (insert_or_ignore_template_appends t w) as [added [-> _]].
  simpl. rewrite existsb_app, H. reflexivity.
Qed.

Lemma insert_or_ignore_template_covers (t : string * string * string) (w : World) :
  existsb (template_conflict (default_row sid t))
          (templates (insert_or_ignore_template (default_row sid t) w)) = true.
Proof.
  unfold insert_or_ignore_template.
  destruct (existsb _ (templates w)) eqn:E; [exact E |].
  simpl. rewrite existsb_app. simpl.
  rewrite default_row_conflicts_itself. now rewrite orb_true_r.
Qed.

Lemma seed_templates_keeps (ts : list (string * string * string))
  (u : template) (w : World) :
  existsb (template_conflict u) (templates w) = true ->
  existsb (template_conflict u) (templates (seed_templates sid ts w)) = true.
Proof.
  revert w. induction ts as [| t ts IH]; intros w H; simpl; [exact H |].
  apply IH. now apply insert_or_ignore_template_keeps.
Qed.

(** After seeding, every default has its row. *)
Lemma seed_templates_covers (ts : list (string * string * string))
  (t : string * string * string) (w : World) :
  In t ts ->
  existsb (template_conflict (default_row sid t))
          (templates (seed_templates sid ts w)) = true.
Proof.
  revert w. induction ts as [| t0 ts IH]; intros w Hin; [contradiction |].
  simpl. destruct Hin as [-> | Hin].
  - apply seed_templates_keeps, insert_or_ignore_template_covers.
  - now apply IH.
Qed.

(** Seeding a table in which every default has its row changes nothing. *)
Lemma seed_templates_fixed (ts : list (string * string * string)) (w : World) :
  (forall t, In t ts ->
     existsb (template_conflict (default_row sid t)) (templates w) = true) ->
  seed_templates sid ts w = w.
Proof.
  induction ts as [| t0 ts IH]; intros H; simpl; [reflexivity |].
  rewrite insert_or_ignore_template_present by (apply H; now left).
  apply IH. intros t Hin. apply H. now right.
Qed.

(** Seeding only adds rows at the end of [templates], each one a default
    in conflict with no row that was there before. *)
Lemma seed_templates_appends (ts : list (string * string * string)) (w : World) :
  exists added,
    seed_templates sid ts w = set_templates (fun rows => rows ++ added) w /\
    Forall (fun u => In u (map (default_row sid) ts) /\
                     existsb (template_conflict u) (templates w) = false) added.
Proof.
  revert w. induction ts as [| t0 ts IH]; intros w; simpl.
  - exists []. split; [| constructor].
    destruct w; unfold set_templates; simpl. now rewrite app_nil_r.
  - destruct (insert_or_ignore_template_appends (default_row sid t0) w)
      as [a0 [E0 H0]].
    destruct (IH (insert_or_ignore_template (default_row sid t0) w))
      as [a1 [E1 H1]].
    exists (a0 ++ a1). split.
    + rewrite E1, E0. destruct w; unfold set_templates; simpl.
      now rewrite app_assoc.
    + apply Forall_app. split.
      * destruct H0 as [[-> _] | [-> Hno]]; constructor; auto.
      * rewrite E0 in H1. simpl in H1.
        eapply Forall_impl; [| exact H1]. simpl. intros u [Hin Hno].
        split; [now right |].
        rewrite existsb_app in Hno. now apply orb_false_elim in Hno.
Qed.

Lemma seed_templates_store_settings (ts : list (string * string * string))
  (w : World) :
  store_settings (seed_templates sid ts w) = store_settings w.
Proof.
  destruct (seed_templates_appends ts w) as [added [-> _]]. reflexivity.
Qed.

Lemma select_settings_existsb (r : settings_row) (w : World) :
  ss_store_id r = sid ->
  select_settings sid w = None ->
  existsb (settings_conflict r) (store_settings w) = false.
Proof.
  unfold select_settings, settings_conflict. intros <-.
  induction (store_settings w) as [| x rows IH]; simpl; [reflexivity |].
  destruct (ss_store_id x =? ss_store_id r)%string; [discriminate | auto].
Qed.

(** What the settings half of the seeder does. *)
Lemma ensure_defaults_store_settings (now : Z) (w : World) :
  store_settings (ensure_defaults sid now w)
  = store_settings w ++
    match select_settings sid w with
    | None => [mkSettings sid DEFAULT_SETTINGS now]
    | Some _ => []
    end.
Proof.
  unfold ensure_defaults. rewrite seed_templates_store_settings.
  destruct (select_settings sid w) eqn:E; [now rewrite app_nil_r |].
  unfold insert_or_ignore_settings.
  now rewrite (select_settings_existsb (mkSettings sid DEFAULT_SETTINGS now) w eq_refl E).
Qed.

Lemma ensure_defaults_has_settings (now : Z) (w : World) :
  select_settings sid (ensure_defaults sid now w) <> None.
Proof.
  unfold select_settings at 1. rewrite ensure_defaults_store_settings.
  unfold select_settings.
  destruct (find _ (store_settings w)) as [r |] eqn:E.
  - rewrite app_nil_r, E. discriminate.
  - intros F. apply find_none with (x := mkSettings sid DEFAULT_SETTINGS now) in F.
    + simpl in F. now rewrite String.eqb_refl in F.
    + apply in_or_app. right. now left.
Qed.

(** C2.  Running the seeder a second time, at any later clock reading,
    changes nothing: the world after two runs is the world after one, so
    the tenant's settings row and template rows are the same.  A run only
    adds rows, at the end of the two tables: a settings row when the
    tenant has none, and default templates in conflict with no row already
    there; every row present before is still there, unchanged, and the
    other tables are not touched. *)
Theorem ensure_defaults_idempotent (t1 t2 : Z) (w : World) :
  ensure_defaults sid t2 (ensure_defaults sid t1 w) = ensure_defaults sid t1 w /\
  store_settings (ensure_defaults sid t1 w)
    = store_settings w ++
      match select_settings sid w with
      | None => [mkSettings sid DEFAULT_SETTINGS t1]
      | Some _ => []
      end /\
  (exists added,
     templates (ensure_defaults sid t1 w) = templates w ++ added /\
     Forall (fun u => In u (map (default_row sid) DEFAULT_TEMPLATES) /\
                      existsb (template_conflict u) (templates w) = false)
            added) /\
  merchants (ensure_defaults sid t1 w) = merchants w /\
  events (ensure_defaults sid t1 w) = events w /\
  logs (ensure_defaults sid t1 w) = logs w /\
  sent (ensure_defaults sid t1 w) = sent w.
Proof.
  split; [| split; [apply ensure_defaults_store_settings |]].
  - pose proof (ensure_defaults_has_settings t1 w) as Has.
    unfold ensure_defaults at 1.
    destruct (select_settings sid (ensure_defaults sid t1 w)); [| congruence].
    apply seed_templates_fixed. intros t Hin.
    unfold ensure_defaults. now apply seed_templates_covers.
  - unfold ensure_defaults.
    set (w1 := match select_settings sid w with
               | None => _ | Some _ => w end).
    assert (T1 : templates w1 = templates w /\ merchants w1 = merchants w /\
                 events w1 = events w /\ logs w1 = logs w /\ sent w1 = sent w).
    { subst w1. destruct (select_settings sid w); [tauto |].
      unfold insert_or_ignore_settings.
      destruct (existsb _ (store_settings w)); simpl; tauto. }
    destruct T1 as [Tt [Tm [Te [Tl Ts]]]].
    destruct (seed_templates_appends DEFAULT_TEMPLATES w1) as [added [-> F]].
    simpl. rewrite Tt in *. rewrite Tm, Te, Tl, Ts.
    split; [| tauto]. exists added. split; [reflexivity | exact F].
Qed.

End Seeder.

Example ensure_defaults_fresh :
  map tkey (templates (ensure_defaults "store-1" 7 (world_of [store_1])))
  = map Some EVENT_KINDS /\
  store_settings (ensure_defaults "store-1" 7 (world_of [store_1]))
  = [mkSettings "store-1" DEFAULT_SETTINGS 7].
Proof. split; reflexivity. Qed.

(* ================================================================== *)
(** ** The ad-hoc send pipeline *)

Section Dispatch.

Variable GLOBAL_WABA_TOKEN : string.
Variable GLOBAL_WABA_PHONE_ID : string.
Variable transport : wa_call -> option (Z * response_data).

#[local] Abbreviation test_send :=
  (api_test_send GLOBAL_WABA_TOKEN GLOBAL_WABA_PHONE_ID transport).

Lemma require_store_found (sid : option string) (detail : string)
  (w : World) (st : merchant) :
  get_store sid w = Some st -> require_store sid detail w = (Ok st, w).
Proof. intros H. unfold require_store, bind, read. now rewrite H. Qed.

Lemma require_store_missing (sid : option string) (detail : string) (w : World) :
  get_store sid w = None ->
  require_store sid detail w = (Raise (HTTPException 404 detail), w).
Proof. intros H. unfold require_store, bind, read. now rewrite H. Qed.

(** The request as the handler sees it once the tenant is resolved and
    both fields are text (or absent, or falsy, which [or ""] turns into
    the empty text). *)
Lemma api_test_send_text (body : json) (sid : option string) (now : Z)
  (w : World) (st : merchant) (b : dict) (to msg : string) :
  get_store sid w = Some st ->
  body = JObj b ->
  py_or (get b "to_msisdn") (JStr "") = JStr to ->
  py_or (get b "body") (JStr "") = JStr msg ->
  test_send body sid now w =
    if negb (str_truthy (strip to)) || negb (str_truthy (strip msg))
    then (Raise InvalidInput, w)
    else
      let wtk := opt_or (waba_token st) GLOBAL_WABA_TOKEN in
      let wpid := opt_or (waba_phone_id st) GLOBAL_WABA_PHONE_ID in
      if negb (str_truthy wtk) || negb (str_truthy wpid)
      then (Raise CredentialsMissing, w)
      else
        let call := mkCall wtk wpid (strip to) (strip msg) in
        let w1 := set_sent (fun calls => calls ++ [call]) w in
        match transport call with
        | None => (Raise TransportError, w1)
        | Some (code, RawText raw) => (Raise TypeError, w1)
        | Some (code, Parsed data) =>
            if encodable (strip to)
            then (Ok (code, Parsed data),
                  set_logs (fun rows => rows ++
                     [mkLog (store_id st) (strip to) "manual_test"
                            (str_of_int code) data now]) w1)
            else (Raise UnicodeEncodeError, w1)
        end.
Proof.
  intros Hst -> Hto Hmsg. unfold test_send, api_test_send.
  unfold bind at 1. rewrite (require_store_found _ _ _ _ Hst).
  unfold bind at 1. simpl as_dict. unfold ret at 1.
  unfold bind at 1. rewrite Hto. simpl py_strip. unfold ret at 1.
  unfold bind at 1. rewrite Hmsg. simpl py_strip. unfold ret at 1.
  destruct (negb (str_truthy (strip to)) || negb (str_truthy (strip msg)));
    [reflexivity |].
  cbv zeta.
  destruct (negb (str_truthy (opt_or (waba_token st) GLOBAL_WABA_TOKEN))
            || negb (str_truthy (opt_or (waba_phone_id st) GLOBAL_WABA_PHONE_ID)));
    [reflexivity |].
  unfold send_whatsapp_text, bind_str, bind, execute, ret, raise.
  destruct (transport _) as [[code [data | raw]] |]; try reflexivity.
  cbn. destruct (encodable (strip to)); reflexivity.
Qed.


(** Whatever the body, a request that ends in an exception before the
    transport is called leaves the world as it was. *)
Lemma api_test_send_no_credentials (body : json) (sid : option string)
  (now : Z) (w : World) (st : merchant) :
  get_store sid w = Some st ->
  opt_or (waba_token st) GLOBAL_WABA_TOKEN = "" \/
  opt_or (waba_phone_id st) GLOBAL_WABA_PHONE_ID = "" ->
  exists e, test_send body sid now w = (Raise e, w).
Proof.
  intros Hst Hcred.
  assert (Hc : negb (str_truthy (opt_or (waba_token st) GLOBAL_WABA_TOKEN))
               || negb (str_truthy (opt_or (waba_phone_id st) GLOBAL_WABA_PHONE_ID))
               = true).
  { destruct Hcred as [-> | ->]; simpl; [reflexivity | apply orb_true_r]. }
  unfold test_send, api_test_send.
  unfold bind at 1. rewrite (require_store_found _ _ _ _ Hst).
  destruct body as [| bb | z | f | s | items | b];
    try (eexists; reflexivity).
  unfold bind at 1. simpl as_dict. unfold ret at 1.
  unfold bind at 1.
  destruct (py_or (get b "to_msisdn") (JStr "")) as [| bb | z | f | to | items | o];
    try (eexists; reflexivity).
  simpl py_strip. unfold ret at 1. unfold bind at 1.
  destruct (py_or (get b "body") (JStr "")) as [| bb | z | f | msg | items | o];
    try (eexists; reflexivity).
  simpl py_strip. unfold ret at 1.
  destruct (negb (str_truthy (strip to)) || negb (str_truthy (strip msg)));
    [eexists; reflexivity |].
  cbv zeta. rewrite Hc. eexists; reflexivity.
Qed.

(** C3 (as amended).  On a resolved tenant for which the token or the
    phone identifier is available neither at store level nor process-wide,
    every ad-hoc send request fails, no call to the transport is issued
    and no Delivery Log entry is appended (the world is left as it was);
    when the destination and the body are both non-empty after stripping,
    the failure is CredentialsMissing. *)
Theorem credentials_missing_atomic (body : json) (sid : option string)
  (now : Z) (w : World) (st : merchant) :
  get_store sid w = Some st ->
  opt_or (waba_token st) GLOBAL_WABA_TOKEN = "" \/
  opt_or (waba_phone_id st) GLOBAL_WABA_PHONE_ID = "" ->
  (exists e, test_send body sid now w = (Raise e, w)) /\
  sent (snd (test_send body sid now w)) = sent w /\
  logs (snd (test_send body sid now w)) = logs w /\
  (forall b to msg,
     body = JObj b ->
     py_or (get b "to_msisdn") (JStr "") = JStr to ->
     py_or (get b "body") (JStr "") = JStr msg ->
     strip to <> "" -> strip msg <> "" ->
     test_send body sid now w = (Raise CredentialsMissing, w)).
Proof.
  intros Hst Hcred.
  destruct (api_test_send_no_credentials body sid now w st Hst Hcred) as [e He].
  split; [now exists e | split; [now rewrite He | split; [now rewrite He |]]].
  intros b to msg Hb Hto Hmsg Nto Nmsg.
  rewrite (api_test_send_text body sid now w st b to msg Hst Hb Hto Hmsg).
  rewrite (str_truthy_true _ Nto), (str_truthy_true _ Nmsg). simpl.
  destruct Hcred as [-> | ->]; simpl; [reflexivity |].
  now rewrite orb_true_r.
Qed.


End Dispatch.

Example api_test_send_logs_once :
  api_test_send "TOKEN" "PHONE" transport_200 (send_request " 9665 " "hi")
                (Some "store-1") 9 (world_of [store_1])
  = (Ok (200, Parsed (JObj [("messages", JArr [])])),
     mkWorld [store_1] [] [] []
       [mkLog "store-1" "9665" "manual_test" "200"
              (JObj [("messages", JArr [])]) 9]
       [mkCall "TOKEN" "PHONE" "9665" "hi"]).
Proof. vm_compute. reflexivity. Qed.

Lemma credentials_missing_atomic_witness :
  api_test_send "" "" transport_200 (send_request "9665" "hi")
                (Some "store-1") 9 (world_of [store_1])
  = (Raise CredentialsMissing, world_of [store_1]).
Proof.
  assert (Hst : get_store (Some "store-1") (world_of [store_1]) = Some store_1)
    by reflexivity.
  assert (Hcred : opt_or (waba_token store_1) "" = "" \/
                  opt_or (waba_phone_id store_1) "" = "") by (left; reflexivity).
  destruct (credentials_missing_atomic "" "" transport_200
              (send_request "9665" "hi") (Some "store-1") 9
              (world_of [store_1]) store_1 Hst Hcred) as [_ [_ [_ H]]].
  apply (H [("to_msisdn", JStr "9665"); ("body", JStr "hi")] "9665" "hi");
    try reflexivity; vm_compute; discriminate.
Defined.

(** C3 as stated fails when the destination is empty: with no credentials
    at either level the request fails with InvalidInput, not with
    CredentialsMissing. *)
Lemma credentials_missing_counterexample :
  get_store (Some "store-1") (world_of [store_1]) = Some store_1 /\
  opt_or (waba_token store_1) "" = "" /\
  opt_or (waba_phone_id store_1) "" = "" /\
  api_test_send "" "" transport_200 (send_request "" "hi")
                (Some "store-1") 9 (world_of [store_1])
  = (Raise InvalidInput, world_of [store_1]) /\
  InvalidInput <> CredentialsMissing.
Proof. repeat split. discriminate. Qed.



(* ================================================================== *)
(** ** Store credentials *)

Lemma find_map_same {A} (p : A -> bool) (f : A -> A) (l : list A) :
  (forall a, p (f a) = p a) ->
  find p (map f l) = option_map f (find p l).
Proof.
  intros H. induction l as [| a l IH]; simpl; [reflexivity |].
  rewrite H. destruct (p a); [reflexivity | exact IH].
Qed.

(** The tenant a request resolves to after its credentials were updated is
    the same row with the new credentials. *)
Lemma get_store_update_waba (sid : option string) (w : World) (st : merchant)
  (tok pid : option string) :
  get_store sid w = Some st ->
  get_store sid (update_waba (store_id st) tok pid w) = Some (set_waba tok pid st).
Proof.
  intros H. destruct (opt_truthy sid) eqn:T.
  - destruct sid as [s |]; [| discriminate].
    unfold get_store in *. rewrite T in *.
    destruct (select_merchant_sound s w st H) as [_ Es].
    unfold select_merchant in *. simpl.
    rewrite find_map_same.
    + rewrite H. simpl. rewrite Es. now rewrite String.eqb_refl.
    + intros m. destruct (store_id m =? store_id st)%string; reflexivity.
  - assert (E : get_store sid w = get_store None w).
    { destruct sid as [s |]; [| reflexivity]. unfold get_store. now rewrite T. }
    assert (E' : forall w', get_store sid w' = get_store None w').
    { intros w'. destruct sid as [s |]; [| reflexivity].
      unfold get_store. now rewrite T. }
    rewrite E in H. rewrite E'. rewrite get_store_no_sid in *.
    simpl. destruct (merchants w) as [| m [| m2 rest]]; try discriminate.
    injection H as ->. simpl. now rewrite String.eqb_refl.
Qed.

Section Credentials.

Variable GLOBAL_WABA_TOKEN : string.
Variable GLOBAL_WABA_PHONE_ID : string.
Variable float_text : spec_float -> string.
Variable transport : wa_call -> option (Z * response_data).

#[local] Abbreviation save_waba := (api_save_waba float_text).
#[local] Abbreviation test_send :=
  (api_test_send GLOBAL_WABA_TOKEN GLOBAL_WABA_PHONE_ID transport).

(** A field that is omitted, or falsy, is stored as the empty text. *)
Lemma falsy_or_empty (v : json) :
  truthy v = false -> sql_text float_text (py_or v (JStr "")) = Some (Some "").
Proof. intros H. unfold py_or. now rewrite H. Qed.

Lemma get_absent (b : dict) (k : string) : lookup k b = None -> get b k = JNull.
Proof. intros H. unfold get. now rewrite H. Qed.

Lemma api_save_waba_bound (body : json) (sid : option string) (w : World)
  (st : merchant) (b : dict) (tok pid : option string) :
  get_store sid w = Some st ->
  body = JObj b ->
  sql_text float_text (py_or (get b "waba_token") (JStr "")) = Some tok ->
  sql_text float_text (py_or (get b "waba_phone_id") (JStr "")) = Some pid ->
  save_waba body sid w
  = (Ok (JObj [("ok", JBool true)]), update_waba (store_id st) tok pid w).
Proof.
  intros Hst -> Htok Hpid. unfold api_save_waba.
  unfold bind at 1. rewrite (require_store_found _ _ _ _ Hst).
  unfold bind at 1. simpl as_dict. unfold ret at 1.
  unfold bind_text. rewrite Htok, Hpid. reflexivity.
Qed.

(** A valid send on a tenant with credentials goes to the transport
    with the effective token and phone identifier. *)
Lemma api_test_send_call (sid : option string) (now : Z) (w : World)
  (st : merchant) (to msg : string) :
  get_store sid w = Some st ->
  strip to <> "" -> strip msg <> "" ->
  opt_or (waba_token st) GLOBAL_WABA_TOKEN <> "" ->
  opt_or (waba_phone_id st) GLOBAL_WABA_PHONE_ID <> "" ->
  sent (snd (test_send (send_request to msg) sid now w))
  = sent w ++ [mkCall (opt_or (waba_token st) GLOBAL_WABA_TOKEN)
                      (opt_or (waba_phone_id st) GLOBAL_WABA_PHONE_ID)
                      (strip to) (strip msg)].
Proof.
  intros Hst Nto Nmsg NT NP. unfold send_request.
  rewrite (api_test_send_text GLOBAL_WABA_TOKEN GLOBAL_WABA_PHONE_ID transport
             _ sid now _ _ [("to_msisdn", JStr to); ("body", JStr msg)] to msg
             Hst eq_refl).
  - rewrite (str_truthy_true _ Nto), (str_truthy_true _ Nmsg). simpl.
    rewrite (str_truthy_true _ NT), (str_truthy_true _ NP). simpl.
    destruct (transport _) as [[code [data | raw]] |]; try reflexivity.
    destruct (encodable (strip to)); reflexivity.
  - simpl. unfold py_or. simpl.
    destruct (String.eqb_spec to ""); [now subst | reflexivity].
  - simpl. unfold py_or. simpl.
    destruct (String.eqb_spec msg ""); [now subst | reflexivity].
Qed.

(** C10.  In the pipeline a store token, or phone identifier, that is
    the empty text stands for the process-wide default of that field: a
    valid send goes to the transport with the default in its place.  The
    credential-save endpoint stores the empty text for a field that is
    omitted (or empty); the tenant then resolves to the same row with the
    saved credentials, and each field saved empty falls back to its
    process-wide default, so that after a save with both fields empty a
    valid send goes out with the process-wide credentials. *)
Theorem empty_credentials_fall_back (body : json) (sid : option string)
  (w : World) (st : merchant) (b : dict) (tok pid : option string) :
  get_store sid w = Some st ->
  body = JObj b ->
  sql_text float_text (py_or (get b "waba_token") (JStr "")) = Some tok ->
  sql_text float_text (py_or (get b "waba_phone_id") (JStr "")) = Some pid ->
  let w' := update_waba (store_id st) tok pid w in
  let st' := set_waba tok pid st in
  (forall m, waba_token m = Some "" ->
             opt_or (waba_token m) GLOBAL_WABA_TOKEN = GLOBAL_WABA_TOKEN) /\
  (forall m, waba_phone_id m = Some "" ->
             opt_or (waba_phone_id m) GLOBAL_WABA_PHONE_ID = GLOBAL_WABA_PHONE_ID) /\
  (forall sid0 now w0 m to msg,
     get_store sid0 w0 = Some m ->
     strip to <> "" -> strip msg <> "" ->
     opt_or (waba_token m) GLOBAL_WABA_TOKEN <> "" ->
     opt_or (waba_phone_id m) GLOBAL_WABA_PHONE_ID <> "" ->
     sent (snd (test_send (send_request to msg) sid0 now w0))
     = sent w0 ++ [mkCall (opt_or (waba_token m) GLOBAL_WABA_TOKEN)
                          (opt_or (waba_phone_id m) GLOBAL_WABA_PHONE_ID)
                          (strip to) (strip msg)]) /\
  save_waba body sid w = (Ok (JObj [("ok", JBool true)]), w') /\
  get_store sid w' = Some st' /\
  waba_token st' = tok /\ waba_phone_id st' = pid /\
  (lookup "waba_token" b = None \/ truthy (get b "waba_token") = false ->
   tok = Some "" /\
   opt_or (waba_token st') GLOBAL_WABA_TOKEN = GLOBAL_WABA_TOKEN) /\
  (lookup "waba_phone_id" b = None \/ truthy (get b "waba_phone_id") = false ->
   pid = Some "" /\
   opt_or (waba_phone_id st') GLOBAL_WABA_PHONE_ID = GLOBAL_WABA_PHONE_ID) /\
  (truthy (get b "waba_token") = false ->
   truthy (get b "waba_phone_id") = false ->
   forall to msg now,
     strip to <> "" -> strip msg <> "" ->
     GLOBAL_WABA_TOKEN <> "" -> GLOBAL_WABA_PHONE_ID <> "" ->
     sent (snd (test_send (send_request to msg) sid now w'))
     = sent w' ++ [mkCall GLOBAL_WABA_TOKEN GLOBAL_WABA_PHONE_ID
                          (strip to) (strip msg)]).
Proof.
  intros Hst Hb Htok Hpid. cbv zeta.
  pose proof (get_store_update_waba sid w st tok pid Hst) as Hst'.
  assert (Ftok : lookup "waba_token" b = None \/ truthy (get b "waba_token") = false
                 -> tok = Some "").
  { intros [A | F]; [rewrite (get_absent _ _ A) in Htok | apply falsy_or_empty in F];
      simpl in *; congruence. }
  assert (Fpid : lookup "waba_phone_id" b = None \/
                 truthy (get b "waba_phone_id") = false -> pid = Some "").
  { intros [A | F]; [rewrite (get_absent _ _ A) in Hpid | apply falsy_or_empty in F];
      simpl in *; congruence. }
  split; [intros m ->; reflexivity |].
  split; [intros m ->; reflexivity |].
  split; [intros sid0 now w0 m to msg; apply api_test_send_call |].
  split; [now apply (api_save_waba_bound body sid w st b) |].
  split; [exact Hst' |].
  split; [reflexivity |]. split; [reflexivity |].
  split; [intros H; rewrite (Ftok H); split; reflexivity |].
  split; [intros H; rewrite (Fpid H); split; reflexivity |].
  intros FT FP to msg now Nto Nmsg NG NP.
  rewrite (Ftok (or_intror FT)), (Fpid (or_intror FP)) in *.
  rewrite (api_test_send_call sid now _ _ to msg Hst' Nto Nmsg); [reflexivity | |];
    simpl; assumption.
Qed.

End Credentials.

Lemma empty_credentials_fall_back_witness :
  api_save_waba float_text_0 (JObj []) (Some "store-1")
    (world_of [tenant 1 "store-1" (Some "STORE-TOKEN") (Some "STORE-PHONE")])
  = (Ok (JObj [("ok", JBool true)]),
     world_of [tenant 1 "store-1" (Some "") (Some "")]) /\
  sent (snd (api_test_send "TOKEN" "PHONE" transport_200
               (send_request "9665" "hi") (Some "store-1") 9
               (world_of [tenant 1 "store-1" (Some "") (Some "")])))
  = [mkCall "TOKEN" "PHONE" "9665" "hi"].
Proof.
  pose proof (empty_credentials_fall_back "TOKEN" "PHONE" float_text_0
                transport_200 (JObj []) (Some "store-1")
                (world_of [tenant 1 "store-1" (Some "STORE-TOKEN") (Some "STORE-PHONE")])
                (tenant 1 "store-1" (Some "STORE-TOKEN") (Some "STORE-PHONE"))
                [] (Some "") (Some "") eq_refl eq_refl eq_refl eq_refl)
    as [_ [_ [_ [Hsave [_ [_ [_ [_ [_ Hsend]]]]]]]]].
  split; [exact Hsave |].
  apply (Hsend eq_refl eq_refl "9665" "hi" 9); vm_compute; discriminate.
Defined.

(* ================================================================== *)
(** ** The settings repository *)

Section Replace.

Variable r : settings_row.

Lemma find_filtered_out (rows : list settings_row) :
  find (fun x => (ss_store_id x =? ss_store_id r)%string)
       (filter (other_tenant r) rows) = None.
Proof.
  induction rows as [| x rows IH]; [reflexivity |].
  cbn [filter]. unfold other_tenant at 1, settings_conflict.
  destruct (ss_store_id x =? ss_store_id r)%string eqn:E; cbn [negb find];
    [exact IH | now rewrite E].
Qed.

Lemma filter_filtered_out (rows : list settings_row) :
  filter (fun x => (ss_store_id x =? ss_store_id r)%string)
         (filter (other_tenant r) rows) = [].
Proof.
  induction rows as [| x rows IH]; [reflexivity |].
  cbn [filter]. unfold other_tenant at 1, settings_conflict.
  destruct (ss_store_id x =? ss_store_id r)%string eqn:E; cbn [negb filter];
    [exact IH | now rewrite E].
Qed.

Lemma filter_idempotent {A} (p : A -> bool) (l : list A) :
  filter p (filter p l) = filter p l.
Proof.
  induction l as [| a l IH]; [reflexivity |].
  cbn [filter]. destruct (p a) eqn:E; [| exact IH].
  cbn [filter]. now rewrite E, IH.
Qed.

Lemma find_app_none {A} (p : A -> bool) (l1 l2 : list A) :
  find p l1 = None -> find p (l1 ++ l2) = find p l2.
Proof.
  induction l1 as [| a l1 IH]; simpl; [reflexivity |].
  destruct (p a); [discriminate | exact IH].
Qed.

(** After INSERT OR REPLACE the tenant has the new row and no other, and
    the rows of the other tenants are as before, in the same order. *)
Lemma insert_or_replace_settings_spec (w : World) :
  let w' := insert_or_replace_settings r w in
  select_settings (ss_store_id r) w' = Some r /\
  filter (fun x => (ss_store_id x =? ss_store_id r)%string) (store_settings w') = [r] /\
  filter (other_tenant r) (store_settings w') = filter (other_tenant r) (store_settings w) /\
  merchants w' = merchants w /\ templates w' = templates w /\
  events w' = events w /\ logs w' = logs w /\ sent w' = sent w.
Proof.
  cbv zeta. unfold select_settings, insert_or_replace_settings.
  cbn [store_settings set_store_settings merchants templates events logs sent].
  split; [| split; [| split; [| repeat split]]].
  - rewrite find_app_none by apply find_filtered_out.
    cbn [find]. now rewrite String.eqb_refl.
  - rewrite filter_app, filter_filtered_out. cbn [filter app].
    now rewrite String.eqb_refl.
  - rewrite filter_app, filter_idempotent. cbn [filter].
    unfold other_tenant at 2, settings_conflict.
    rewrite String.eqb_refl. cbn [negb]. apply app_nil_r.
Qed.

End Replace.

(** The text of the settings object can be encoded when that of the
    enabled-map can: the rest of it is ASCII. *)
Lemma json_encodable_settings (enabled : json) (rate : Z) :
  json_encodable
    (JObj [ ("enabled", enabled); ("rate_limit_mps", JInt rate) ])
  = json_encodable enabled.
Proof.
  change (json_encodable
            (JObj [ ("enabled", enabled); ("rate_limit_mps", JInt rate) ]))
    with (encodable "enabled" && json_encodable enabled
          && (encodable "rate_limit_mps" && true && true)).
  replace (encodable "enabled") with true by reflexivity.
  replace (encodable "rate_limit_mps") with true by reflexivity.
  cbn [andb]. apply andb_true_r.
Qed.

Section Settings.

Variable int_of_str : string -> option Z.

#[local] Abbreviation save_settings := (api_save_settings int_of_str).

Lemma api_save_settings_run (body : json) (sid : option string) (now : Z)
  (w : World) (st : merchant) (b : dict) (rate : Z) :
  get_store sid w = Some st ->
  body = JObj b ->
  py_int int_of_str (py_or (get b "rate_limit_mps") (JInt 60)) w = (Ok rate, w) ->
  save_settings body sid now w
  = if json_encodable (py_or (get b "enabled") DEFAULT_ENABLED)
    then (Ok (JObj [("ok", JBool true)]),
          insert_or_replace_settings (saved_settings st b rate now) w)
    else (Raise UnicodeEncodeError, w).
Proof.
  intros Hst -> Hrate. unfold api_save_settings.
  unfold bind at 1. rewrite (require_store_found _ _ _ _ Hst).
  unfold bind at 1. simpl as_dict. unfold ret at 1.
  unfold bind at 1. rewrite Hrate.
  unfold bind at 1, bind_json. rewrite json_encodable_settings.
  destruct (json_encodable _); reflexivity.
Qed.

(** A save whose rate limit [int()] refuses raises what [int()] raises
    and writes nothing. *)
Lemma api_save_settings_refused (body : json) (sid : option string) (now : Z)
  (w : World) (st : merchant) (b : dict) (e : exn) :
  get_store sid w = Some st ->
  body = JObj b ->
  int_of int_of_str (py_or (get b "rate_limit_mps") (JInt 60)) = Raise e ->
  save_settings body sid now w = (Raise e, w).
Proof.
  intros Hst -> Hrate. unfold api_save_settings.
  unfold bind at 1. rewrite (require_store_found _ _ _ _ Hst).
  unfold bind at 1. simpl as_dict. unfold ret at 1.
  unfold bind at 1, py_int, lift. now rewrite Hrate.
Qed.

Lemma api_save_settings_no_object (body : json) (sid : option string) (now : Z)
  (w : World) (st : merchant) :
  get_store sid w = Some st ->
  (forall b, body <> JObj b) ->
  save_settings body sid now w = (Raise AttributeError, w).
Proof.
  intros Hst N. unfold api_save_settings.
  unfold bind at 1. rewrite (require_store_found _ _ _ _ Hst).
  destruct body; try reflexivity. now destruct (N fields).
Qed.

Lemma stored_rate_py_int (v : json) (rate : Z) (w : World) :
  stored_rate int_of_str v rate ->
  py_int int_of_str (py_or v (JInt 60)) w = (Ok rate, w).
Proof. unfold stored_rate, py_int, lift. now intros ->. Qed.

(** How the rate limit is coerced. *)
Lemma stored_rate_cases (v : json) (rate : Z) :
  stored_rate int_of_str v rate ->
  (truthy v = false -> rate = 60) /\
  (forall z, v = JInt z -> z <> 0 -> rate = z) /\
  (v = JBool true -> rate = 1) /\
  (forall f, v = JFloat f -> truthy v = true -> int_of_float f = Some rate) /\
  (forall s, v = JStr s -> s <> "" -> int_of_str s = Some rate).
Proof.
  unfold stored_rate, py_or. intros H.
  split; [| split; [| split; [| split]]].
  - intros F. rewrite F in H. simpl in H. congruence.
  - intros z -> N. simpl in H.
    destruct (Z.eqb_spec z 0); [contradiction |]. simpl in H. congruence.
  - intros ->. simpl in H. congruence.
  - intros f -> T. rewrite T in H.
    destruct f as [sg | sg | | sg m e]; simpl in *; congruence.
  - intros s -> N. simpl in H.
    destruct (String.eqb_spec s ""); [contradiction |]. simpl in H.
    destruct (int_of_str s); congruence.
Qed.

(** C6 (as amended).  A settings save on a resolved tenant fails, and
    stores nothing, when the body is no JSON object, when [int()] refuses
    the rate limit (a list or a dict, a text that is no integer, an
    infinite or NaN float), and when the enabled-map holds a text that
    cannot be encoded.  Otherwise it stores the full default map, all seven
    event kinds true, when the submitted enabled-map is absent, empty or
    otherwise falsy (a save that cannot fail on the map), and the submitted
    map when it is not.  The rate limit stored is an integer: 60 when the submitted one is
    absent or falsy (null, 0, false, empty); a submitted non-zero integer
    as given; otherwise what [int()] makes of the value (1 for true, a
    float truncated, a text parsed).  The row written is then the tenant's
    only settings row, in place of any earlier one, and no other tenant's
    row changes. *)
Theorem settings_save_coercion (body : json) (sid : option string) (now : Z)
  (w : World) (st : merchant) :
  get_store sid w = Some st ->
  ((forall b, body <> JObj b) ->
   save_settings body sid now w = (Raise AttributeError, w)) /\
  (forall b, body = JObj b ->
     let enabled := py_or (get b "enabled") DEFAULT_ENABLED in
     (forall e,
        int_of int_of_str (py_or (get b "rate_limit_mps") (JInt 60)) = Raise e ->
        save_settings body sid now w = (Raise e, w)) /\
     (lookup "enabled" b = None \/ truthy (get b "enabled") = false ->
      enabled = DEFAULT_ENABLED /\ json_encodable enabled = true) /\
     (forall rate,
        stored_rate int_of_str (get b "rate_limit_mps") rate ->
        let row := saved_settings st b rate now in
        let w' := insert_or_replace_settings row w in
        (json_encodable enabled = false ->
         save_settings body sid now w = (Raise UnicodeEncodeError, w)) /\
        (json_encodable enabled = true ->
         save_settings body sid now w = (Ok (JObj [("ok", JBool true)]), w')) /\
        settings_json row
        = JObj [("enabled", enabled); ("rate_limit_mps", JInt rate)] /\
        (lookup "rate_limit_mps" b = None -> rate = 60) /\
        ((truthy (get b "rate_limit_mps") = false -> rate = 60) /\
         (forall z, get b "rate_limit_mps" = JInt z -> z <> 0 -> rate = z) /\
         (get b "rate_limit_mps" = JBool true -> rate = 1) /\
         (forall f, get b "rate_limit_mps" = JFloat f ->
                    truthy (get b "rate_limit_mps") = true ->
                    int_of_float f = Some rate) /\
         (forall s, get b "rate_limit_mps" = JStr s -> s <> "" ->
                    int_of_str s = Some rate)) /\
        select_settings (store_id st) w' = Some row /\
        filter (fun x => (ss_store_id x =? store_id st)%string)
               (store_settings w') = [row] /\
        filter (fun x => negb (ss_store_id x =? store_id st)%string)
               (store_settings w')
        = filter (fun x => negb (ss_store_id x =? store_id st)%string)
                 (store_settings w))) /\
  (List.length EVENT_KINDS = 7%nat /\
   exists fields, DEFAULT_ENABLED = JObj fields /\
     Forall (fun k => lookup k fields = Some (JBool true)) EVENT_KINDS /\
     map fst fields = EVENT_KINDS).
Proof.
  intros Hst.
  split; [now apply (api_save_settings_no_object body sid now w st) |].
  split.
  2:{ split; [reflexivity |]. eexists. split; [reflexivity |].
      split; [| reflexivity]. repeat constructor. }
  intros b Hb. cbv zeta.
  split; [intros e; now apply (api_save_settings_refused body sid now w st) |].
  split.
  { intros [Habs | Hemp].
    - unfold get. rewrite Habs. split; reflexivity.
    - unfold py_or. rewrite Hemp. split; reflexivity. }
  intros rate Hrate.
  pose proof (stored_rate_cases _ _ Hrate) as Cases.
  pose proof (api_save_settings_run body sid now w st b rate Hst Hb
                (stored_rate_py_int _ _ w Hrate)) as Run.
  split; [intros F; now rewrite Run, F |].
  split; [intros T; now rewrite Run, T |].
  split; [reflexivity |].
  split; [intros Habs; apply (proj1 Cases); unfold get; now rewrite Habs |].
  split; [exact Cases |].
  destruct (insert_or_replace_settings_spec (saved_settings st b rate now) w)
    as [S [F [O _]]].
  split; [exact S | split; [exact F | exact O]].
Qed.

End Settings.

Lemma settings_save_coercion_witness :
  api_save_settings int_of_digits (settings_request (JObj []) (JInt 5))
    (Some "store-1") 9
    (mkWorld [store_1] [mkSettings "store-1" (JStr "old") 1] [] [] [] [])
  = (Ok (JObj [("ok", JBool true)]),
     mkWorld [store_1]
       [mkSettings "store-1"
          (JObj [("enabled", DEFAULT_ENABLED); ("rate_limit_mps", JInt 5)]) 9]
       [] [] [] []) /\
  api_save_settings int_of_digits (settings_request JNull (JStr "fast"))
    (Some "store-1") 9 (world_of [store_1])
  = (Raise ValueError, world_of [store_1]) /\
  api_save_settings int_of_digits
    (settings_request (JObj [(LONE_SURROGATE, JBool true)]) (JInt 5))
    (Some "store-1") 9 (world_of [store_1])
  = (Raise UnicodeEncodeError, world_of [store_1]).
Proof.
  assert (R : stored_rate int_of_digits
                (get [("enabled", JObj []); ("rate_limit_mps", JInt 5)]
                     "rate_limit_mps") 5) by reflexivity.
  split; [| split].
  - destruct (settings_save_coercion int_of_digits
                (settings_request (JObj []) (JInt 5)) (Some "store-1") 9
                (mkWorld [store_1] [mkSettings "store-1" (JStr "old") 1] [] [] [] [])
                store_1 eq_refl) as [_ [H _]].
    destruct (H [("enabled", JObj []); ("rate_limit_mps", JInt 5)] eq_refl)
      as [_ [_ S]].
    destruct (S 5 R) as [_ [Saved _]].
    apply Saved. reflexivity.
  - destruct (settings_save_coercion int_of_digits
                (settings_request JNull (JStr "fast")) (Some "store-1") 9
                (world_of [store_1]) store_1 eq_refl) as [_ [H _]].
    destruct (H [("enabled", JNull); ("rate_limit_mps", JStr "fast")] eq_refl)
      as [Refused _].
    apply Refused. reflexivity.
  - destruct (settings_save_coercion int_of_digits
                (settings_request (JObj [(LONE_SURROGATE, JBool true)]) (JInt 5))
                (Some "store-1") 9 (world_of [store_1]) store_1 eq_refl)
      as [_ [H _]].
    destruct (H [ ("enabled", JObj [(LONE_SURROGATE, JBool true)]);
                  ("rate_limit_mps", JInt 5) ] eq_refl) as [_ [_ S]].
    destruct (S 5 eq_refl) as [Unencodable _].
    apply Unencodable. reflexivity.
Defined.

(** C6 as stated fails at a supplied rate limit of 0: the value stored is
    60, not the supplied one. *)
Lemma rate_limit_zero_counterexample :
  lookup "rate_limit_mps"
         [("enabled", DEFAULT_ENABLED); ("rate_limit_mps", JInt 0)]
  = Some (JInt 0) /\
  api_save_settings int_of_digits (settings_request DEFAULT_ENABLED (JInt 0))
    (Some "store-1") 9 (world_of [store_1])
  = (Ok (JObj [("ok", JBool true)]),
     mkWorld [store_1]
       [mkSettings "store-1"
          (JObj [("enabled", DEFAULT_ENABLED); ("rate_limit_mps", JInt 60)]) 9]
       [] [] [] []) /\
  JInt 60 <> JInt 0.
Proof. repeat split. discriminate. Qed.

Example rate_limit_float :
  store_settings
    (snd (api_save_settings int_of_digits
            (settings_request JNull (JFloat (S754_finite false 11 (-2))))
            (Some "store-1") 9 (world_of [store_1])))
  = [mkSettings "store-1"
       (JObj [("enabled", DEFAULT_ENABLED); ("rate_limit_mps", JInt 2)]) 9].
Proof. reflexivity. Qed.

Example rate_limit_text :
  fst (api_save_settings int_of_digits (settings_request JNull (JStr "30"))
         (Some "store-1") 9 (world_of [store_1]))
  = Ok (JObj [("ok", JBool true)]) /\
  fst (api_save_settings int_of_digits (settings_request JNull (JArr [JInt 3]))
         (Some "store-1") 9 (world_of [store_1]))
  = Raise TypeError.
Proof. split; reflexivity. Qed.

(* ================================================================== *)
(** ** The inbound event recorder *)

Section Recorder.

Variable SALLA_WEBHOOK_SEC : string.
Variable float_text : spec_float -> string.
Variable json_loads : string -> option json.
Variable hmac_sha256_hex : string -> string -> string.

#[local] Abbreviation post_webhook :=
  (webhook SALLA_WEBHOOK_SEC float_text json_loads hmac_sha256_hex).

Lemma webhook_signature_passes (request : webhook_request) (w : World) :
  signature_verified SALLA_WEBHOOK_SEC hmac_sha256_hex request ->
  (if str_truthy SALLA_WEBHOOK_SEC then
     match compare_digest
             (hmac_sha256_hex SALLA_WEBHOOK_SEC (raw_body request))
             match x_signature request with Some s => s | None => "" end with
     | None => raise TypeError
     | Some false => raise (HTTPException 401 "Invalid signature")
     | Some true => ret tt
     end
   else ret tt) w = (Ok tt, w).
Proof.
  intros [-> | ->]; [reflexivity |].
  unfold compare_digest. rewrite String.eqb_refl.
  now destruct (str_truthy SALLA_WEBHOOK_SEC).
Qed.

(** What the recorder does with a verified request whose body is a JSON
    object. *)
Lemma webhook_run (request : webhook_request) (now : Z) (w : World) (p : dict) :
  signature_verified SALLA_WEBHOOK_SEC hmac_sha256_hex request ->
  json_loads (raw_body request) = Some (JObj p) ->
  post_webhook request now w
  = match sql_text float_text (store_id_of p),
          sql_text float_text (event_type_of p) with
    | Some sid, Some ety =>
        if json_encodable (JObj p)
        then (Ok (JObj [("ok", JBool true)]),
              set_events (fun rows => rows ++ [mkEvent sid ety (JObj p) now]) w)
        else (Raise UnicodeEncodeError, w)
    | Some sid, None => (Raise (bind_error (event_type_of p)), w)
    | None, _ => (Raise (bind_error (store_id_of p)), w)
    end.
Proof.
  intros Hsig Hload. unfold webhook. unfold bind at 1.
  rewrite (webhook_signature_passes request w Hsig).
  rewrite Hload. unfold bind at 1. unfold ret at 1.
  unfold bind at 1. simpl as_dict. unfold ret at 1.
  change (get_default p "store_id" (JStr "unknown")) with (store_id_of p).
  change (py_or (get p "event") (get_default p "type" (JStr "unknown")))
    with (event_type_of p).
  unfold bind, bind_text, bind_json, ret, raise, execute.
  destruct (sql_text float_text (store_id_of p)) as [sid |]; [| reflexivity].
  destruct (sql_text float_text (event_type_of p)) as [ety |]; [| reflexivity].
  destruct (json_encodable (JObj p)); reflexivity.
Qed.

(** C8 (as amended).  For a signature-verified inbound payload that is a
    JSON object, the recorder either appends exactly one Event Log entry
    and changes nothing else, or raises and records nothing.  It raises when
    the tenant value or the event-type value cannot be stored as text (a
    list, a dict, an integer beyond 64 bits, a text that cannot be encoded)
    and when the payload holds, anywhere, a key or a text that cannot be
    encoded.  The event type of the entry is the [event] field when that
    field is present and truthy (for text: non-empty), otherwise the [type]
    field, or ["unknown"] when there is no [type] field; its store_id is the
    payload's [store_id], or ["unknown"] when that field is absent.  The
    payload column holds the parsed payload written out again by
    [json.dumps], not the body as it was received. *)
Theorem webhook_records_event (request : webhook_request) (now : Z) (w : World)
  (p : dict) :
  signature_verified SALLA_WEBHOOK_SEC hmac_sha256_hex request ->
  json_loads (raw_body request) = Some (JObj p) ->
  (sql_text float_text (store_id_of p) = None \/
   sql_text float_text (event_type_of p) = None \/
   json_encodable (JObj p) = false ->
   exists e, post_webhook request now w = (Raise e, w)) /\
  (forall sid ety,
     sql_text float_text (store_id_of p) = Some sid ->
     sql_text float_text (event_type_of p) = Some ety ->
     json_encodable (JObj p) = true ->
     let entry := mkEvent sid ety (JObj p) now in
     post_webhook request now w
     = (Ok (JObj [("ok", JBool true)]),
        set_events (fun rows => rows ++ [entry]) w) /\
     events (snd (post_webhook request now w)) = events w ++ [entry] /\
     (forall float_repr,
        payload_text float_repr entry = json_dumps float_repr (JObj p)) /\
     (forall ev, lookup "event" p = Some (JStr ev) -> ev <> "" -> ety = Some ev) /\
     (forall ty, truthy (get p "event") = false ->
                 lookup "type" p = Some (JStr ty) -> ety = Some ty) /\
     (truthy (get p "event") = false -> lookup "type" p = None ->
      ety = Some "unknown") /\
     (forall s, lookup "store_id" p = Some (JStr s) -> sid = Some s) /\
     (lookup "store_id" p = None -> sid = Some "unknown")).
Proof.
  intros Hsig Hload.
  pose proof (webhook_run request now w p Hsig Hload) as Run.
  split.
  - intros [N | [N | N]]; rewrite Run.
    + rewrite N. eexists. reflexivity.
    + rewrite N. destruct (sql_text float_text (store_id_of p));
        eexists; reflexivity.
    + destruct (sql_text float_text (store_id_of p));
        [| eexists; reflexivity].
      destruct (sql_text float_text (event_type_of p));
        [| eexists; reflexivity].
      rewrite N. eexists. reflexivity.
  - intros sid ety Hsid Hety Henc. cbv zeta.
    rewrite Hsid, Hety, Henc in Run.
    split; [exact Run |]. split; [now rewrite Run |].
    split; [reflexivity |].
    unfold event_type_of, store_id_of in *.
    split; [| split; [| split; [| split]]].
    + intros ev Hev Nev. unfold get in Hety. rewrite Hev in Hety.
      cbn [truthy] in Hety.
      destruct (String.eqb_spec ev ""); [contradiction |].
      cbn [negb sql_text] in Hety.
      destruct (encodable ev); congruence.
    + intros ty F Hty. rewrite F, Hty in Hety. cbn [sql_text] in Hety.
      destruct (encodable ty); congruence.
    + intros F Hty. rewrite F, Hty in Hety.
      change (sql_text float_text (JStr "unknown")) with (Some (Some "unknown"))
        in Hety.
      congruence.
    + intros s0 Hs. rewrite Hs in Hsid. cbn [sql_text] in Hsid.
      destruct (encodable s0); congruence.
    + intros Hs. rewrite Hs in Hsid.
      change (sql_text float_text (JStr "unknown")) with (Some (Some "unknown"))
        in Hsid.
      congruence.
Qed.

End Recorder.

Lemma webhook_records_event_witness :
  webhook "change-me" float_text_0 (loads_as payload_both) digest_0
          (mkRequest "{...}" (Some "00")) 3 (world_of [store_1])
  = (Ok (JObj [("ok", JBool true)]),
     mkWorld [store_1] [] []
       [mkEvent (Some "unknown") (Some "order.paid") payload_both 3] [] []) /\
  exists e,
    webhook "change-me" float_text_0 (loads_as payload_surrogate) digest_0
            (mkRequest "{...}" (Some "00")) 3 (world_of [store_1])
    = (Raise e, world_of [store_1]).
Proof.
  split.
  - destruct (webhook_records_event "change-me" float_text_0
                (loads_as payload_both) digest_0
                (mkRequest "{...}" (Some "00")) 3 (world_of [store_1])
                [ ("event", JStr "order.paid"); ("type", JStr "order.created");
                  ("data", JObj [("id", JInt 12345)]) ]
                (or_intror eq_refl) eq_refl) as [_ H].
    exact (proj1 (H (Some "unknown") (Some "order.paid")
                    eq_refl eq_refl eq_refl)).
  - destruct (webhook_records_event "change-me" float_text_0
                (loads_as payload_surrogate) digest_0
                (mkRequest "{...}" (Some "00")) 3 (world_of [store_1])
                [ ("event", JStr "order.paid");
                  ("note", JStr LONE_SURROGATE) ]
                (or_intror eq_refl) eq_refl) as [H _].
    apply H. right. right. reflexivity.
Defined.

(** C8 as stated fails twice.  When the [event] field is present but
    empty the entry takes its event type from [type], so the present
    [event] field does not win.  And the payload column does not hold the
    body as received: the body of [compact_request] is stored with a space
    after the colon. *)
Lemma empty_event_field_counterexample :
  (signature_verified "change-me" digest_0 (mkRequest "{...}" (Some "00")) /\
   (exists p, payload_empty_event = JObj p /\
              lookup "event" p = Some (JStr "") /\
              lookup "type" p = Some (JStr "order.created")) /\
   events (snd (webhook "change-me" float_text_0 (loads_as payload_empty_event)
                  digest_0 (mkRequest "{...}" (Some "00")) 3 (world_of [store_1])))
   = [mkEvent (Some "store-1") (Some "order.created") payload_empty_event 3] /\
   Some "order.created" <> Some "") /\
  (signature_verified "" digest_0 compact_request /\
   loads_compact (raw_body compact_request) = Some compact_payload /\
   forall float_repr,
     map (payload_text float_repr)
         (events (snd (webhook "" float_text_0 loads_compact digest_0
                         compact_request 3 (world_of [store_1]))))
     = [("{" ++ QUOTE ++ "event" ++ QUOTE ++ ": "
             ++ QUOTE ++ "order.paid" ++ QUOTE ++ "}")%string] /\
     map (payload_text float_repr)
         (events (snd (webhook "" float_text_0 loads_compact digest_0
                         compact_request 3 (world_of [store_1]))))
     <> [raw_body compact_request]).
Proof.
  split.
  - split; [right; reflexivity |].
    split; [eexists; repeat split | split; [reflexivity | discriminate]].
  - split; [left; reflexivity |]. split; [reflexivity |].
    intros float_repr. split; [reflexivity | discriminate].
Qed.

Example webhook_bad_signature :
  webhook "secret" float_text_0 (loads_as payload_both) digest_0
          (mkRequest "{...}" (Some "ff")) 3 (world_of [store_1])
  = (Raise (HTTPException 401 "Invalid signature"), world_of [store_1]).
Proof. reflexivity. Qed.

(* ================================================================== *)
(** ** The renderer *)

Lemma append_nil_r (s : string) : (s ++ "")%string = s.
Proof. induction s as [| c s IH]; simpl; [reflexivity | now rewrite IH]. Qed.

Lemma append_assoc (a b c : string) :
  ((a ++ b) ++ c)%string = (a ++ (b ++ c))%string.
Proof. induction a as [| x a IH]; simpl; [reflexivity | now rewrite IH]. Qed.

Lemma length_append (a b : string) :
  String.length (a ++ b) = (String.length a + String.length b)%nat.
Proof. induction a as [| x a IH]; simpl; [reflexivity | now rewrite IH]. Qed.

Lemma has_append (c : ascii) (a b : string) :
  has c (a ++ b) = has c a || has c b.
Proof.
  induction a as [| x a IH]; simpl; [reflexivity |].
  now rewrite IH, orb_assoc.
Qed.

Lemma drop_append (a b : string) : drop (String.length a) (a ++ b) = b.
Proof. induction a as [| x a IH]; simpl; [now destruct b | exact IH]. Qed.

Lemma prefix_append (p s : string) :
  prefix p s = true <-> exists r, s = (p ++ r)%string.
Proof.
  revert s. induction p as [| a p IH]; intros s.
  - split; [intros _; now exists s | intros _; now destruct s].
  - destruct s as [| b s]; simpl.
    + split; [discriminate | intros [r E]; discriminate].
    + destruct (ascii_dec a b) as [-> | N].
      * rewrite IH. split; intros [r E]; exists r; congruence.
      * split; [discriminate | intros [r E]; congruence].
Qed.

Lemma prefix_cons (a b : ascii) (p s : string) :
  prefix (String a p) (String b s) = Ascii.eqb a b && prefix p s.
Proof.
  change (prefix (String a p) (String b s))
    with (if ascii_dec a b then prefix p s else false).
  destruct (ascii_dec a b) as [-> | N].
  - now rewrite Ascii.eqb_refl.
  - apply Ascii.eqb_neq in N. now rewrite N.
Qed.

(** Two texts that agree up to the first closing brace. *)
Lemma until_close_eq (n m y z : string) :
  has "}" n = false -> has "}" m = false ->
  (n ++ String "}" y)%string = (m ++ String "}" z)%string -> n = m.
Proof.
  revert m. induction n as [| a n IH]; intros [| b m]; simpl; intros Hn Hm E.
  - reflexivity.
  - injection E as <- _. simpl in Hm. discriminate.
  - injection E as -> _. simpl in Hn. discriminate.
  - injection E as -> E. apply orb_false_elim in Hn, Hm.
    f_equal. now apply IH.
Qed.

(** When [c ++ d] starts with [a], either [a] lies within [c] or [a] runs
    past the end of [c]. *)
Lemma append_overlap (a b c d : string) :
  (a ++ b)%string = (c ++ d)%string ->
  (exists x, c = (a ++ x)%string) \/
  (exists x y, a = (c ++ String x y)%string /\ d = (String x y ++ b)%string).
Proof.
  revert c. induction a as [| u a IH]; intros c E.
  - left. now exists c.
  - destruct c as [| v c]; simpl in E.
    + right. exists u, a. split; [reflexivity | now rewrite <- E].
    + injection E as -> E. destruct (IH c E) as [[x ->] | [x [y [-> ->]]]].
      * left. now exists x.
      * right. exists x, y. split; reflexivity.
Qed.

Section ReplaceAll.

Variable name : string.
Variable rep : string.
Hypothesis name_brace_free : brace_free name = true.

#[local] Abbreviation pat := (placeholder name).
#[local] Abbreviation R := (replaceAll_from 0 pat rep).

Lemma name_no_open : has "{" (name ++ "}") = false.
Proof.
  unfold brace_free in name_brace_free.
  apply andb_prop in name_brace_free. destruct name_brace_free as [O _].
  rewrite has_append. simpl. apply negb_true_iff in O. now rewrite O.
Qed.

Lemma name_no_close : has "}" name = false.
Proof.
  unfold brace_free in name_brace_free.
  apply andb_prop in name_brace_free. destruct name_brace_free as [_ C].
  now apply negb_true_iff in C.
Qed.

Lemma replaceAll_from_skip (k : nat) (s : string) :
  replaceAll_from k pat rep s = R (drop k s).
Proof.
  revert k. induction s as [| c s IH]; intros [| k]; try reflexivity.
  simpl drop. rewrite <- IH. reflexivity.
Qed.

Lemma replaceAll_from_cons (c : ascii) (s : string) :
  R (String c s)
  = if prefix pat (String c s)
    then (rep ++ replaceAll_from (String.length pat - 1) pat rep s)%string
    else String c (R s).
Proof. reflexivity. Qed.

Lemma replaceAll_match (x : string) :
  R (pat ++ x) = (rep ++ R x)%string.
Proof.
  assert (P : prefix pat (pat ++ x) = true) by (apply prefix_append; now exists x).
  change (pat ++ x)%string with (String "{" ((name ++ "}") ++ x)) in *.
  rewrite replaceAll_from_cons, P. f_equal.
  rewrite replaceAll_from_skip. f_equal.
  replace (String.length pat - 1)%nat with (String.length (name ++ "}"))
    by (simpl; lia).
  apply drop_append.
Qed.

Lemma replaceAll_no_match (c : ascii) (s : string) :
  prefix pat (String c s) = false -> R (String c s) = String c (R s).
Proof. intros P. now rewrite replaceAll_from_cons, P. Qed.

(** No match starts at a character other than the opening brace. *)
Lemma replaceAll_passes (u s : string) :
  has "{" u = false -> R (u ++ s) = (u ++ R s)%string.
Proof.
  induction u as [| c u IH]; simpl append; intros H; [reflexivity |].
  simpl in H. apply orb_false_elim in H. destruct H as [Hc Hu].
  rewrite replaceAll_no_match.
  - now rewrite IH.
  - unfold placeholder. now rewrite prefix_cons, Ascii.eqb_sym, Hc.
Qed.

(** A token other than the pattern is passed over as it stands. *)
Lemma replaceAll_token_head (other post : string) :
  brace_free other = true -> other <> name ->
  R (placeholder other ++ post) = (placeholder other ++ R post)%string.
Proof.
  intros Ho Ne. unfold brace_free in Ho. apply andb_prop in Ho.
  destruct Ho as [Oo Oc]. apply negb_true_iff in Oo, Oc.
  unfold placeholder at 1 2. simpl append.
  rewrite replaceAll_no_match.
  - f_equal. apply replaceAll_passes. rewrite has_append. simpl. now rewrite Oo.
  - destruct (prefix pat _) eqn:P; [| reflexivity].
    exfalso. apply prefix_append in P. destruct P as [r E].
    unfold placeholder in E. simpl in E. injection E as E.
    rewrite !append_assoc in E. simpl in E.
    apply Ne. eapply until_close_eq; eauto using name_no_close.
Qed.

(** A match that starts before a token ends before it. *)
Lemma match_before_token (c : ascii) (pre tok_rest y : string) :
  (String c pre ++ String "{" tok_rest)%string = (pat ++ y)%string ->
  exists x, String c pre = (pat ++ x)%string.
Proof.
  intros E. symmetry in E. apply append_overlap in E.
  destruct E as [[x E] | [x [z [E1 E2]]]].
  - now exists x.
  - exfalso. injection E2 as <- _.
    unfold placeholder in E1. simpl in E1. injection E1 as _ E1.
    pose proof name_no_open as H. rewrite E1, has_append in H. simpl in H.
    now rewrite orb_true_r in H.
Qed.

Lemma replaceAll_token_bounded (n : nat) (other post pre : string) :
  brace_free other = true -> other <> name ->
  (String.length pre <= n)%nat ->
  R (pre ++ placeholder other ++ post)
  = (R pre ++ placeholder other ++ R post)%string.
Proof.
  intros Ho Ne. revert pre. induction n as [| n IH]; intros pre L.
  - destruct pre; [| simpl in L; lia].
    simpl. now apply replaceAll_token_head.
  - destruct pre as [| c pre]; [simpl; now apply replaceAll_token_head |].
    destruct (prefix pat (String c pre ++ placeholder other ++ post)) eqn:P.
    + apply prefix_append in P. destruct P as [y E].
      destruct (match_before_token c pre _ y E) as [x Ex].
      rewrite Ex, append_assoc, !replaceAll_match, append_assoc.
      f_equal. apply IH.
      apply (f_equal String.length) in Ex. rewrite length_append in Ex.
      simpl in Ex, L. lia.
    + assert (P' : prefix pat (String c pre) = false).
      { destruct (prefix pat (String c pre)) eqn:Q; [| reflexivity].
        apply prefix_append in Q. destruct Q as [x Q].
        assert (T : prefix pat (String c pre ++ placeholder other ++ post) = true).
        { apply prefix_append. exists (x ++ placeholder other ++ post)%string.
          now rewrite Q, append_assoc. }
        congruence. }
      change (String c pre ++ placeholder other ++ post)%string
        with (String c (pre ++ placeholder other ++ post)) in *.
      rewrite (replaceAll_no_match c _ P), (replaceAll_no_match c _ P').
      change (String c (R pre) ++ placeholder other ++ R post)%string
        with (String c (R pre ++ placeholder other ++ R post)).
      f_equal. apply IH. simpl in L. lia.
Qed.

(** Replacing a placeholder leaves every other token where it is, as it
    is, and works on the text before it and after it separately. *)
Lemma replaceAll_token (other pre post : string) :
  brace_free other = true -> other <> name ->
  replaceAll pat rep (pre ++ placeholder other ++ post)
  = (replaceAll pat rep pre ++ placeholder other ++ replaceAll pat rep post)%string.
Proof.
  intros Ho Ne. unfold replaceAll, placeholder at 1 3 5.
  now apply (replaceAll_token_bounded (String.length pre)).
Qed.

End ReplaceAll.

#[local] Arguments replaceAll : simpl never.
#[local] Arguments placeholder : simpl never.

Lemma fold_left_cons {A B} (f : A -> B -> A) (x : B) (l : list B) (a : A) :
  fold_left f (x :: l) a = fold_left f l (f a x).
Proof. reflexivity. Qed.






(* ================================================================== *)
(** ** The template repository *)

Lemma get_store_same_merchants (sid : option string) (w w' : World) :
  merchants w' = merchants w -> get_store sid w' = get_store sid w.
Proof.
  intros H. unfold get_store, select_merchant, select_newest_two. now rewrite H.
Qed.

Section Templates.

Variable float_text : spec_float -> string.

#[local] Abbreviation save_templates := (api_save_templates float_text).

Lemma save_template_run (st : merchant) (item : json)
  (e : option string * option string * option string) (w : World) :
  entry_params float_text item = Some e ->
  save_template float_text st item w = (Ok tt, upsert_template (store_id st) e w).
Proof.
  destruct item as [| bb | z | f | s | items | t]; try discriminate.
  unfold entry_params, save_template, bind_text, as_dict.
  unfold bind at 1. unfold ret at 1.
  destruct (sql_text float_text (get t "tkey")) as [k |]; [| discriminate].
  destruct (sql_text float_text (py_or (get t "display_name") (get t "tkey")))
    as [d |]; [| discriminate].
  destruct (sql_text float_text (py_or (get t "body") (JStr "")))
    as [x |]; [| discriminate].
  intros [= <-]. reflexivity.
Qed.

Lemma for_each_run (st : merchant) (items : list json)
  (entries : list (option string * option string * option string)) (w : World) :
  Forall2 (fun item e => entry_params float_text item = Some e) items entries ->
  for_each items (save_template float_text st) w
  = (Ok tt, upsert_all (store_id st) entries w).
Proof.
  intros F. revert w. induction F as [| item e items entries He F IH]; intros w.
  - reflexivity.
  - simpl for_each. unfold bind at 1. rewrite (save_template_run st item e w He).
    rewrite IH. reflexivity.
Qed.

Lemma api_save_templates_run (body : json) (sid : option string) (w : World)
  (st : merchant) (b : dict) (items : list json)
  (entries : list (option string * option string * option string)) :
  get_store sid w = Some st ->
  body = JObj b ->
  get b "templates" = JArr items ->
  Forall2 (fun item e => entry_params float_text item = Some e) items entries ->
  save_templates body sid w
  = (Ok (JObj [("ok", JBool true)]), upsert_all (store_id st) entries w).
Proof.
  intros Hst -> Hitems F. unfold api_save_templates.
  unfold bind at 1. rewrite (require_store_found _ _ _ _ Hst).
  unfold bind at 1. simpl as_dict. unfold ret at 1.
  rewrite Hitems.
  assert (I : iterate (py_or (JArr items) (JArr [])) w = (Ok items, w))
    by (destruct items; reflexivity).
  unfold bind at 1. rewrite I.
  unfold bind at 1. rewrite (for_each_run st items entries w F). reflexivity.
Qed.

(** *** What one upsert does to the table *)

Variable sid : string.

Lemma updated_keys (k d x : option string) (t : template) :
  t_store_id (updated sid k d x t) = t_store_id t /\ tkey (updated sid k d x t) = tkey t.
Proof. unfold updated. destruct (template_matches sid k t); split; reflexivity. Qed.

Lemma template_matches_iff (k : string) (t : template) :
  template_matches sid (Some k) t = true <-> t_store_id t = sid /\ tkey t = Some k.
Proof.
  unfold template_matches. rewrite andb_true_iff, String.eqb_eq.
  destruct (tkey t) as [a |].
  - rewrite String.eqb_eq. split; intros [H1 H2]; split; congruence.
  - split; intros [H1 H2]; discriminate.
Qed.

Lemma template_matches_other (k : string) (k' : option string) (t : template) :
  k' <> Some k -> tkey t = Some k -> template_matches sid k' t = false.
Proof.
  intros N E. unfold template_matches. rewrite E.
  destruct k' as [a |]; [| apply andb_false_r].
  destruct (String.eqb_spec k a); [congruence | apply andb_false_r].
Qed.

(** The table after one upsert: every old row updated in place, and the
    new row after them when no row had the key. *)
Lemma upsert_template_rows (k d x : option string) (w : World) :
  exists added,
    upsert_template sid (k, d, x) w
    = set_templates (fun rows => map (updated sid k d x) (rows ++ added)) w /\
    (added = [] /\
     existsb (template_conflict (mkTemplate sid k d x)) (templates w) = true \/
     added = [mkTemplate sid k d x] /\
     existsb (template_conflict (mkTemplate sid k d x)) (templates w) = false).
Proof.
  unfold upsert_template.
  destruct (insert_or_ignore_template_appends (mkTemplate sid k d x) w)
    as [added [-> H]].
  exists added. split; [reflexivity | exact H].
Qed.

Lemma conflict_row (k : string) (d x : option string) (rows : list template) :
  existsb (template_conflict (mkTemplate sid (Some k) d x)) rows = true ->
  exists r, In r rows /\ t_store_id r = sid /\ tkey r = Some k.
Proof.
  intros H. apply existsb_exists in H. destruct H as [r [Hin C]].
  exists r. split; [exact Hin |].
  unfold template_conflict in C. simpl in C.
  apply andb_prop in C. destruct C as [C1 C2].
  apply String.eqb_eq in C1. destruct (tkey r) as [a |]; [| discriminate].
  apply String.eqb_eq in C2. split; congruence.
Qed.

Lemma upsert_template_sets (k : string) (d x : option string) (w : World) :
  key_rows sid k d x (templates (upsert_template sid (Some k, d, x) w)).
Proof.
  destruct (upsert_template_rows (Some k) d x w) as [added [-> H]]. simpl.
  split.
  - assert (E : exists r, In r (templates w ++ added) /\
                          t_store_id r = sid /\ tkey r = Some k).
    { destruct H as [[-> C] | [-> Hno]].
      - rewrite app_nil_r. now apply conflict_row in C.
      - exists (mkTemplate sid (Some k) d x). split; [| split; reflexivity].
        apply in_or_app. right. now left. }
    destruct E as [r [Hin [Hs Hk]]].
    exists (updated sid (Some k) d x r). split; [now apply in_map |].
    destruct (updated_keys (Some k) d x r) as [-> ->]. auto.
  - intros r' Hin Hs Hk. apply in_map_iff in Hin. destruct Hin as [r [<- Hin]].
    destruct (updated_keys (Some k) d x r) as [Es Ek].
    rewrite Es in Hs. rewrite Ek in Hk.
    unfold updated. rewrite (proj2 (template_matches_iff k r) (conj Hs Hk)).
    split; reflexivity.
Qed.

Lemma upsert_template_keeps (k : string) (d x : option string)
  (e : option string * option string * option string) (w : World) :
  entry_key e <> Some k ->
  key_rows sid k d x (templates w) ->
  key_rows sid k d x (templates (upsert_template sid e w)).
Proof.
  destruct e as [[k' d'] x']. intros N [[r0 [Hin0 [Hs0 Hk0]]] All].
  change (entry_key (k', d', x')) with k' in N.
  destruct (upsert_template_rows k' d' x' w) as [added [-> H]]. simpl.
  split.
  - exists (updated sid k' d' x' r0). split.
    + apply in_map. apply in_or_app. now left.
    + destruct (updated_keys k' d' x' r0) as [-> ->]. auto.
  - intros r' Hin Hs Hk. apply in_map_iff in Hin. destruct Hin as [r [<- Hin]].
    destruct (updated_keys k' d' x' r) as [Es Ek].
    rewrite Es in Hs. rewrite Ek in Hk.
    unfold updated. rewrite (template_matches_other k k' r N Hk).
    apply in_app_or in Hin. destruct Hin as [Hin | Hin]; [now apply All |].
    destruct H as [[-> _] | [-> _]]; [contradiction |].
    destruct Hin as [<- | []]. simpl in Hk. congruence.
Qed.

(** The last entry submitted for a key decides its rows. *)
Lemma upsert_all_last
  (before after : list (option string * option string * option string))
  (k : string) (d x : option string) (w : World) :
  (forall e, In e after -> entry_key e <> Some k) ->
  key_rows sid k d x
    (templates (upsert_all sid (before ++ (Some k, d, x) :: after) w)).
Proof.
  intros N. unfold upsert_all. rewrite fold_left_app, fold_left_cons.
  generalize (fold_left (fun w' e => upsert_template sid e w') before w).
  intros w0.
  assert (K : key_rows sid k d x (templates (upsert_template sid (Some k, d, x) w0)))
    by apply upsert_template_sets.
  revert K. generalize (upsert_template sid (Some k, d, x) w0).
  induction after as [| e after IH]; intros w1 K; [exact K |].
  rewrite fold_left_cons. apply IH.
  - intros e' He'. apply N. now right.
  - apply upsert_template_keeps; [apply N; now left | exact K].
Qed.

(** *** The frame *)








Lemma upsert_all_other_tables
  (entries : list (option string * option string * option string)) (w : World) :
  merchants (upsert_all sid entries w) = merchants w /\
  store_settings (upsert_all sid entries w) = store_settings w /\
  events (upsert_all sid entries w) = events w /\
  logs (upsert_all sid entries w) = logs w /\
  sent (upsert_all sid entries w) = sent w.
Proof.
  revert w. induction entries as [| [[k d] x] entries IH]; intros w.
  - repeat split.
  - unfold upsert_all in *. rewrite fold_left_cons.
    destruct (upsert_template_rows k d x w) as [added [-> _]].
    destruct (IH (set_templates (fun rows => map (updated sid k d x) (rows ++ added)) w))
      as [M [S [E [L T]]]].
    rewrite M, S, E, L, T. repeat split.
Qed.

End Templates.

Lemma api_get_templates_rows (sid : option string) (now : Z) (w : World)
  (st : merchant) :
  get_store sid w = Some st ->
  select_templates (store_id st) w <> [] ->
  api_get_templates sid now w = (Ok (select_templates (store_id st) w), w).
Proof.
  intros Hst Hrows. unfold api_get_templates.
  unfold bind at 1. rewrite (require_store_found _ _ _ _ Hst).
  unfold bind at 1. unfold read at 1.
  destruct (select_templates (store_id st) w); [contradiction | reflexivity].
Qed.






(** An entry that cannot be stored makes the loop body raise before it
    writes. *)
Lemma save_template_refuses (float_text : spec_float -> string) (st : merchant)
  (item : json) (w : World) :
  entry_params float_text item = None ->
  exists x, save_template float_text st item w = (Raise x, w).
Proof.
  intros E.
  destruct item as [| bb | z | f | s | items | t];
    try (eexists; reflexivity).
  unfold entry_params in E.
  unfold save_template, as_dict, bind_text, bind, ret, raise.
  destruct (sql_text float_text (get t "tkey")) as [k |];
    [| eexists; reflexivity].
  destruct (sql_text float_text (py_or (get t "display_name") (get t "tkey")))
    as [d |]; [| eexists; reflexivity].
  destruct (sql_text float_text (py_or (get t "body") (JStr "")))
    as [x |]; [discriminate | eexists; reflexivity].
Qed.

Lemma for_each_stops (float_text : spec_float -> string) (st : merchant)
  (good : list json) (bad : json) (rest : list json)
  (entries : list (option string * option string * option string)) (w : World) :
  Forall2 (fun item e => entry_params float_text item = Some e) good entries ->
  entry_params float_text bad = None ->
  exists x, for_each (good ++ bad :: rest) (save_template float_text st) w
            = (Raise x, upsert_all (store_id st) entries w).
Proof.
  intros F B. revert w. induction F as [| item e good entries He F IH]; intros w.
  - destruct (save_template_refuses float_text st bad w B) as [x Run].
    exists x. simpl for_each. unfold bind at 1. now rewrite Run.
  - destruct (IH (upsert_template (store_id st) e w)) as [x R].
    exists x. simpl for_each. unfold bind at 1.
    rewrite (save_template_run float_text st item e w He). exact R.
Qed.





Example template_save_creates_row :
  templates (snd (api_save_templates float_text_0
                    (templates_request [template_entry "refund_created" "R" "text"])
                    (Some "store-2") two_tenants))
  = templates two_tenants
    ++ [mkTemplate "store-2" (Some "refund_created") (Some "R") (Some "text")].
Proof. reflexivity. Qed.

Example template_save_bad_entry :
  api_save_templates float_text_0
    (templates_request [ template_entry "order_paid" "Paid" "first"; JInt 3 ])
    (Some "store-2") two_tenants
  = (Raise AttributeError,
     mkWorld [store_1; store_2] []
       [ mkTemplate "store-1" (Some "order_paid") (Some "Paid") (Some "old 1");
         mkTemplate "store-2" (Some "order_paid") (Some "Paid") (Some "first");
         mkTemplate "store-1" (Some "delivered") (Some "Done") (Some "old 3") ]
       [] [] []).
Proof. reflexivity. Qed.

(* ================================================================== *)
(** ** Further properties: the schema constraints *)

Lemma template_conflict_sym (a b : template) :
  template_conflict a b = template_conflict b a.
Proof.
  unfold template_conflict. rewrite (String.eqb_sym (t_store_id b)).
  destruct (tkey a) as [ka |], (tkey b) as [kb |]; try reflexivity.
  now rewrite (String.eqb_sym ka kb).
Qed.

Lemma templates_unique_snoc (rows : list template) (t : template) :
  templates_unique rows ->
  existsb (template_conflict t) rows = false ->
  templates_unique (rows ++ [t]).
Proof.
  induction rows as [| r rows IH]; simpl; intros U E.
  - auto.
  - destruct U as [Ur U]. apply orb_false_elim in E. destruct E as [Er E].
    split; [| now apply IH].
    rewrite existsb_app, Ur. simpl.
    now rewrite template_conflict_sym, Er.
Qed.

(** A change of rows that keeps tenants and keys keeps the constraint. *)
Lemma templates_unique_map (f : template -> template) (rows : list template) :
  (forall t, t_store_id (f t) = t_store_id t /\ tkey (f t) = tkey t) ->
  templates_unique rows -> templates_unique (map f rows).
Proof.
  intros K. induction rows as [| r rows IH]; simpl; [auto |].
  intros [Ur U]. split; [| now apply IH].
  rewrite <- Ur. clear - K. induction rows as [| x rows IH]; [reflexivity |].
  simpl. rewrite IH. f_equal. unfold template_conflict.
  destruct (K r) as [-> ->]. destruct (K x) as [-> ->]. reflexivity.
Qed.

Lemma insert_or_ignore_template_unique (t : template) (w : World) :
  templates_unique (templates w) ->
  templates_unique (templates (insert_or_ignore_template t w)).
Proof.
  intros U. unfold insert_or_ignore_template.
  destruct (existsb (template_conflict t) (templates w)) eqn:E; [exact U |].
  simpl. now apply templates_unique_snoc.
Qed.

Lemma upsert_template_unique (sid : string)
  (e : option string * option string * option string) (w : World) :
  templates_unique (templates w) ->
  templates_unique (templates (upsert_template sid e w)).
Proof.
  destruct e as [[k d] x]. intros U. unfold upsert_template, update_template.
  simpl. apply templates_unique_map.
  - intros t. destruct (template_matches sid k t); split; reflexivity.
  - now apply insert_or_ignore_template_unique.
Qed.

Lemma upsert_all_unique (sid : string)
  (entries : list (option string * option string * option string)) (w : World) :
  templates_unique (templates w) ->
  templates_unique (templates (upsert_all sid entries w)).
Proof.
  revert w. induction entries as [| e entries IH]; intros w U; [exact U |].
  unfold upsert_all. rewrite fold_left_cons. apply IH.
  now apply upsert_template_unique.
Qed.

Lemma seed_templates_unique (sid : string) (ts : list (string * string * string))
  (w : World) :
  templates_unique (templates w) ->
  templates_unique (templates (seed_templates sid ts w)).
Proof.
  revert w. induction ts as [| t ts IH]; intros w U; [exact U |].
  unfold seed_templates. rewrite fold_left_cons. apply IH.
  now apply insert_or_ignore_template_unique.
Qed.

Lemma NoDup_map_filter {Row Key : Type} (key : Row -> Key)
  (keep : Row -> bool) (rows : list Row) (N : NoDup (map key rows)) :
  NoDup (map key (filter keep rows)).
Proof.
  induction rows as [| a l IH]; simpl in *; [constructor |].
  inversion N as [| x xs Hnot N']; subst.
  destruct (keep a); simpl; [constructor |]; auto.
  intros Hin. apply Hnot. apply in_map_iff in Hin.
  destruct Hin as [y [E Hy]]. apply filter_In in Hy.
  rewrite <- E. apply in_map. tauto.
Qed.

Lemma NoDup_map_snoc {A B} (f : A -> B) (l : list A) (a : A) :
  NoDup (map f l) -> (forall x, In x l -> f x <> f a) ->
  NoDup (map f (l ++ [a])).
Proof.
  intros N F. rewrite map_app. simpl.
  apply NoDup_app; [exact N | repeat constructor; auto |].
  intros y Hy [<- | []]. apply in_map_iff in Hy.
  destruct Hy as [x [E Hx]]. now apply (F x Hx).
Qed.

Lemma insert_or_ignore_settings_unique (r : settings_row) (w : World) :
  NoDup (map ss_store_id (store_settings w)) ->
  NoDup (map ss_store_id (store_settings (insert_or_ignore_settings r w))).
Proof.
  intros N. unfold insert_or_ignore_settings.
  destruct (existsb (settings_conflict r) (store_settings w)) eqn:E; [exact N |].
  simpl. apply NoDup_map_snoc; [exact N |].
  intros x Hx Heq.
  assert (T : existsb (settings_conflict r) (store_settings w) = true).
  { apply existsb_exists. exists x. split; [exact Hx |].
    unfold settings_conflict. now apply String.eqb_eq. }
  congruence.
Qed.

Lemma insert_or_replace_settings_unique (r : settings_row) (w : World) :
  NoDup (map ss_store_id (store_settings w)) ->
  NoDup (map ss_store_id (store_settings (insert_or_replace_settings r w))).
Proof.
  intros N. unfold insert_or_replace_settings. simpl.
  apply NoDup_map_snoc; [now apply NoDup_map_filter |].
  intros x Hx Heq. apply filter_In in Hx. destruct Hx as [_ Hx].
  unfold other_tenant, settings_conflict in Hx.
  apply String.eqb_eq in Heq. now rewrite Heq in Hx.
Qed.

Lemma insert_or_replace_merchant_unique (m : merchant) (w : World) :
  NoDup (map id (merchants w)) -> NoDup (map store_id (merchants w)) ->
  NoDup (map id (merchants (insert_or_replace_merchant m w))) /\
  NoDup (map store_id (merchants (insert_or_replace_merchant m w))).
Proof.
  intros Ni Ns. unfold insert_or_replace_merchant. simpl.
  split; (apply NoDup_map_snoc; [now apply NoDup_map_filter |]);
    intros x Hx Heq; apply filter_In in Hx; destruct Hx as [_ Hx];
    unfold merchant_conflict in Hx; apply negb_true_iff, orb_false_elim in Hx;
    destruct Hx as [Hs Hi].
  - apply Z.eqb_neq in Hi. contradiction.
  - apply String.eqb_neq in Hs. contradiction.
Qed.

Lemma update_waba_keys (sid : string) (tok pid : option string) (w : World) :
  map id (merchants (update_waba sid tok pid w)) = map id (merchants w) /\
  map store_id (merchants (update_waba sid tok pid w)) = map store_id (merchants w).
Proof.
  unfold update_waba. simpl. rewrite !map_map.
  split; apply map_ext; intros m; destruct (store_id m =? sid)%string; reflexivity.
Qed.

Lemma seed_templates_merchants (sid : string) (ts : list (string * string * string))
  (w : World) :
  merchants (seed_templates sid ts w) = merchants w.
Proof.
  destruct (seed_templates_appends sid ts w) as [added [-> _]]. reflexivity.
Qed.

Lemma ensure_defaults_merchants (sid : string) (now : Z) (w : World) :
  merchants (ensure_defaults sid now w) = merchants w.
Proof.
  unfold ensure_defaults. rewrite seed_templates_merchants.
  destruct (select_settings sid w); [reflexivity |].
  unfold insert_or_ignore_settings.
  destruct (existsb _ (store_settings w)); reflexivity.
Qed.

Lemma ensure_defaults_constraints (sid : string) (now : Z) (w : World) :
  constraints w -> constraints (ensure_defaults sid now w).
Proof.
  intros [Ni [Ns [Nt U]]].
  unfold constraints. rewrite ensure_defaults_merchants.
  split; [exact Ni | split; [exact Ns | split]].
  - rewrite ensure_defaults_store_settings.
    destruct (select_settings sid w) eqn:E.
    + now rewrite app_nil_r.
    + apply NoDup_map_snoc; [exact Nt |]. intros x Hx Heq. simpl in Heq.
      unfold select_settings in E.
      apply find_none with (x := x) in E; [| exact Hx].
      apply String.eqb_neq in E. contradiction.
  - unfold ensure_defaults. apply seed_templates_unique.
    destruct (select_settings sid w); [exact U |].
    unfold insert_or_ignore_settings.
    destruct (existsb _ (store_settings w)); exact U.
Qed.

(* ================================================================== *)
(** ** Further properties: what a handler can do to the tables *)

(** Case analysis on whatever the computation branches on next. *)
Ltac branch :=
  match goal with
  | |- context [match ?x with _ => _ end] =>
      lazymatch x with
      | context [match _ with _ => _ end] => fail
      | _ => destruct x eqn:?
      end
  end.

Ltac run := unfold bind, ret, raise, execute, lift, read; cbn beta iota.

Lemma webhook_world (SALLA_WEBHOOK_SEC : string) (float_text : spec_float -> string)
  (json_loads : string -> option json)
  (hmac_sha256_hex : string -> string -> string)
  (request : webhook_request) (now : Z) (w : World) :
  (exists e, webhook SALLA_WEBHOOK_SEC float_text json_loads hmac_sha256_hex
                     request now w = (Raise e, w)) \/
  (exists ev, webhook SALLA_WEBHOOK_SEC float_text json_loads hmac_sha256_hex
                      request now w
              = (Ok (JObj [("ok", JBool true)]),
                 set_events (fun rows => rows ++ [ev]) w)).
Proof.
  unfold webhook, as_dict, bind_text, bind_json. run.
  repeat (branch; run; try (left; eexists; reflexivity));
    try (right; eexists; reflexivity).
Qed.

Lemma require_store_cases (sid : option string) (detail : string) (w : World) :
  (get_store sid w = None /\
   require_store sid detail w = (Raise (HTTPException 404 detail), w)) \/
  (exists st, get_store sid w = Some st /\ require_store sid detail w = (Ok st, w)).
Proof.
  destruct (get_store sid w) as [st |] eqn:E.
  - right. exists st. split; [reflexivity | now apply require_store_found].
  - left. split; [reflexivity | now apply require_store_missing].
Qed.

Lemma api_save_settings_world (int_of_str : string -> option Z) (body : json)
  (sid : option string) (now : Z) (w : World) :
  (exists e, api_save_settings int_of_str body sid now w = (Raise e, w)) \/
  (exists st row,
     get_store sid w = Some st /\ ss_store_id row = store_id st /\
     api_save_settings int_of_str body sid now w
     = (Ok (JObj [("ok", JBool true)]), insert_or_replace_settings row w)).
Proof.
  destruct (require_store_cases sid "Store not found" w) as [[_ E] | [st [Hst E]]];
    unfold api_save_settings, as_dict, py_int, bind_json; run; rewrite E;
    [left; eexists; reflexivity |].
  repeat (branch; run; try (left; eexists; reflexivity)).
  right. eexists st, _. split; [exact Hst | split; [| reflexivity]]. reflexivity.
Qed.

Lemma api_save_waba_world (float_text : spec_float -> string) (body : json)
  (sid : option string) (w : World) :
  (exists e, api_save_waba float_text body sid w = (Raise e, w)) \/
  (exists st tok pid,
     get_store sid w = Some st /\
     api_save_waba float_text body sid w
     = (Ok (JObj [("ok", JBool true)]), update_waba (store_id st) tok pid w)).
Proof.
  destruct (require_store_cases sid "Store not found" w) as [[_ E] | [st [Hst E]]];
    unfold api_save_waba, as_dict, bind_text; run; rewrite E;
    [left; eexists; reflexivity |].
  repeat (branch; run; try (left; eexists; reflexivity)).
  right. eexists st, _, _. split; [exact Hst | reflexivity].
Qed.

Lemma api_test_send_world (GLOBAL_WABA_TOKEN GLOBAL_WABA_PHONE_ID : string)
  (transport : wa_call -> option (Z * response_data))
  (body : json) (sid : option string) (now : Z) (w : World) :
  (exists e, api_test_send GLOBAL_WABA_TOKEN GLOBAL_WABA_PHONE_ID transport
                           body sid now w = (Raise e, w)) \/
  (exists e call,
     api_test_send GLOBAL_WABA_TOKEN GLOBAL_WABA_PHONE_ID transport body sid now w
     = (Raise e, set_sent (fun calls => calls ++ [call]) w)) \/
  (exists res call entry,
     api_test_send GLOBAL_WABA_TOKEN GLOBAL_WABA_PHONE_ID transport body sid now w
     = (Ok res, set_logs (fun rows => rows ++ [entry])
                  (set_sent (fun calls => calls ++ [call]) w))).
Proof.
  destruct (require_store_cases sid "Store not found" w) as [[_ E] | [st [Hst E]]];
    unfold api_test_send, as_dict, py_strip, send_whatsapp_text, json_dumps_data,
      bind_str;
    run; rewrite E; [left; eexists; reflexivity |].
  repeat (branch; run; try (left; eexists; reflexivity));
    try (right; left; eexists _, _; reflexivity);
    right; right; eexists _, _, _; reflexivity.
Qed.

Lemma api_get_templates_world (sid : option string) (now : Z) (w : World) :
  (get_store sid w = None /\
   api_get_templates sid now w = (Raise TenantNotFound, w)) \/
  (exists st,
     get_store sid w = Some st /\
     (select_templates (store_id st) w <> [] /\
      api_get_templates sid now w = (Ok (select_templates (store_id st) w), w) \/
      select_templates (store_id st) w = [] /\
      api_get_templates sid now w
      = (Ok (select_templates (store_id st) (ensure_defaults (store_id st) now w)),
         ensure_defaults (store_id st) now w))).
Proof.
  destruct (require_store_cases sid "Store not found" w) as [[N E] | [st [Hst E]]];
    unfold api_get_templates; run; rewrite E;
    [left; split; [exact N | reflexivity] |].
  right. exists st. split; [exact Hst |].
  destruct (select_templates (store_id st) w) eqn:S.
  - right. split; reflexivity.
  - left. split; [discriminate | reflexivity].
Qed.

Lemma dashboard_world (sid : option string) (now : Z) (w : World) :
  (get_store sid w = None /\ dashboard sid now w = (Ok ChooseStore, w)) \/
  (exists st, get_store sid w = Some st /\
              dashboard sid now w
              = (Ok Dashboard, ensure_defaults (store_id st) now w)).
Proof.
  unfold dashboard. run. destruct (get_store sid w) as [st |].
  - right. exists st. split; reflexivity.
  - left. split; reflexivity.
Qed.

Lemma callback_world (float_text : spec_float -> string)
  (int_of_str : string -> option Z) (http_post_json : string -> result json)
  (py_hash : json -> Z) (code : option string) (rowid now1 now2 now3 : Z)
  (w : World) :
  (exists e, callback float_text int_of_str http_post_json py_hash
                      code rowid now1 now2 now3 w = (Raise e, w)) \/
  (exists m n,
     id m = rowid /\ waba_token m = None /\ waba_phone_id m = None /\
     plan m = Some "basic" /\
     store_id m = ("store-" ++ str_of_int n)%string /\ 0 <= n < 999999 /\
     opt_truthy code = true /\
     callback float_text int_of_str http_post_json py_hash
              code rowid now1 now2 now3 w
     = (Ok ("/dashboard?sid=" ++ store_id m)%string,
        ensure_defaults (store_id m) now3 (insert_or_replace_merchant m w))).
Proof.
  unfold callback, as_dict, py_int, hash_of, bind_text, bind_integer. run.
  destruct (opt_truthy code) eqn:Code; cbn [negb];
    [| left; eexists; reflexivity].
  repeat (branch; run; try (left; eexists; reflexivity));
    right;
    match goal with
    | |- context [str_of_int (?h mod 999999)] =>
        eexists (mkMerchant _ _ _ _ _ _ _ _ _ _ _), (h mod 999999)
    end;
    (repeat split; try reflexivity;
     apply Z.mod_pos_bound; reflexivity).
Qed.

Lemma save_template_cases (float_text : spec_float -> string) (st : merchant)
  (item : json) (w : World) :
  (exists e, entry_params float_text item = Some e /\
             save_template float_text st item w
             = (Ok tt, upsert_template (store_id st) e w)) \/
  (entry_params float_text item = None /\
   exists x, save_template float_text st item w = (Raise x, w)).
Proof.
  destruct (entry_params float_text item) as [e |] eqn:E.
  - left. exists e. split; [reflexivity | now apply save_template_run].
  - right. split; [reflexivity |].
  destruct item as [| bb | z | f | s | items | t];
      try (eexists; reflexivity).
    unfold entry_params in E. unfold save_template, as_dict, bind_text. run.
    destruct (sql_text float_text (get t "tkey")) as [k |];
      [| eexists; reflexivity].
    destruct (sql_text float_text (py_or (get t "display_name") (get t "tkey")))
      as [d |]; [| eexists; reflexivity].
    destruct (sql_text float_text (py_or (get t "body") (JStr "")))
      as [x |]; [discriminate | eexists; reflexivity].
Qed.

(** The loop applies the entries in order up to the first one it cannot
    apply, and stops there. *)
Lemma for_each_cases (float_text : spec_float -> string) (st : merchant)
  (items : list json) (w : World) :
  (exists entries,
     Forall2 (fun item e => entry_params float_text item = Some e) items entries /\
     for_each items (save_template float_text st) w
     = (Ok tt, upsert_all (store_id st) entries w)) \/
  (exists good bad rest entries x,
     items = good ++ bad :: rest /\
     Forall2 (fun item e => entry_params float_text item = Some e) good entries /\
     entry_params float_text bad = None /\
     for_each items (save_template float_text st) w
     = (Raise x, upsert_all (store_id st) entries w)).
Proof.
  revert w. induction items as [| item items IH]; intros w.
  - left. exists []. split; [constructor | reflexivity].
  - destruct (save_template_cases float_text st item w) as [[e [He Run]] | [He [x Run]]].
    + destruct (IH (upsert_template (store_id st) e w))
        as [[entries [F R]] | [good [bad [rest [entries [x [-> [F [B R]]]]]]]]].
      * left. exists (e :: entries). split; [now constructor |].
        simpl for_each. unfold bind at 1. rewrite Run. exact R.
      * right. exists (item :: good), bad, rest, (e :: entries), x.
        split; [reflexivity | split; [now constructor | split; [exact B |]]].
        simpl for_each. unfold bind at 1. rewrite Run. exact R.
    + right. exists [], item, items, [], x.
      split; [reflexivity | split; [constructor | split; [exact He |]]].
      simpl for_each. unfold bind at 1. now rewrite Run.
Qed.

Lemma iterate_world (v : json) (w : World) (r : result (list json)) (w1 : World) :
  iterate v w = (r, w1) -> w1 = w.
Proof. unfold iterate. destruct v; intros H; inversion H; reflexivity. Qed.

Lemma api_save_templates_world (float_text : spec_float -> string) (body : json)
  (sid : option string) (w : World) :
  (exists e, api_save_templates float_text body sid w = (Raise e, w)) \/
  (exists st entries,
     get_store sid w = Some st /\
     snd (api_save_templates float_text body sid w)
     = upsert_all (store_id st) entries w).
Proof.
  destruct (require_store_cases sid "Store not found" w) as [[_ E] | [st [Hst E]]];
    unfold api_save_templates, as_dict; run; rewrite E;
    [left; eexists; reflexivity |].
  destruct body as [| bb | z | f | s | items | b];
    try (left; eexists; reflexivity).
  destruct (iterate (py_or (get b "templates") (JArr [])) w) as [[tpls | e] w1] eqn:I;
    apply iterate_world in I; subst w1.
  - right. exists st.
    destruct (for_each_cases float_text st tpls w)
      as [[entries [_ ->]] | [good [bad [rest [entries [x [_ [_ [_ ->]]]]]]]]];
      exists entries; auto.
  - left. exists e. reflexivity.
Qed.

Lemma upsert_all_constraints (sid : string)
  (entries : list (option string * option string * option string)) (w : World) :
  constraints w -> constraints (upsert_all sid entries w).
Proof.
  intros [Ni [Ns [Nt U]]].
  destruct (upsert_all_other_tables sid entries w) as [M [S _]].
  unfold constraints. rewrite M, S.
  repeat split; auto using upsert_all_unique.
Qed.

(** The constraints of the schema hold after every handler, whatever the
    request and whether it succeeds or raises: no handler leaves two
    tenants with one [store_id] or one [id], two settings rows for one
    tenant, or two templates of one tenant under one key. *)
Theorem handlers_keep_constraints (w : World) :
  constraints w ->
  (forall sec ft loads hmac request now,
     constraints (snd (webhook sec ft loads hmac request now w))) /\
  (forall ft ios post hash code rowid now1 now2 now3,
     constraints (snd (callback ft ios post hash code rowid now1 now2 now3 w))) /\
  (forall sid now, constraints (snd (dashboard sid now w))) /\
  (forall ios body sid now, constraints (snd (api_save_settings ios body sid now w))) /\
  (forall sid now, constraints (snd (api_get_templates sid now w))) /\
  (forall ft body sid, constraints (snd (api_save_templates ft body sid w))) /\
  (forall ft body sid, constraints (snd (api_save_waba ft body sid w))) /\
  (forall tok pid transport body sid now,
     constraints (snd (api_test_send tok pid transport body sid now w))).
Proof.
  intros C. pose proof C as [Ni [Ns [Nt U]]].
  split; [| split; [| split; [| split; [| split; [| split; [| split]]]]]].
  - intros sec ft loads hmac request now.
    destruct (webhook_world sec ft loads hmac request now w) as [[e ->] | [ev ->]];
      exact C.
  - intros ft ios post hash code rowid now1 now2 now3.
    destruct (callback_world ft ios post hash code rowid now1 now2 now3 w)
      as [[e ->] | [m [n [_ [_ [_ [_ [_ [_ [_ ->]]]]]]]]]]; [exact C |].
    apply ensure_defaults_constraints.
    destruct (insert_or_replace_merchant_unique m w Ni Ns) as [Ni' Ns'].
    repeat split; assumption.
  - intros sid now.
    destruct (dashboard_world sid now w) as [[_ ->] | [st [_ ->]]];
      [exact C | now apply ensure_defaults_constraints].
  - intros ios body sid now.
    destruct (api_save_settings_world ios body sid now w)
      as [[e ->] | [st [row [_ [_ ->]]]]]; [exact C |].
    repeat split; try assumption.
    now apply insert_or_replace_settings_unique.
  - intros sid now.
    destruct (api_get_templates_world sid now w)
      as [[_ ->] | [st [_ [[_ ->] | [_ ->]]]]];
      [exact C | exact C | now apply ensure_defaults_constraints].
  - intros ft body sid.
    destruct (api_save_templates_world ft body sid w)
      as [[e ->] | [st [entries [_ ->]]]];
      [exact C | now apply upsert_all_constraints].
  - intros ft body sid.
    destruct (api_save_waba_world ft body sid w)
      as [[e ->] | [st [tok [pid [_ ->]]]]]; [exact C |].
    destruct (update_waba_keys (store_id st) tok pid w) as [Ki Ks].
    unfold constraints. cbn [snd]. rewrite Ki, Ks. repeat split; assumption.
  - intros tok pid transport body sid now.
    destruct (api_test_send_world tok pid transport body sid now w)
      as [[e ->] | [[e [call ->]] | [res [call [entry ->]]]]]; exact C.
Qed.

Lemma handlers_keep_constraints_witness :
  constraints (snd (api_save_templates float_text_0
                      (templates_request [template_entry "order_paid" "" "new"])
                      (Some "store-1") two_tenants)).
Proof.
  assert (C : constraints two_tenants).
  { unfold constraints; simpl. repeat split;
      repeat constructor; simpl; intuition discriminate. }
  destruct (handlers_keep_constraints two_tenants C)
    as [_ [_ [_ [_ [_ [T _]]]]]].
  apply T.
Defined.

(* ================================================================== *)
(** ** Further properties: unresolved tenants and the event recorder *)

(** A request that resolves to no tenant is answered 404 by every
    endpoint of the dashboard API and changes nothing: no row is read or
    written for it, whatever the body. *)
Theorem unresolved_tenant_changes_nothing (sid : option string) (w : World) :
  get_store sid w = None ->
  api_store sid w
    = (Raise (HTTPException 404 "Store not found. استخدم ?sid=..."), w) /\
  api_get_settings sid w = (Raise TenantNotFound, w) /\
  (forall ios body now,
     api_save_settings ios body sid now w = (Raise TenantNotFound, w)) /\
  (forall now, api_get_templates sid now w = (Raise TenantNotFound, w)) /\
  (forall ft body, api_save_templates ft body sid w = (Raise TenantNotFound, w)) /\
  (forall ft body, api_save_waba ft body sid w = (Raise TenantNotFound, w)) /\
  (forall tok pid transport body now,
     api_test_send tok pid transport body sid now w = (Raise TenantNotFound, w)).
Proof.
  intros N.
  assert (E : forall detail,
             require_store sid detail w = (Raise (HTTPException 404 detail), w))
    by (intros detail; now apply require_store_missing).
  repeat split; intros;
    unfold api_store, api_get_settings, api_save_settings, api_get_templates,
      api_save_templates, api_save_waba, api_test_send;
    try (unfold bind at 1); rewrite E; reflexivity.
Qed.

Lemma unresolved_tenant_changes_nothing_witness :
  api_save_waba float_text_0
    (JObj [("waba_token", JStr "T"); ("waba_phone_id", JStr "P")])
    None two_tenants
  = (Raise TenantNotFound, two_tenants).
Proof.
  destruct (unresolved_tenant_changes_nothing None two_tenants eq_refl)
    as [_ [_ [_ [_ [_ [W _]]]]]].
  apply W.
Defined.

(** The recorder writes to the Event Log only: whatever the request, the
    other tables are as before and the log has grown by one entry or not at
    all; when the request raises, nothing is appended. *)
Theorem webhook_frame (sec : string) (ft : spec_float -> string)
  (loads : string -> option json) (hmac : string -> string -> string)
  (request : webhook_request) (now : Z) (w : World) :
  let w' := snd (webhook sec ft loads hmac request now w) in
  merchants w' = merchants w /\
  store_settings w' = store_settings w /\
  templates w' = templates w /\
  logs w' = logs w /\
  sent w' = sent w /\
  (events w' = events w \/ exists ev, events w' = events w ++ [ev]) /\
  (forall e, fst (webhook sec ft loads hmac request now w) = Raise e -> w' = w).
Proof.
  cbv zeta.
  destruct (webhook_world sec ft loads hmac request now w) as [[e ->] | [ev ->]];
    cbn [fst snd].
  - repeat split; auto.
  - repeat split; try reflexivity.
    + right. now exists ev.
    + intros e H. discriminate.
Qed.

Lemma webhook_frame_witness :
  snd (webhook "change-me" float_text_0 (loads_as payload_both) digest_0
         (mkRequest "{...}" None) 3 two_tenants)
  = two_tenants.
Proof.
  apply (proj2 (proj2 (proj2 (proj2 (proj2 (proj2
           (webhook_frame "change-me" float_text_0 (loads_as payload_both)
              digest_0 (mkRequest "{...}" None) 3 two_tenants)))))))
    with (e := HTTPException 401 "Invalid signature").
  reflexivity.
Defined.

(** With a secret configured, a request whose X-Signature header is
    missing, or is an ASCII text other than the digest of the body, is
    refused with 401 before the body is parsed, and records nothing.  (A
    header with a character outside ASCII is not compared at all:
    [compare_digest] raises on it.) *)
Theorem webhook_rejects_bad_signature (sec : string) (ft : spec_float -> string)
  (loads : string -> option json) (hmac : string -> string -> string)
  (request : webhook_request) (now : Z) (w : World) :
  sec <> "" ->
  is_ascii (match x_signature request with Some s => s | None => "" end) = true ->
  hmac sec (raw_body request)
  <> match x_signature request with Some s => s | None => "" end ->
  webhook sec ft loads hmac request now w
  = (Raise (HTTPException 401 "Invalid signature"), w).
Proof.
  intros S A D. unfold webhook. unfold bind at 1.
  rewrite (str_truthy_true sec S). unfold compare_digest.
  apply String.eqb_neq in D. rewrite D, A. reflexivity.
Qed.

Lemma webhook_rejects_bad_signature_witness :
  webhook "change-me" float_text_0 (loads_as payload_both) digest_0
          (mkRequest "{...}" None) 3 two_tenants
  = (Raise (HTTPException 401 "Invalid signature"), two_tenants).
Proof.
  apply webhook_rejects_bad_signature; [discriminate | reflexivity | discriminate].
Defined.

(** A body that is not a JSON object (not JSON at all, or a list, a text,
    a number) makes the recorder raise after the signature check, and
    records nothing. *)
Theorem webhook_needs_an_object (sec : string) (ft : spec_float -> string)
  (loads : string -> option json) (hmac : string -> string -> string)
  (request : webhook_request) (now : Z) (w : World) :
  signature_verified sec hmac request ->
  (forall p, loads (raw_body request) <> Some (JObj p)) ->
  webhook sec ft loads hmac request now w
  = (Raise (match loads (raw_body request) with
            | None => ValueError
            | Some _ => AttributeError
            end), w).
Proof.
  intros V N. unfold webhook. unfold bind at 1.
  rewrite (webhook_signature_passes sec hmac request w V).
  unfold bind at 1.
  destruct (loads (raw_body request)) as [[| b | z | f | s | items | p] |];
    try reflexivity.
  now destruct (N p).
Qed.

Lemma webhook_needs_an_object_witness :
  webhook "" float_text_0 (loads_as (JArr [JInt 1])) digest_0
          (mkRequest "[1]" None) 3 two_tenants
  = (Raise AttributeError, two_tenants).
Proof.
  apply (webhook_needs_an_object "" float_text_0 (loads_as (JArr [JInt 1]))
           digest_0 (mkRequest "[1]" None) 3 two_tenants).
  - left. reflexivity.
  - intros p. discriminate.
Defined.

(* ================================================================== *)
(** ** Further properties: seeding, the dashboard page, reading *)

Lemma ensure_defaults_again (sid : string) (t1 t2 : Z) (w : World) :
  ensure_defaults sid t2 (ensure_defaults sid t1 w) = ensure_defaults sid t1 w.
Proof.
  pose proof (ensure_defaults_has_settings sid t1 w) as Has.
  unfold ensure_defaults at 1.
  destruct (select_settings sid (ensure_defaults sid t1 w)); [| congruence].
  apply seed_templates_fixed. intros t Hin.
  unfold ensure_defaults. now apply seed_templates_covers.
Qed.

Lemma ensure_defaults_templates_start (sid : string) (now : Z) (w : World) :
  templates (match select_settings sid w with
             | None => insert_or_ignore_settings
                         (mkSettings sid DEFAULT_SETTINGS now) w
             | Some _ => w
             end) = templates w.
Proof.
  destruct (select_settings sid w); [reflexivity |].
  unfold insert_or_ignore_settings.
  destruct (existsb _ (store_settings w)); reflexivity.
Qed.

Lemma ensure_defaults_seeded (sid : string) (now : Z) (w : World) :
  seeded sid (ensure_defaults sid now w).
Proof.
  split; [apply ensure_defaults_has_settings |].
  assert (K : forall t, In t DEFAULT_TEMPLATES ->
            exists r, In r (templates (ensure_defaults sid now w)) /\
                      t_store_id r = sid /\ tkey r = Some (fst (fst t))).
  { intros [[k name] text] Hin.
    apply (conflict_row sid k (Some name) (Some text)).
    unfold ensure_defaults.
    apply (seed_templates_covers sid DEFAULT_TEMPLATES (k, name, text) _ Hin). }
  change EVENT_KINDS with (map (fun t => fst (fst t)) DEFAULT_TEMPLATES).
  apply Forall_map. apply Forall_forall. exact K.
Qed.

Lemma insert_or_ignore_template_absent (t : template) (w : World) :
  existsb (template_conflict t) (templates w) = false ->
  insert_or_ignore_template t w = set_templates (fun rows => rows ++ [t]) w.
Proof. intros H. unfold insert_or_ignore_template. now rewrite H. Qed.

(** Seeding a tenant that has no row under any of the keys adds every
    default, in order. *)
Lemma seed_templates_fresh (sid : string) (ts : list (string * string * string))
  (w : World) :
  NoDup (map (fun t => fst (fst t)) ts) ->
  (forall r t, In r (templates w) -> t_store_id r = sid -> In t ts ->
               tkey r <> Some (fst (fst t))) ->
  templates (seed_templates sid ts w) = templates w ++ map (default_row sid) ts.
Proof.
  revert w. induction ts as [| [[k name] text] ts IH]; intros w ND Fresh.
  - simpl. now rewrite app_nil_r.
  - unfold seed_templates. rewrite fold_left_cons. fold (seed_templates sid ts).
    inversion ND as [| x l Hnot ND']; subst.
    assert (E : existsb (template_conflict (default_row sid (k, name, text)))
                        (templates w) = false).
    { destruct (existsb _ (templates w)) eqn:C; [| reflexivity].
      apply (conflict_row sid k (Some name) (Some text)) in C.
      destruct C as [r [Hin [Hs Hk]]].
      exfalso. apply (Fresh r (k, name, text) Hin Hs (or_introl eq_refl)).
      exact Hk. }
    rewrite (insert_or_ignore_template_absent _ _ E).
    change (templates (seed_templates sid ts
              (set_templates (fun rows => rows ++ [default_row sid (k, name, text)]) w))
            = templates w ++ map (default_row sid) ((k, name, text) :: ts)).
    rewrite IH.
    + simpl. now rewrite <- app_assoc.
    + exact ND'.
    + simpl. intros r t Hin Hs Ht. apply in_app_or in Hin.
      destruct Hin as [Hin | [<- | []]].
      * apply (Fresh r t Hin Hs). now right.
      * simpl. intros [= Hk]. apply Hnot. rewrite Hk.
        now apply (in_map (fun t => fst (fst t))).
Qed.

Lemma select_default_rows (sid : string) (ts : list (string * string * string)) :
  filter (fun t => (t_store_id t =? sid)%string) (map (default_row sid) ts)
  = map (default_row sid) ts.
Proof.
  induction ts as [| [[k name] text] ts IH]; simpl; [reflexivity |].
  now rewrite String.eqb_refl, IH.
Qed.

Lemma ensure_defaults_fresh_rows (sid : string) (now : Z) (w : World) :
  select_templates sid w = [] ->
  select_templates sid (ensure_defaults sid now w)
  = map (default_row sid) DEFAULT_TEMPLATES.
Proof.
  intros Hnone. unfold ensure_defaults, select_templates.
  rewrite seed_templates_fresh.
  - rewrite ensure_defaults_templates_start, filter_app, select_default_rows.
    unfold select_templates in Hnone. now rewrite Hnone.
  - simpl. repeat constructor; simpl; intuition discriminate.
  - rewrite ensure_defaults_templates_start. intros r t Hin Hs _.
    exfalso. assert (In r (select_templates sid w)).
    { unfold select_templates. apply filter_In. split; [exact Hin |].
      now apply String.eqb_eq. }
    rewrite Hnone in H. contradiction.
Qed.

(** After the seeder has run, the tenant has a settings row and a
    template under each of the seven event kinds, whatever was there
    before.  A tenant that had no template gets exactly the seven default
    templates, in the order of [DEFAULT_TEMPLATES], and a tenant that had no
    settings row gets the default settings. *)
Theorem ensure_defaults_seeds (sid : string) (now : Z) (w : World) :
  seeded sid (ensure_defaults sid now w) /\
  (select_templates sid w = [] ->
   select_templates sid (ensure_defaults sid now w)
   = map (default_row sid) DEFAULT_TEMPLATES) /\
  (select_settings sid w = None ->
   select_settings sid (ensure_defaults sid now w)
   = Some (mkSettings sid DEFAULT_SETTINGS now)).
Proof.
  split; [apply ensure_defaults_seeded | split; [apply ensure_defaults_fresh_rows |]].
  intros Hnone. unfold select_settings at 1.
  rewrite ensure_defaults_store_settings, Hnone.
  unfold select_settings in Hnone.
  rewrite find_app_none by exact Hnone.
  simpl. now rewrite String.eqb_refl.
Qed.

Lemma ensure_defaults_seeds_witness :
  select_templates "store-9" (ensure_defaults "store-9" 5 two_tenants)
  = map (default_row "store-9") DEFAULT_TEMPLATES /\
  select_settings "store-9" (ensure_defaults "store-9" 5 two_tenants)
  = Some (mkSettings "store-9" DEFAULT_SETTINGS 5).
Proof.
  destruct (ensure_defaults_seeds "store-9" 5 two_tenants) as [_ [T S]].
  split; [apply T | apply S]; reflexivity.
Defined.

Lemma get_store_ensure_defaults (sid : option string) (s : string) (now : Z)
  (w : World) :
  get_store sid (ensure_defaults s now w) = get_store sid w.
Proof. apply get_store_same_merchants, ensure_defaults_merchants. Qed.

(** GET /dashboard never raises.  Without a resolved tenant it shows the
    page that asks for a store and changes nothing.  With one it seeds the
    tenant's defaults and shows the dashboard; a second visit, at any later
    time, shows the dashboard again and changes nothing more. *)
Theorem dashboard_seeds_once (sid : option string) (now : Z) (w : World) :
  (exists p, fst (dashboard sid now w) = Ok p) /\
  (get_store sid w = None -> dashboard sid now w = (Ok ChooseStore, w)) /\
  (forall st, get_store sid w = Some st ->
     dashboard sid now w = (Ok Dashboard, ensure_defaults (store_id st) now w) /\
     seeded (store_id st) (snd (dashboard sid now w)) /\
     forall now', dashboard sid now' (snd (dashboard sid now w))
                  = (Ok Dashboard, snd (dashboard sid now w))).
Proof.
  destruct (dashboard_world sid now w) as [[N E] | [st [Hst E]]]; rewrite E.
  - split; [now exists ChooseStore | split; [reflexivity |]].
    intros st Hst. congruence.
  - split; [now exists Dashboard | split; [congruence |]].
    intros st' Hst'. assert (st' = st) as -> by congruence.
    split; [reflexivity | split; [apply ensure_defaults_seeded |]].
    intros now'. cbn [snd].
    destruct (dashboard_world sid now' (ensure_defaults (store_id st) now w))
      as [[N' _] | [st2 [Hst2 E2]]].
    + rewrite get_store_ensure_defaults in N'. congruence.
    + rewrite get_store_ensure_defaults in Hst2.
      assert (st2 = st) as -> by congruence.
      rewrite E2. now rewrite ensure_defaults_again.
Qed.

Lemma dashboard_seeds_once_witness :
  dashboard None 5 two_tenants = (Ok ChooseStore, two_tenants) /\
  dashboard (Some "store-2") 9
    (snd (dashboard (Some "store-2") 5 two_tenants))
  = (Ok Dashboard, snd (dashboard (Some "store-2") 5 two_tenants)).
Proof.
  destruct (dashboard_seeds_once None 5 two_tenants) as [_ [A _]].
  destruct (dashboard_seeds_once (Some "store-2") 5 two_tenants) as [_ [_ B]].
  split; [apply A; reflexivity |].
  destruct (B store_2 eq_refl) as [_ [_ Again]]. apply Again.
Defined.

Lemma ensure_defaults_select_nonempty (sid : string) (now : Z) (w : World) :
  select_templates sid (ensure_defaults sid now w) <> [].
Proof.
  destruct (ensure_defaults_seeded sid now w) as [_ F].
  unfold EVENT_KINDS in F. apply Forall_inv in F.
  destruct F as [t [Hin [Hs _]]].
  intros E.
  assert (H : In t (select_templates sid (ensure_defaults sid now w))).
  { unfold select_templates. apply filter_In. split; [exact Hin |].
    now apply String.eqb_eq. }
  rewrite E in H. contradiction.
Qed.

(** GET /api/templates heals itself: for a resolved tenant it never
    raises and never answers with an empty list.  A tenant with templates
    gets them, in insertion order, and nothing changes; a tenant with none
    is seeded first and gets the seven defaults.  Asking again gives the
    same list and changes nothing. *)
Theorem api_get_templates_self_heals (sid : option string) (now : Z) (w : World)
  (st : merchant) :
  get_store sid w = Some st ->
  let w' := snd (api_get_templates sid now w) in
  exists rows,
    api_get_templates sid now w = (Ok rows, w') /\
    rows <> [] /\
    rows = select_templates (store_id st) w' /\
    (select_templates (store_id st) w <> [] ->
     w' = w /\ rows = select_templates (store_id st) w) /\
    (select_templates (store_id st) w = [] ->
     w' = ensure_defaults (store_id st) now w /\
     rows = map (default_row (store_id st)) DEFAULT_TEMPLATES) /\
    (forall now', api_get_templates sid now' w' = (Ok rows, w')).
Proof.
  intros Hst. cbv zeta.
  destruct (api_get_templates_world sid now w)
    as [[N _] | [st' [Hst' [[NE E] | [Em E]]]]]; [congruence | |];
    assert (st' = st) as -> by congruence; rewrite E; cbn [snd].
  - exists (select_templates (store_id st) w).
    split; [reflexivity | split; [exact NE | split; [reflexivity |]]].
    split; [auto | split; [intros H; contradiction |]].
    intros now'. now apply api_get_templates_rows.
  - exists (select_templates (store_id st) (ensure_defaults (store_id st) now w)).
    split; [reflexivity |].
    split; [apply ensure_defaults_select_nonempty | split; [reflexivity |]].
    split; [intros H; contradiction |].
    split; [split; [reflexivity | now apply ensure_defaults_fresh_rows] |].
    intros now'. apply api_get_templates_rows.
    + now rewrite get_store_ensure_defaults.
    + apply ensure_defaults_select_nonempty.
Qed.

Lemma api_get_templates_self_heals_witness :
  api_get_templates (Some "store-1") 4 (world_of [store_1])
  = (Ok (map (default_row "store-1") DEFAULT_TEMPLATES),
     ensure_defaults "store-1" 4 (world_of [store_1])).
Proof.
  destruct (api_get_templates_self_heals (Some "store-1") 4 (world_of [store_1])
              store_1 eq_refl) as [rows [E [_ [_ [_ [F _]]]]]].
  destruct (F eq_refl) as [W R]. rewrite E, W, R. reflexivity.
Defined.

(* ================================================================== *)
(** ** Further properties: the settings repository *)

Lemma api_save_settings_ok (ios : string -> option Z) (body : json)
  (sid : option string) (now : Z) (w w' : World) (res : json) :
  api_save_settings ios body sid now w = (Ok res, w') ->
  exists st b rate,
    get_store sid w = Some st /\ body = JObj b /\
    stored_rate ios (get b "rate_limit_mps") rate /\
    w' = insert_or_replace_settings (saved_settings st b rate now) w.
Proof.
  destruct (require_store_cases sid "Store not found" w) as [[_ E] | [st [Hst E]]];
    unfold api_save_settings, as_dict, py_int, bind_json; run; rewrite E;
    [discriminate |].
  destruct body as [| bb | z | f | s | items | b]; try discriminate.
  destruct (int_of ios (py_or (get b "rate_limit_mps") (JInt 60)))
    as [rate | e] eqn:R; [| discriminate].
  destruct (json_encodable _); [| discriminate].
  intros [= _ <-]. exists st, b, rate. repeat split; auto.
Qed.

Lemma api_get_settings_run (sid : option string) (w : World) (st : merchant) :
  get_store sid w = Some st ->
  api_get_settings sid w
  = (Ok (match select_settings (store_id st) w with
         | Some r => settings_json r
         | None => DEFAULT_SETTINGS
         end), w).
Proof.
  intros Hst. unfold api_get_settings. unfold bind at 1.
  rewrite (require_store_found _ _ _ _ Hst). reflexivity.
Qed.

(** Save then read: after a settings save that succeeded, GET
    /api/settings answers with exactly the object that was stored, an
    enabled-map and an integer rate limit, and reading changes nothing.  A
    resolved tenant without a settings row reads the default settings, and
    the read creates no row. *)
Theorem settings_round_trip (ios : string -> option Z) (body : json)
  (sid : option string) (now : Z) (w w' : World) (res : json) :
  api_save_settings ios body sid now w = (Ok res, w') ->
  (exists b rate,
     body = JObj b /\
     stored_rate ios (get b "rate_limit_mps") rate /\
     api_get_settings sid w'
     = (Ok (JObj [ ("enabled", py_or (get b "enabled") DEFAULT_ENABLED);
                   ("rate_limit_mps", JInt rate) ]), w')) /\
  (forall sid0 w0 st,
     get_store sid0 w0 = Some st -> select_settings (store_id st) w0 = None ->
     api_get_settings sid0 w0 = (Ok DEFAULT_SETTINGS, w0)).
Proof.
  intros Run. split.
  - destruct (api_save_settings_ok ios body sid now w w' res Run)
      as [st [b [rate [Hst [Hb [Hr ->]]]]]].
    exists b, rate. split; [exact Hb | split; [exact Hr |]].
    destruct (insert_or_replace_settings_spec (saved_settings st b rate now) w)
      as [S [_ [_ [M _]]]].
    rewrite (api_get_settings_run sid _ st).
    + change (ss_store_id (saved_settings st b rate now)) with (store_id st) in S.
      now rewrite S.
    + rewrite <- Hst. now apply get_store_same_merchants.
  - intros sid0 w0 st Hst Hnone.
    rewrite (api_get_settings_run sid0 w0 st Hst). now rewrite Hnone.
Qed.

Lemma settings_round_trip_witness :
  api_get_settings (Some "store-1")
    (snd (api_save_settings int_of_digits
            (settings_request (JObj [("order_paid", JBool false)]) (JStr "30"))
            (Some "store-1") 9 (world_of [store_1])))
  = (Ok (JObj [ ("enabled", JObj [("order_paid", JBool false)]);
                ("rate_limit_mps", JInt 30) ]),
     snd (api_save_settings int_of_digits
            (settings_request (JObj [("order_paid", JBool false)]) (JStr "30"))
            (Some "store-1") 9 (world_of [store_1]))).
Proof.
  destruct (settings_round_trip int_of_digits
              (settings_request (JObj [("order_paid", JBool false)]) (JStr "30"))
              (Some "store-1") 9 (world_of [store_1]) _ _ eq_refl)
    as [[b [rate [Hb [Hr G]]]] _].
  injection Hb as <-.
  assert (rate = 30) as -> by (vm_compute in Hr; congruence).
  exact G.
Defined.

(** A settings save writes to store_settings only, and there only to the
    resolved tenant's row: the other tables and the settings rows of the
    other tenants are as before, whether the save succeeds or raises; when
    it raises (an unresolved tenant, a body that is no object, a rate limit
    [int()] refuses) nothing at all is written. *)
Theorem settings_save_frame (ios : string -> option Z) (body : json)
  (sid : option string) (now : Z) (w : World) :
  let w' := snd (api_save_settings ios body sid now w) in
  merchants w' = merchants w /\ templates w' = templates w /\
  events w' = events w /\ logs w' = logs w /\ sent w' = sent w /\
  (forall e, fst (api_save_settings ios body sid now w) = Raise e -> w' = w) /\
  (forall st, get_store sid w = Some st ->
     filter (fun x => negb (ss_store_id x =? store_id st)%string) (store_settings w')
     = filter (fun x => negb (ss_store_id x =? store_id st)%string) (store_settings w)).
Proof.
  cbv zeta.
  destruct (api_save_settings_world ios body sid now w)
    as [[e ->] | [st [row [Hst [Hrow ->]]]]]; cbn [fst snd].
  - repeat split; auto.
  - destruct (insert_or_replace_settings_spec row w) as [_ [_ [O [M [T [E [L S]]]]]]].
    repeat split; auto; [discriminate |].
    intros st' Hst'. assert (st' = st) as -> by congruence.
    rewrite <- Hrow. exact O.
Qed.

Lemma settings_save_frame_witness :
  api_save_settings int_of_digits (settings_request JNull (JStr "fast"))
    (Some "store-1") 9 two_tenants
  = (Raise ValueError, two_tenants).
Proof.
  destruct (settings_save_frame int_of_digits
              (settings_request JNull (JStr "fast")) (Some "store-1") 9 two_tenants)
    as [_ [_ [_ [_ [_ [A _]]]]]].
  specialize (A ValueError eq_refl).
  rewrite <- A at 2. reflexivity.
Defined.

(* ================================================================== *)
(** ** Further properties: the template repository *)

(** A template save is not all-or-nothing.  The entries are applied in
    order; at the first entry that is not a dict, or has a value that cannot
    be stored, the save raises, with the entries before it applied and the
    entries after it not. *)
Theorem template_save_stops_at_bad_entry (float_text : spec_float -> string)
  (req : json) (sid : option string) (w : World) (st : merchant) (b : dict)
  (good : list json) (bad : json) (rest : list json)
  (entries : list (option string * option string * option string)) :
  get_store sid w = Some st ->
  req = JObj b ->
  get b "templates" = JArr (good ++ bad :: rest) ->
  Forall2 (fun item e => entry_params float_text item = Some e) good entries ->
  entry_params float_text bad = None ->
  exists x, api_save_templates float_text req sid w
            = (Raise x, upsert_all (store_id st) entries w).
Proof.
  intros Hst -> Hitems F B.
  destruct (for_each_stops float_text st good bad rest entries w F B) as [x R].
  exists x. unfold api_save_templates.
  unfold bind at 1. rewrite (require_store_found _ _ _ _ Hst).
  unfold bind at 1. simpl as_dict. unfold ret at 1. rewrite Hitems.
  assert (I : iterate (py_or (JArr (good ++ bad :: rest)) (JArr [])) w
              = (Ok (good ++ bad :: rest), w)).
  { destruct good; reflexivity. }
  unfold bind at 1. rewrite I. unfold bind at 1. now rewrite R.
Qed.

Lemma template_save_stops_at_bad_entry_witness :
  api_save_templates float_text_0
    (templates_request [ template_entry "order_paid" "Paid" "first";
                         JStr "oops";
                         template_entry "delivered" "Done" "never" ])
    (Some "store-2") two_tenants
  = (Raise AttributeError,
     upsert_all "store-2" [(Some "order_paid", Some "Paid", Some "first")]
                two_tenants).
Proof.
  destruct (template_save_stops_at_bad_entry float_text_0
              (templates_request [ template_entry "order_paid" "Paid" "first";
                                   JStr "oops";
                                   template_entry "delivered" "Done" "never" ])
              (Some "store-2") two_tenants store_2
              [("templates", JArr [ template_entry "order_paid" "Paid" "first";
                                    JStr "oops";
                                    template_entry "delivered" "Done" "never" ])]
              [template_entry "order_paid" "Paid" "first"] (JStr "oops")
              [template_entry "delivered" "Done" "never"]
              [(Some "order_paid", Some "Paid", Some "first")]
              eq_refl eq_refl eq_refl) as [x R].
  - repeat constructor.
  - reflexivity.
  - rewrite R. vm_compute in R. injection R as <-. reflexivity.
Defined.

Lemma no_conflict_without_key (sid : string) (d x : option string)
  (rows : list template) :
  existsb (template_conflict (mkTemplate sid None d x)) rows = false.
Proof.
  induction rows as [| r rows IH]; simpl; [reflexivity |].
  rewrite IH. unfold template_conflict. simpl.
  destruct (tkey r); now rewrite andb_false_r.
Qed.

Lemma upsert_without_key (sid : string) (d x : option string) (w : World) :
  upsert_template sid (None, d, x) w
  = set_templates (fun rows => rows ++ [mkTemplate sid None d x]) w.
Proof.
  unfold upsert_template.
  rewrite (insert_or_ignore_template_absent _ _ (no_conflict_without_key sid d x _)).
  unfold update_template, set_templates. simpl. f_equal.
  rewrite <- (map_id (templates w ++ _)) at 2. apply map_ext.
  intros t. unfold template_matches. destruct (tkey t); now rewrite andb_false_r.
Qed.

(** An entry without [tkey] is stored under a NULL key, which is in
    conflict with nothing and which no UPDATE matches: every save of such an
    entry adds one more row, after the rows there, and changes no row. *)
Theorem template_without_key_appends (float_text : spec_float -> string)
  (sid : option string) (w : World) (st : merchant) (t : dict)
  (d x : option string) :
  get_store sid w = Some st ->
  lookup "tkey" t = None ->
  sql_text float_text (py_or (get t "display_name") JNull) = Some d ->
  sql_text float_text (py_or (get t "body") (JStr "")) = Some x ->
  api_save_templates float_text (templates_request [JObj t]) sid w
  = (Ok (JObj [("ok", JBool true)]),
     set_templates (fun rows => rows ++ [mkTemplate (store_id st) None d x]) w).
Proof.
  intros Hst Hk Hd Hx.
  assert (P : entry_params float_text (JObj t) = Some (None, d, x)).
  { unfold entry_params. cbv zeta. unfold get at 1 3. rewrite Hk.
    simpl sql_text at 1. now rewrite Hd, Hx. }
  unfold templates_request.
  rewrite (api_save_templates_run float_text _ sid w st
             [("templates", JArr [JObj t])] [JObj t] [(None, d, x)]
             Hst eq_refl eq_refl).
  - change (upsert_all (store_id st) [(None, d, x)] w)
      with (upsert_template (store_id st) (None, d, x) w).
    now rewrite upsert_without_key.
  - repeat constructor. exact P.
Qed.

Lemma template_without_key_appends_witness :
  templates
    (snd (api_save_templates float_text_0
            (templates_request [JObj [("body", JStr "hello")]])
            (Some "store-1")
            (snd (api_save_templates float_text_0
                    (templates_request [JObj [("body", JStr "hello")]])
                    (Some "store-1") (world_of [store_1])))))
  = [ mkTemplate "store-1" None None (Some "hello");
      mkTemplate "store-1" None None (Some "hello") ].
Proof.
  rewrite (template_without_key_appends float_text_0 (Some "store-1")
             (world_of [store_1]) store_1 [("body", JStr "hello")]
             None (Some "hello") eq_refl eq_refl eq_refl eq_refl).
  cbn [snd].
  rewrite (template_without_key_appends float_text_0 (Some "store-1")
             (set_templates
                (fun rows => rows ++ [mkTemplate (store_id store_1) None None
                                                 (Some "hello")])
                (world_of [store_1]))
             store_1 [("body", JStr "hello")] None (Some "hello")
             eq_refl eq_refl eq_refl eq_refl).
  reflexivity.
Defined.

Lemma template_eta (t : template) :
  t = mkTemplate (t_store_id t) (tkey t) (display_name t) (body t).
Proof. now destruct t. Qed.

(** Under the UNIQUE constraint at most one row has a given tenant and
    key. *)
Lemma templates_unique_matches (sid k : string) (rows : list template) :
  templates_unique rows ->
  (List.length (filter (template_matches sid (Some k)) rows) <= 1)%nat.
Proof.
  induction rows as [| r rows IH]; simpl; [lia |].
  intros [Ur U]. specialize (IH U).
  destruct (template_matches sid (Some k) r) eqn:Mr; [| exact IH].
  assert (E : filter (template_matches sid (Some k)) rows = []).
  { destruct (filter (template_matches sid (Some k)) rows) as [| x l] eqn:F;
      [reflexivity |].
    exfalso.
    assert (Hx : In x (filter (template_matches sid (Some k)) rows))
      by (rewrite F; now left).
    apply filter_In in Hx. destruct Hx as [Hin Mx].
    apply template_matches_iff in Mr, Mx.
    destruct Mr as [Sr Kr], Mx as [Sx Kx].
    assert (C : existsb (template_conflict r) rows = true).
    { apply existsb_exists. exists x. split; [exact Hin |].
      unfold template_conflict. rewrite Sr, Sx, Kr, Kx.
      now rewrite !String.eqb_refl. }
    congruence. }
  rewrite E. simpl. lia.
Qed.

(** With the UNIQUE constraint in force, a save leaves exactly one row
    for each key it names: the tenant's row under that key, carrying the
    display name and body of the last entry submitted for the key. *)
Theorem template_save_single_row (float_text : spec_float -> string)
  (req : json) (sid : option string) (w : World) (st : merchant) (b : dict)
  (items : list json)
  (entries before after : list (option string * option string * option string))
  (k : string) (d x : option string) :
  templates_unique (templates w) ->
  get_store sid w = Some st ->
  req = JObj b ->
  get b "templates" = JArr items ->
  Forall2 (fun item e => entry_params float_text item = Some e) items entries ->
  entries = before ++ (Some k, d, x) :: after ->
  (forall e, In e after -> entry_key e <> Some k) ->
  filter (template_matches (store_id st) (Some k))
         (templates (snd (api_save_templates float_text req sid w)))
  = [mkTemplate (store_id st) (Some k) d x].
Proof.
  intros U Hst Hreq Hitems F -> N.
  rewrite (api_save_templates_run float_text req sid w st b items _
             Hst Hreq Hitems F). cbn [snd].
  set (w' := upsert_all (store_id st) (before ++ (Some k, d, x) :: after) w).
  assert (U' : templates_unique (templates w')) by now apply upsert_all_unique.
  pose proof (templates_unique_matches (store_id st) k _ U') as L.
  destruct (upsert_all_last (store_id st) before after k d x w N)
    as [[r0 [Hin0 [Hs0 Hk0]]] All].
  fold w' in Hin0, All.
  assert (In0 : In r0 (filter (template_matches (store_id st) (Some k))
                              (templates w'))).
  { apply filter_In. split; [exact Hin0 |].
    now apply template_matches_iff. }
  destruct (All r0 Hin0 Hs0 Hk0) as [D X].
  destruct (filter (template_matches (store_id st) (Some k)) (templates w'))
    as [| a [| a2 l]]; simpl in L, In0; try contradiction; try lia.
  destruct In0 as [-> | []]. f_equal.
  rewrite (template_eta r0). congruence.
Qed.

Lemma template_save_single_row_witness :
  filter (template_matches "store-2" (Some "order_paid"))
    (templates (snd (api_save_templates float_text_0
                       (templates_request
                          [ template_entry "order_paid" "Paid" "first";
                            template_entry "order_paid" "" "second" ])
                       (Some "store-2") two_tenants)))
  = [mkTemplate "store-2" (Some "order_paid") (Some "order_paid") (Some "second")].
Proof.
  apply (template_save_single_row float_text_0 _ (Some "store-2") two_tenants
           store_2
           [("templates", JArr [ template_entry "order_paid" "Paid" "first";
                                 template_entry "order_paid" "" "second" ])]
           [ template_entry "order_paid" "Paid" "first";
             template_entry "order_paid" "" "second" ]
           [ (Some "order_paid", Some "Paid", Some "first");
             (Some "order_paid", Some "order_paid", Some "second") ]
           [ (Some "order_paid", Some "Paid", Some "first") ] []);
    try reflexivity.
  - simpl. repeat split; reflexivity.
  - repeat constructor.
  - intros e [].
Defined.

(* ------------------------------------------------------------------ *)
(** *** Saving the same list again *)

Section SaveAgain.

Variable sid : string.

Lemma template_matches_updated (k k' d x : option string) (t : template) :
  template_matches sid k (updated sid k' d x t) = template_matches sid k t.
Proof.
  unfold template_matches.
  destruct (updated_keys sid k' d x t) as [-> ->]. reflexivity.
Qed.

Lemma last_match_snoc
  (entries : list (option string * option string * option string))
  (e : option string * option string * option string) (t : template) :
  last_match sid (entries ++ [e]) t
  = if template_matches sid (entry_key e) t then Some e
    else last_match sid entries t.
Proof.
  induction entries as [| a entries IH]; simpl.
  - now destruct (template_matches sid (entry_key e) t).
  - rewrite IH. now destruct (template_matches sid (entry_key e) t).
Qed.

Lemma last_match_updated
  (entries : list (option string * option string * option string))
  (k d x : option string) (t : template) :
  last_match sid entries (updated sid k d x t) = last_match sid entries t.
Proof.
  induction entries as [| a entries IH]; simpl; [reflexivity |].
  now rewrite IH, template_matches_updated.
Qed.

(** A row after all the UPDATEs of a save: its tenant and key, with the
    display name and body of the last entry that reaches it. *)
Lemma updated_all_last
  (entries : list (option string * option string * option string))
  (t : template) :
  updated_all sid entries t
  = match last_match sid entries t with
    | Some (k, d, x) => mkTemplate (t_store_id t) (tkey t) d x
    | None => t
    end.
Proof.
  revert t. induction entries as [| [[k d] x] entries IH]; intros t;
    [reflexivity |].
  change (updated_all sid ((k, d, x) :: entries) t)
    with (updated_all sid entries (updated sid k d x t)).
  rewrite IH, last_match_updated. simpl last_match.
  destruct (updated_keys sid k d x t) as [Es Ek].
  destruct (last_match sid entries t) as [[[k' d'] x'] |].
  - now rewrite Es, Ek.
  - change (entry_key (k, d, x)) with k. unfold updated.
    now destruct (template_matches sid k t).
Qed.

Lemma key_row_conflict (k : string) (d x : option string)
  (rows : list template) (r : template) :
  In r rows -> t_store_id r = sid -> tkey r = Some k ->
  existsb (template_conflict (mkTemplate sid (Some k) d x)) rows = true.
Proof.
  intros Hin Hs Hk. apply existsb_exists. exists r. split; [exact Hin |].
  unfold template_conflict. simpl. rewrite Hs, Hk.
  now rewrite !String.eqb_refl.
Qed.

Lemma upsert_template_keeps_key (k : string)
  (e : option string * option string * option string) (w : World) :
  (exists r, In r (templates w) /\ t_store_id r = sid /\ tkey r = Some k) ->
  exists r, In r (templates (upsert_template sid e w)) /\
            t_store_id r = sid /\ tkey r = Some k.
Proof.
  destruct e as [[k' d'] x']. intros [r [Hin [Hs Hk]]].
  destruct (upsert_template_rows sid k' d' x' w) as [added [-> _]]. simpl.
  exists (updated sid k' d' x' r). split.
  - apply in_map, in_or_app. now left.
  - destruct (updated_keys sid k' d' x' r) as [-> ->]. auto.
Qed.

Lemma upsert_all_keeps_key (k : string)
  (entries : list (option string * option string * option string)) (w : World) :
  (exists r, In r (templates w) /\ t_store_id r = sid /\ tkey r = Some k) ->
  exists r, In r (templates (upsert_all sid entries w)) /\
            t_store_id r = sid /\ tkey r = Some k.
Proof.
  revert w. induction entries as [| e entries IH]; intros w H; [exact H |].
  unfold upsert_all. rewrite fold_left_cons. apply IH.
  now apply upsert_template_keeps_key.
Qed.

(** After a save every keyed entry has its row. *)
Lemma upsert_all_covers
  (entries : list (option string * option string * option string))
  (k : string) (d x : option string) (w : World) :
  In (Some k, d, x) entries ->
  exists r, In r (templates (upsert_all sid entries w)) /\
            t_store_id r = sid /\ tkey r = Some k.
Proof.
  revert w. induction entries as [| e entries IH]; intros w Hin; [contradiction |].
  change (upsert_all sid (e :: entries) w)
    with (upsert_all sid entries (upsert_template sid e w)).
  destruct Hin as [-> | Hin]; [| now apply IH].
  apply upsert_all_keeps_key.
  destruct (upsert_template_sets sid k d x w) as [E _]. exact E.
Qed.

(** A save of entries that all have their row only updates. *)
Lemma upsert_all_updates
  (entries : list (option string * option string * option string)) (w : World) :
  (forall e, In e entries ->
     exists k, entry_key e = Some k /\
       exists r, In r (templates w) /\ t_store_id r = sid /\ tkey r = Some k) ->
  templates (upsert_all sid entries w)
  = map (updated_all sid entries) (templates w).
Proof.
  revert w. induction entries as [| [[k d] x] entries IH]; intros w H.
  - simpl. now rewrite map_id.
  - change (upsert_all sid ((k, d, x) :: entries) w)
      with (upsert_all sid entries (upsert_template sid (k, d, x) w)).
    destruct (H (k, d, x) (or_introl eq_refl)) as [kk [Ek [r [Hin [Hs Hk]]]]].
    change (entry_key (k, d, x)) with k in Ek. subst k.
    assert (U : upsert_template sid (Some kk, d, x) w
                = update_template sid (Some kk) d x w).
    { unfold upsert_template.
      now rewrite (insert_or_ignore_template_present _ _
                     (key_row_conflict kk d x _ r Hin Hs Hk)). }
    rewrite IH.
    + rewrite U. simpl. rewrite map_map. apply map_ext. intros t.
      unfold updated_all. now rewrite fold_left_cons.
    + intros e He. destruct (H e (or_intror He)) as [k' [Ek' Ex]].
      exists k'. split; [exact Ek' |]. now apply upsert_template_keeps_key.
Qed.

(** After a save of keyed entries every row already carries what the
    last entry that reaches it submits. *)
Lemma upsert_all_settled
  (entries : list (option string * option string * option string)) (w : World) :
  Forall (fun e => entry_key e <> None) entries ->
  forall r k d x,
    In r (templates (upsert_all sid entries w)) ->
    last_match sid entries r = Some (k, d, x) ->
    display_name r = d /\ body r = x.
Proof.
  induction entries as [| [[ke de] xe] entries IH] using rev_ind;
    intros K r k d x Hin L; [discriminate |].
  apply Forall_app in K. destruct K as [K Ke].
  assert (Eq : upsert_all sid (entries ++ [(ke, de, xe)]) w
               = upsert_template sid (ke, de, xe) (upsert_all sid entries w))
    by (unfold upsert_all; now rewrite fold_left_app).
  destruct (upsert_template_rows sid ke de xe (upsert_all sid entries w))
    as [added [E A]].
  rewrite Eq, E in Hin. cbn [templates set_templates] in Hin.
  apply in_map_iff in Hin. destruct Hin as [r0 [<- Hin]].
  rewrite last_match_snoc, template_matches_updated in L.
  change (entry_key (ke, de, xe)) with ke in L.
  unfold updated in *.
  destruct (template_matches sid ke r0) eqn:M.
  - injection L as <- <- <-. split; reflexivity.
  - apply in_app_or in Hin. destruct Hin as [Hin | Hin].
    + now apply (IH K r0 k d x).
    + exfalso. destruct A as [[-> _] | [-> _]]; [contradiction |].
      destruct Hin as [<- | []].
      inversion Ke as [| e l Hk _]; subst.
      change (entry_key (ke, de, xe)) with ke in Hk.
      destruct ke as [kk |]; [| congruence].
      unfold template_matches in M. simpl in M.
      now rewrite !String.eqb_refl in M.
Qed.

Lemma world_ext (a b : World) :
  merchants a = merchants b -> store_settings a = store_settings b ->
  templates a = templates b -> events a = events b ->
  logs a = logs b -> sent a = sent b -> a = b.
Proof. destruct a, b; simpl; intros; subst; reflexivity. Qed.

Lemma upsert_all_again
  (entries : list (option string * option string * option string)) (w : World) :
  Forall (fun e => entry_key e <> None) entries ->
  upsert_all sid entries (upsert_all sid entries w) = upsert_all sid entries w.
Proof.
  intros K.
  destruct (upsert_all_other_tables sid entries (upsert_all sid entries w))
    as [M [S [E [L T]]]].
  apply world_ext; try assumption.
  rewrite upsert_all_updates.
  - rewrite <- (map_id (templates (upsert_all sid entries w))) at 2.
    apply map_ext_in. intros r Hin. rewrite updated_all_last.
    destruct (last_match sid entries r) as [[[k d] x] |] eqn:Lm; [| reflexivity].
    destruct (upsert_all_settled entries w K r k d x Hin Lm) as [<- <-].
    symmetry. apply template_eta.
  - intros [[k d] x] He.
    rewrite Forall_forall in K. specialize (K _ He).
    change (entry_key (k, d, x)) with k in *.
    destruct k as [kk |]; [| congruence].
    exists kk. split; [reflexivity |].
    now apply (upsert_all_covers entries kk d x w).
Qed.

End SaveAgain.

(** Saving the same list of templates a second time changes nothing and
    gives the same answer, provided every entry has a key (an entry without
    one adds a row each time). *)
Theorem template_save_idempotent (float_text : spec_float -> string)
  (req : json) (sid : option string) (w : World) (st : merchant) (b : dict)
  (items : list json)
  (entries : list (option string * option string * option string)) :
  get_store sid w = Some st ->
  req = JObj b ->
  get b "templates" = JArr items ->
  Forall2 (fun item e => entry_params float_text item = Some e) items entries ->
  Forall (fun e => entry_key e <> None) entries ->
  api_save_templates float_text req sid
    (snd (api_save_templates float_text req sid w))
  = api_save_templates float_text req sid w.
Proof.
  intros Hst Hreq Hitems F K.
  rewrite (api_save_templates_run float_text req sid w st b items entries
             Hst Hreq Hitems F). cbn [snd].
  rewrite (api_save_templates_run float_text req sid _ st b items entries).
  - now rewrite upsert_all_again.
  - rewrite <- Hst. apply get_store_same_merchants.
    apply upsert_all_other_tables.
  - exact Hreq.
  - exact Hitems.
  - exact F.
Qed.

Lemma template_save_idempotent_witness :
  api_save_templates float_text_0
    (templates_request [ template_entry "order_paid" "Paid" "first";
                         template_entry "refund_created" "" "second";
                         template_entry "order_paid" "" "third" ])
    (Some "store-2")
    (snd (api_save_templates float_text_0
            (templates_request [ template_entry "order_paid" "Paid" "first";
                                 template_entry "refund_created" "" "second";
                                 template_entry "order_paid" "" "third" ])
            (Some "store-2") two_tenants))
  = api_save_templates float_text_0
      (templates_request [ template_entry "order_paid" "Paid" "first";
                           template_entry "refund_created" "" "second";
                           template_entry "order_paid" "" "third" ])
      (Some "store-2") two_tenants.
Proof.
  apply (template_save_idempotent float_text_0 _ (Some "store-2") two_tenants
           store_2
           [("templates", JArr [ template_entry "order_paid" "Paid" "first";
                                 template_entry "refund_created" "" "second";
                                 template_entry "order_paid" "" "third" ])]
           [ template_entry "order_paid" "Paid" "first";
             template_entry "refund_created" "" "second";
             template_entry "order_paid" "" "third" ]
           [ (Some "order_paid", Some "Paid", Some "first");
             (Some "refund_created", Some "refund_created", Some "second");
             (Some "order_paid", Some "order_paid", Some "third") ]);
    try reflexivity.
  - repeat constructor.
  - repeat constructor; discriminate.
Defined.

(* ================================================================== *)
(** ** Further properties: credentials and the send pipeline *)

Lemma update_waba_rows (sid : string) (tok pid : option string) (w : World) :
  Forall2 (fun old new =>
             id new = id old /\ store_id new = store_id old /\
             (store_id old <> sid -> new = old) /\
             (store_id old = sid -> new = set_waba tok pid old))
          (merchants w) (merchants (update_waba sid tok pid w)).
Proof.
  unfold update_waba. simpl.
  induction (merchants w) as [| m ms IH]; simpl; constructor; [| exact IH].
  destruct (String.eqb_spec (store_id m) sid) as [E | N].
  - repeat split; intros; try contradiction; reflexivity.
  - repeat split; intros; try contradiction; reflexivity.
Qed.

(** A credential save writes to merchants only, and there only to the
    WABA token and phone identifier of the resolved tenant: every row
    keeps its place, its [id] and its [store_id], the rows of the other
    tenants are unchanged, and the other tables are as before.  When the
    save raises (an unresolved tenant, a body that is no object, a value
    that cannot be stored) nothing is written. *)
Theorem waba_save_frame (ft : spec_float -> string) (body : json)
  (sid : option string) (w : World) :
  let w' := snd (api_save_waba ft body sid w) in
  store_settings w' = store_settings w /\ templates w' = templates w /\
  events w' = events w /\ logs w' = logs w /\ sent w' = sent w /\
  (forall e, fst (api_save_waba ft body sid w) = Raise e -> w' = w) /\
  (forall st, get_store sid w = Some st ->
     Forall2 (fun old new =>
                id new = id old /\ store_id new = store_id old /\
                store_domain new = store_domain old /\
                access_token new = access_token old /\
                refresh_token new = refresh_token old /\
                token_expires_at new = token_expires_at old /\
                plan new = plan old /\ plan_until new = plan_until old /\
                created_at new = created_at old /\
                (store_id old <> store_id st -> new = old))
             (merchants w) (merchants w')).
Proof.
  cbv zeta.
  destruct (api_save_waba_world ft body sid w)
    as [[e ->] | [st [tok [pid [Hst ->]]]]]; cbn [fst snd].
  - repeat split; auto. intros st _.
    induction (merchants w); constructor; [repeat split | assumption].
  - repeat split; try reflexivity; [discriminate |].
    intros st' Hst'. assert (st' = st) as -> by congruence.
    eapply Forall2_impl; [| apply update_waba_rows].
    simpl. intros old new [Hi [Hs [Ho Hm]]].
    destruct (String.eqb_spec (store_id old) (store_id st)) as [E | N].
    + rewrite (Hm E). repeat split. intros C. contradiction.
    + rewrite (Ho N). repeat split.
Qed.

Lemma waba_save_frame_witness :
  merchants (snd (api_save_waba float_text_0
                    (JObj [("waba_token", JStr "T"); ("waba_phone_id", JInt 5)])
                    (Some "store-2") two_tenants))
  = [store_1; tenant 2 "store-2" (Some "T") (Some "5")] /\
  api_save_waba float_text_0 (JObj [("waba_token", JArr [JInt 1])])
                (Some "store-2") two_tenants
  = (Raise SqliteError, two_tenants).
Proof.
  split; [reflexivity |].
  destruct (waba_save_frame float_text_0 (JObj [("waba_token", JArr [JInt 1])])
              (Some "store-2") two_tenants) as [_ [_ [_ [_ [_ [A _]]]]]].
  specialize (A SqliteError eq_refl). rewrite <- A at 2. reflexivity.
Defined.

Section Deliver.

Variable GLOBAL_WABA_TOKEN : string.
Variable GLOBAL_WABA_PHONE_ID : string.
Variable transport : wa_call -> option (Z * response_data).

#[local] Abbreviation test_send :=
  (api_test_send GLOBAL_WABA_TOKEN GLOBAL_WABA_PHONE_ID transport).

(** The call a valid request makes for a tenant. *)
#[local] Abbreviation call_for st to msg :=
  (mkCall (opt_or (waba_token st) GLOBAL_WABA_TOKEN)
          (opt_or (waba_phone_id st) GLOBAL_WABA_PHONE_ID)
          (strip to) (strip msg)).

Lemma api_test_send_valid (sid : option string) (now : Z) (w : World)
  (st : merchant) (b : dict) (to msg : string) :
  get_store sid w = Some st ->
  py_or (get b "to_msisdn") (JStr "") = JStr to ->
  py_or (get b "body") (JStr "") = JStr msg ->
  strip to <> "" -> strip msg <> "" ->
  opt_or (waba_token st) GLOBAL_WABA_TOKEN <> "" ->
  opt_or (waba_phone_id st) GLOBAL_WABA_PHONE_ID <> "" ->
  test_send (JObj b) sid now w
  = let w1 := set_sent (fun calls => calls ++ [call_for st to msg]) w in
    match transport (call_for st to msg) with
    | None => (Raise TransportError, w1)
    | Some (code, RawText raw) => (Raise TypeError, w1)
    | Some (code, Parsed data) =>
        if encodable (strip to)
        then (Ok (code, Parsed data),
              set_logs (fun rows => rows ++
                 [mkLog (store_id st) (strip to) "manual_test"
                        (str_of_int code) data now]) w1)
        else (Raise UnicodeEncodeError, w1)
    end.
Proof.
  intros Hst Hto Hmsg Nto Nmsg NT NP.
  rewrite (api_test_send_text GLOBAL_WABA_TOKEN GLOBAL_WABA_PHONE_ID transport
             (JObj b) sid now w st b to msg Hst eq_refl Hto Hmsg).
  rewrite (str_truthy_true _ Nto), (str_truthy_true _ Nmsg). simpl.
  rewrite (str_truthy_true _ NT), (str_truthy_true _ NP). reflexivity.
Qed.

(** Log-always: a valid request on a tenant with credentials, answered by
    the provider with any status and a JSON body, issues exactly one call,
    with the trimmed destination and text.  When the trimmed destination
    can be encoded, the request appends exactly one Delivery Log entry
    holding that status as text, the template name [manual_test] and the
    provider's answer, and hands status and answer back unchanged.  When it
    cannot, the INSERT raises after the call was made, and the Delivery Log
    has no entry for it. *)
Theorem send_logs_every_answer (sid : option string) (now : Z) (w : World)
  (st : merchant) (b : dict) (to msg : string) (code : Z) (data : json) :
  get_store sid w = Some st ->
  py_or (get b "to_msisdn") (JStr "") = JStr to ->
  py_or (get b "body") (JStr "") = JStr msg ->
  strip to <> "" -> strip msg <> "" ->
  opt_or (waba_token st) GLOBAL_WABA_TOKEN <> "" ->
  opt_or (waba_phone_id st) GLOBAL_WABA_PHONE_ID <> "" ->
  transport (call_for st to msg) = Some (code, Parsed data) ->
  let w' := snd (test_send (JObj b) sid now w) in
  sent w' = sent w ++ [call_for st to msg] /\
  merchants w' = merchants w /\ store_settings w' = store_settings w /\
  templates w' = templates w /\ events w' = events w /\
  (encodable (strip to) = true ->
   fst (test_send (JObj b) sid now w) = Ok (code, Parsed data) /\
   logs w' = logs w ++ [mkLog (store_id st) (strip to) "manual_test"
                              (str_of_int code) data now]) /\
  (encodable (strip to) = false ->
   fst (test_send (JObj b) sid now w) = Raise UnicodeEncodeError /\
   logs w' = logs w).
Proof.
  intros Hst Hto Hmsg Nto Nmsg NT NP HT. cbv zeta.
  rewrite (api_test_send_valid sid now w st b to msg Hst Hto Hmsg Nto Nmsg NT NP).
  cbv zeta. rewrite HT.
  destruct (encodable (strip to)); repeat split; congruence.
Qed.

(** When the provider cannot be reached, or answers with a body that is
    not JSON, the request raises after the call was made: the call is on
    record but the Delivery Log has no entry for it. *)
Theorem send_failure_is_not_logged (sid : option string) (now : Z) (w : World)
  (st : merchant) (b : dict) (to msg : string) :
  get_store sid w = Some st ->
  py_or (get b "to_msisdn") (JStr "") = JStr to ->
  py_or (get b "body") (JStr "") = JStr msg ->
  strip to <> "" -> strip msg <> "" ->
  opt_or (waba_token st) GLOBAL_WABA_TOKEN <> "" ->
  opt_or (waba_phone_id st) GLOBAL_WABA_PHONE_ID <> "" ->
  (transport (call_for st to msg) = None \/
   exists code raw, transport (call_for st to msg) = Some (code, RawText raw)) ->
  let w' := snd (test_send (JObj b) sid now w) in
  (exists e, fst (test_send (JObj b) sid now w) = Raise e) /\
  sent w' = sent w ++ [call_for st to msg] /\
  logs w' = logs w.
Proof.
  intros Hst Hto Hmsg Nto Nmsg NT NP HT. cbv zeta.
  rewrite (api_test_send_valid sid now w st b to msg Hst Hto Hmsg Nto Nmsg NT NP).
  cbv zeta. destruct HT as [-> | [code [raw ->]]];
    (split; [eexists; reflexivity | split; reflexivity]).
Qed.

(** Whatever the request, a send makes at most one call and appends at
    most one Delivery Log entry, an entry only after a call; it never
    writes to another table. *)
Theorem send_bounds (body : json) (sid : option string) (now : Z) (w : World) :
  let w' := snd (test_send body sid now w) in
  merchants w' = merchants w /\ store_settings w' = store_settings w /\
  templates w' = templates w /\ events w' = events w /\
  (sent w' = sent w /\ logs w' = logs w \/
   exists call, sent w' = sent w ++ [call] /\
     (logs w' = logs w \/ exists entry, logs w' = logs w ++ [entry])) /\
  (forall res, fst (test_send body sid now w) = Ok res ->
     exists call entry, sent w' = sent w ++ [call] /\ logs w' = logs w ++ [entry]).
Proof.
  cbv zeta.
  destruct (api_test_send_world GLOBAL_WABA_TOKEN GLOBAL_WABA_PHONE_ID transport
              body sid now w)
    as [[e ->] | [[e [call ->]] | [res [call [entry ->]]]]]; cbn [fst snd].
  - repeat split; auto. intros res H. discriminate.
  - repeat split; auto.
    + right. exists call. split; [reflexivity | now left].
    + intros res H. discriminate.
  - repeat split; auto.
    + right. exists call. split; [reflexivity |]. right. now exists entry.
    + intros res' _. now exists call, entry.
Qed.

(** Store-level credentials win over the process-wide ones, field by
    field: a valid send uses the tenant's own token when it has one and its
    own phone identifier when it has one, whatever the defaults are. *)
Theorem store_credentials_win (sid : option string) (now : Z) (w : World)
  (st : merchant) (b : dict) (to msg : string) :
  get_store sid w = Some st ->
  py_or (get b "to_msisdn") (JStr "") = JStr to ->
  py_or (get b "body") (JStr "") = JStr msg ->
  strip to <> "" -> strip msg <> "" ->
  opt_or (waba_token st) GLOBAL_WABA_TOKEN <> "" ->
  opt_or (waba_phone_id st) GLOBAL_WABA_PHONE_ID <> "" ->
  exists call,
    sent (snd (test_send (JObj b) sid now w)) = sent w ++ [call] /\
    c_to call = strip to /\ c_body call = strip msg /\
    (forall t, waba_token st = Some t -> t <> "" -> c_token call = t) /\
    (forall p, waba_phone_id st = Some p -> p <> "" -> c_phone_id call = p) /\
    (waba_token st = None \/ waba_token st = Some "" ->
     c_token call = GLOBAL_WABA_TOKEN) /\
    (waba_phone_id st = None \/ waba_phone_id st = Some "" ->
     c_phone_id call = GLOBAL_WABA_PHONE_ID).
Proof.
  intros Hst Hto Hmsg Nto Nmsg NT NP.
  exists (call_for st to msg). split.
  - rewrite (api_test_send_valid sid now w st b to msg Hst Hto Hmsg Nto Nmsg NT NP).
    cbv zeta. destruct (transport _) as [[code [data | raw]] |]; try reflexivity.
    destruct (encodable (strip to)); reflexivity.
  - simpl. repeat split.
    + intros t -> N. simpl. now rewrite (str_truthy_true t N).
    + intros p -> N. simpl. now rewrite (str_truthy_true p N).
    + intros [-> | ->]; reflexivity.
    + intros [-> | ->]; reflexivity.
Qed.

End Deliver.

Lemma send_logs_every_answer_witness :
  api_test_send "TOKEN" "PHONE" transport_401 (send_request " 9665 " "hi")
                (Some "store-1") 9 (world_of [store_1])
  = (Ok (401, Parsed (JObj [("error", JStr "bad token")])),
     mkWorld [store_1] [] [] []
       [mkLog "store-1" "9665" "manual_test" "401"
              (JObj [("error", JStr "bad token")]) 9]
       [mkCall "TOKEN" "PHONE" "9665" "hi"]) /\
  api_test_send "TOKEN" "PHONE" transport_401
                (send_request LONE_SURROGATE "hi")
                (Some "store-1") 9 (world_of [store_1])
  = (Raise UnicodeEncodeError,
     mkWorld [store_1] [] [] [] []
       [mkCall "TOKEN" "PHONE" LONE_SURROGATE "hi"]).
Proof.
  split.
  2:{ pose proof (send_logs_every_answer "TOKEN" "PHONE" transport_401
                    (Some "store-1") 9 (world_of [store_1]) store_1
                    [("to_msisdn", JStr LONE_SURROGATE); ("body", JStr "hi")]
                    LONE_SURROGATE "hi" 401 (JObj [("error", JStr "bad token")])
                    eq_refl eq_refl eq_refl) as H.
      assert (A : strip LONE_SURROGATE <> "") by (vm_compute; discriminate).
      assert (B : strip "hi" <> "") by (vm_compute; discriminate).
      assert (C : opt_or (waba_token store_1) "TOKEN" <> "") by discriminate.
      assert (D : opt_or (waba_phone_id store_1) "PHONE" <> "") by discriminate.
      destruct (H A B C D eq_refl) as [_ [_ [_ [_ [_ [_ L]]]]]].
      destruct (L eq_refl) as [R _]. vm_compute. reflexivity. }
  pose proof (send_logs_every_answer "TOKEN" "PHONE" transport_401
                (Some "store-1") 9 (world_of [store_1]) store_1
                [("to_msisdn", JStr " 9665 "); ("body", JStr "hi")]
                " 9665 " "hi" 401 (JObj [("error", JStr "bad token")])
                eq_refl eq_refl eq_refl) as H.
  assert (A : strip " 9665 " <> "") by (vm_compute; discriminate).
  assert (B : strip "hi" <> "") by (vm_compute; discriminate).
  assert (C : opt_or (waba_token store_1) "TOKEN" <> "") by discriminate.
  assert (D : opt_or (waba_phone_id store_1) "PHONE" <> "") by discriminate.
  destruct (H A B C D eq_refl) as [_ [_ [_ [_ [_ [L _]]]]]].
  destruct (L eq_refl) as [R _]. vm_compute. reflexivity.
Defined.

Lemma send_failure_is_not_logged_witness :
  api_test_send "TOKEN" "PHONE" transport_html (send_request "9665" "hi")
                (Some "store-1") 9 (world_of [store_1])
  = (Raise TypeError,
     mkWorld [store_1] [] [] [] [] [mkCall "TOKEN" "PHONE" "9665" "hi"]) /\
  logs (snd (api_test_send "TOKEN" "PHONE" transport_down
               (send_request "9665" "hi") (Some "store-1") 9
               (world_of [store_1]))) = [].
Proof.
  split; [reflexivity |].
  assert (A : strip "9665" <> "") by (vm_compute; discriminate).
  assert (B : strip "hi" <> "") by (vm_compute; discriminate).
  assert (C : opt_or (waba_token store_1) "TOKEN" <> "") by discriminate.
  assert (D : opt_or (waba_phone_id store_1) "PHONE" <> "") by discriminate.
  destruct (send_failure_is_not_logged "TOKEN" "PHONE" transport_down
              (Some "store-1") 9 (world_of [store_1]) store_1
              [("to_msisdn", JStr "9665"); ("body", JStr "hi")] "9665" "hi"
              eq_refl eq_refl eq_refl A B C D (or_introl eq_refl))
    as [_ [_ L]].
  exact L.
Defined.

Lemma send_bounds_witness :
  exists call entry,
    sent (snd (api_test_send "TOKEN" "PHONE" transport_200
                 (send_request "9665" "hi") (Some "store-1") 9
                 (world_of [store_1]))) = [] ++ [call] /\
    logs (snd (api_test_send "TOKEN" "PHONE" transport_200
                 (send_request "9665" "hi") (Some "store-1") 9
                 (world_of [store_1]))) = [] ++ [entry].
Proof.
  destruct (send_bounds "TOKEN" "PHONE" transport_200
              (send_request "9665" "hi") (Some "store-1") 9 (world_of [store_1]))
    as [_ [_ [_ [_ [_ H]]]]].
  apply (H (200, Parsed (JObj [("messages", JArr [])]))). reflexivity.
Defined.

Lemma store_credentials_win_witness :
  exists call,
    sent (snd (api_test_send "TOKEN" "PHONE" transport_200
                 (send_request "9665" "hi") (Some "s") 9
                 (world_of [tenant 1 "s" (Some "OWN") (Some "")])))
    = [] ++ [call] /\
    c_token call = "OWN" /\ c_phone_id call = "PHONE".
Proof.
  assert (A : strip "9665" <> "") by (vm_compute; discriminate).
  assert (B : strip "hi" <> "") by (vm_compute; discriminate).
  destruct (store_credentials_win "TOKEN" "PHONE" transport_200 (Some "s") 9
              (world_of [tenant 1 "s" (Some "OWN") (Some "")])
              (tenant 1 "s" (Some "OWN") (Some ""))
              [("to_msisdn", JStr "9665"); ("body", JStr "hi")] "9665" "hi"
              eq_refl eq_refl eq_refl A B)
    as [call [S [_ [_ [T [_ [_ P]]]]]]]; try discriminate.
  exists call. split; [exact S | split].
  - apply T; [reflexivity | discriminate].
  - apply P. now right.
Defined.

(* ================================================================== *)
(** ** Further properties: onboarding *)

Lemma insert_or_replace_merchant_rows (m : merchant) (w : World) :
  select_merchant (store_id m) (insert_or_replace_merchant m w) = Some m /\
  filter (fun x => (store_id x =? store_id m)%string)
         (merchants (insert_or_replace_merchant m w)) = [m] /\
  (forall old, In old (merchants w) -> store_id old <> store_id m ->
               id old <> id m ->
               In old (merchants (insert_or_replace_merchant m w))) /\
  (forall x, In x (merchants (insert_or_replace_merchant m w)) ->
             x = m \/ In x (merchants w)).
Proof.
  unfold select_merchant, insert_or_replace_merchant. simpl.
  set (keep := fun old => negb (merchant_conflict m old)).
  assert (K : forall x, In x (filter keep (merchants w)) ->
                        (store_id x =? store_id m)%string = false).
  { intros x Hx. apply filter_In in Hx. destruct Hx as [_ Hx].
    unfold keep, merchant_conflict in Hx.
    apply negb_true_iff, orb_false_elim in Hx. tauto. }
  split; [| split; [| split]].
  - rewrite find_app_none.
    + simpl. now rewrite String.eqb_refl.
    + destruct (find _ (filter keep (merchants w))) as [x |] eqn:F; [| reflexivity].
      apply find_some in F. destruct F as [Hx E]. rewrite (K x Hx) in E.
      discriminate.
  - rewrite filter_app. simpl. rewrite String.eqb_refl.
    replace (filter _ (filter keep (merchants w))) with (@nil merchant);
      [reflexivity |].
    symmetry. revert K. generalize (filter keep (merchants w)). intros l K.
    induction l as [| x l IH]; [reflexivity |]. simpl.
    rewrite (K x (or_introl eq_refl)). apply IH.
    intros y Hy. apply K. now right.
  - intros old Hin Ns Ni. apply in_or_app. left. apply filter_In.
    split; [exact Hin |]. unfold keep, merchant_conflict.
    apply String.eqb_neq in Ns. apply Z.eqb_neq in Ni. now rewrite Ns, Ni.
  - intros x Hx. apply in_app_or in Hx. destruct Hx as [Hx | [<- | []]].
    + right. apply filter_In in Hx. tauto.
    + now left.
Qed.

Lemma ensure_defaults_only_adds (sid : string) (now : Z) (w : World) :
  (exists s1, store_settings (ensure_defaults sid now w) = store_settings w ++ s1) /\
  (exists t1, templates (ensure_defaults sid now w) = templates w ++ t1) /\
  events (ensure_defaults sid now w) = events w /\
  logs (ensure_defaults sid now w) = logs w /\
  sent (ensure_defaults sid now w) = sent w.
Proof.
  split; [rewrite ensure_defaults_store_settings; eexists; reflexivity |].
  unfold ensure_defaults.
  set (w1 := match select_settings sid w with None => _ | Some _ => w end).
  assert (T : templates w1 = templates w /\ events w1 = events w /\
              logs w1 = logs w /\ sent w1 = sent w).
  { subst w1. destruct (select_settings sid w); [tauto |].
    unfold insert_or_ignore_settings.
    destruct (existsb _ (store_settings w)); simpl; tauto. }
  destruct T as [Tt [Te [Tl Ts]]].
  destruct (seed_templates_appends sid DEFAULT_TEMPLATES w1) as [added [-> _]].
  simpl. rewrite Tt, Te, Tl, Ts. split; [now exists added | tauto].
Qed.

Section Onboard.

Variable float_text : spec_float -> string.
Variable int_of_str : string -> option Z.
Variable http_post_json : string -> result json.
Variable py_hash : json -> Z.

#[local] Abbreviation get_callback :=
  (callback float_text int_of_str http_post_json py_hash).

(** Onboarding is all or nothing.  Without a code (none, or an empty one)
    it answers 400 at once; and whenever it raises (the token endpoint
    fails, its answer is no object, [expires_in] is no number, a token
    cannot be hashed or stored) no tenant, settings row or template has been
    written. *)
Theorem callback_all_or_nothing (code : option string)
  (rowid now1 now2 now3 : Z) (w : World) :
  (opt_truthy code = false ->
   get_callback code rowid now1 now2 now3 w
   = (Raise (HTTPException 400 "Missing code"), w)) /\
  (forall e, fst (get_callback code rowid now1 now2 now3 w) = Raise e ->
             snd (get_callback code rowid now1 now2 now3 w) = w).
Proof.
  split.
  - intros F. unfold callback. now rewrite F.
  - destruct (callback_world float_text int_of_str http_post_json py_hash
                code rowid now1 now2 now3 w)
      as [[e ->] | [m [n [_ [_ [_ [_ [_ [_ [_ ->]]]]]]]]]]; cbn [fst snd].
    + reflexivity.
    + intros e H. discriminate.
Qed.

(** A successful onboarding redirects to the dashboard of a tenant
    [store-N], N below 999999, that then resolves by that identifier to the
    row just written: the given [id], the plan [basic], and no WABA
    credentials.  It is the only row with that [store_id]: a tenant
    onboarded again loses the credentials it had saved.  The tenant is
    seeded; what it or any other tenant already had in settings and
    templates is still there, and the rows of the other tenants are kept. *)
Theorem callback_onboards (code : option string) (rowid now1 now2 now3 : Z)
  (w w' : World) (url : string) :
  get_callback code rowid now1 now2 now3 w = (Ok url, w') ->
  exists m n,
    url = ("/dashboard?sid=" ++ store_id m)%string /\
    store_id m = ("store-" ++ str_of_int n)%string /\ 0 <= n < 999999 /\
    id m = rowid /\ plan m = Some "basic" /\
    waba_token m = None /\ waba_phone_id m = None /\
    get_store (Some (store_id m)) w' = Some m /\
    filter (fun x => (store_id x =? store_id m)%string) (merchants w') = [m] /\
    (forall old, In old (merchants w) -> store_id old <> store_id m ->
                 id old <> rowid -> In old (merchants w')) /\
    seeded (store_id m) w' /\
    (exists s1, store_settings w' = store_settings w ++ s1) /\
    (exists t1, templates w' = templates w ++ t1) /\
    events w' = events w /\ logs w' = logs w /\ sent w' = sent w.
Proof.
  intros Run.
  destruct (callback_world float_text int_of_str http_post_json py_hash
              code rowid now1 now2 now3 w)
    as [[e E] | [m [n [Hi [Ht [Hp [Hpl [Hs [Hn [_ E]]]]]]]]]];
    rewrite E in Run; [discriminate |].
  injection Run as <- <-.
  exists m, n.
  destruct (insert_or_replace_merchant_rows m w) as [Sel [Fil [Keep _]]].
  destruct (ensure_defaults_only_adds (store_id m) now3
              (insert_or_replace_merchant m w)) as [S [T [Ev [Lg Sn]]]].
  repeat (split; [solve [auto] |]).
  split.
  { rewrite get_store_ensure_defaults. rewrite get_store_explicit; [exact Sel |].
    rewrite Hs. discriminate. }
  split; [now rewrite ensure_defaults_merchants |].
  split.
  { intros old Hin Ns Ni. rewrite ensure_defaults_merchants.
    apply Keep; congruence. }
  split; [apply ensure_defaults_seeded |].
  repeat split; assumption.
Qed.

End Onboard.

Lemma callback_all_or_nothing_witness :
  callback float_text_0 int_of_digits token_endpoint hash_1
    (Some "") 3 10 11 12 two_tenants
  = (Raise (HTTPException 400 "Missing code"), two_tenants).
Proof.
  apply (proj1 (callback_all_or_nothing float_text_0 int_of_digits
                  token_endpoint hash_1 (Some "") 3 10 11 12 two_tenants)).
  reflexivity.
Defined.

Lemma callback_onboards_witness :
  exists m n,
    "/dashboard?sid=store-1" = ("/dashboard?sid=" ++ store_id m)%string /\
    store_id m = ("store-" ++ str_of_int n)%string /\ 0 <= n < 999999 /\
    id m = 3 /\ plan m = Some "basic" /\
    waba_token m = None /\ waba_phone_id m = None /\
    get_store (Some (store_id m)) onboarded = Some m /\
    filter (fun x => (store_id x =? store_id m)%string) (merchants onboarded)
    = [m] /\
    (forall old, In old (merchants two_tenants) -> store_id old <> store_id m ->
                 id old <> 3 -> In old (merchants onboarded)) /\
    seeded (store_id m) onboarded /\
    (exists s1, store_settings onboarded = store_settings two_tenants ++ s1) /\
    (exists t1, templates onboarded = templates two_tenants ++ t1) /\
    events onboarded = events two_tenants /\
    logs onboarded = logs two_tenants /\ sent onboarded = sent two_tenants.
Proof.
  apply (callback_onboards float_text_0 int_of_digits token_endpoint hash_1
           (Some "code") 3 10 11 12 two_tenants onboarded
           "/dashboard?sid=store-1").
  vm_compute. reflexivity.
Defined.

(* ================================================================== *)
(** ** Further properties: the preview *)

Section Substitute.

Variable name : string.
Variable rep : string.
Hypothesis name_brace_free : brace_free name = true.

#[local] Abbreviation pat' := (placeholder name).
#[local] Abbreviation R' := (replaceAll_from 0 pat' rep).

(** A match that starts before a character the pattern does not have
    after its opening brace ends before that character. *)
Lemma match_before_char (x c : ascii) (a b y : string) :
  has c (name ++ "}") = false ->
  (String x a ++ String c b)%string = (pat' ++ y)%string ->
  exists z, String x a = (pat' ++ z)%string.
Proof.
  intros Hc E. symmetry in E. apply append_overlap in E.
  destruct E as [[z E] | [u [v [E1 E2]]]].
  - now exists z.
  - exfalso. injection E2 as <- _.
    unfold placeholder in E1. simpl in E1. injection E1 as _ E1.
    rewrite E1, has_append in Hc. simpl in Hc.
    rewrite Ascii.eqb_refl in Hc. simpl in Hc.
    now rewrite orb_true_r in Hc.
Qed.

Lemma replaceAll_split_bounded (n : nat) (c : ascii) (a b : string) :
  has c (name ++ "}") = false ->
  (String.length a <= n)%nat ->
  R' (a ++ String c b) = (R' a ++ R' (String c b))%string.
Proof.
  intros Hc. revert a. induction n as [| n IH]; intros a L.
  - destruct a; [reflexivity | simpl in L; lia].
  - destruct a as [| x a]; [reflexivity |].
    destruct (prefix pat' (String x a ++ String c b)) eqn:P.
    + apply prefix_append in P. destruct P as [y E].
      destruct (match_before_char x c a b y Hc E) as [z Ez].
      rewrite Ez, append_assoc,
        !(replaceAll_match name rep), append_assoc.
      f_equal. apply IH.
      apply (f_equal String.length) in Ez. rewrite length_append in Ez.
      simpl in Ez, L. lia.
    + assert (P' : prefix pat' (String x a) = false).
      { destruct (prefix pat' (String x a)) eqn:Q; [| reflexivity].
        apply prefix_append in Q. destruct Q as [z Q].
        assert (T : prefix pat' (String x a ++ String c b) = true).
        { apply prefix_append. exists (z ++ String c b)%string.
          now rewrite Q, append_assoc. }
        congruence. }
      change (String x a ++ String c b)%string
        with (String x (a ++ String c b)) in *.
      rewrite (replaceAll_no_match name rep x _ P),
        (replaceAll_no_match name rep x _ P').
      change (String x (R' a) ++ R' (String c b))%string
        with (String x (R' a ++ R' (String c b))).
      f_equal. apply IH. simpl in L. lia.
Qed.

(** The pattern is replaced wherever it stands, and the text before it and
    after it is worked on separately. *)
Lemma replaceAll_same (pre post : string) :
  replaceAll pat' rep (pre ++ pat' ++ post)
  = (replaceAll pat' rep pre ++ rep ++ replaceAll pat' rep post)%string.
Proof.
  unfold replaceAll, placeholder at 1 3 5.
  change (placeholder name ++ post)%string
    with (String "{" ((name ++ "}") ++ post)).
  rewrite (replaceAll_split_bounded (String.length pre));
    [| apply (name_no_open name name_brace_free) | lia].
  f_equal.
  change (String "{" ((name ++ "}") ++ post)) with (pat' ++ post)%string.
  apply (replaceAll_match name rep).
Qed.

(** A text without an opening brace, starting with a character that the
    pattern does not have after its opening brace, is passed over. *)
Lemma replaceAll_value (c : ascii) (v a b : string) :
  has "{" (String c v) = false ->
  has c (name ++ "}") = false ->
  replaceAll pat' rep (a ++ String c v ++ b)
  = (replaceAll pat' rep a ++ String c v ++ replaceAll pat' rep b)%string.
Proof.
  intros Hv Hc. unfold replaceAll, placeholder at 1 3 5.
  change (String c v ++ b)%string with (String c (v ++ b)).
  rewrite (replaceAll_split_bounded (String.length a)); [| exact Hc | lia].
  f_equal.
  change (String c (v ++ b)) with (String c v ++ b)%string.
  now apply (replaceAll_passes name rep).
Qed.

(** A text without an opening brace has nothing to replace. *)
Lemma replaceAll_plain (u : string) :
  has "{" u = false -> replaceAll pat' rep u = u.
Proof.
  intros H. unfold replaceAll, placeholder at 1.
  rewrite <- (append_nil_r u) at 1.
  rewrite (replaceAll_passes name rep u "" H). simpl. apply append_nil_r.
Qed.

End Substitute.

Ltac stages :=
  unfold updatePreview;
  change (replaceAll "{name}") with (replaceAll (placeholder "name"));
  change (replaceAll "{order_no}") with (replaceAll (placeholder "order_no"));
  change (replaceAll "{order_url}") with (replaceAll (placeholder "order_url"));
  change (replaceAll "{tracking_no}")
    with (replaceAll (placeholder "tracking_no")).

Ltac stage :=
  first
    [ rewrite replaceAll_same by reflexivity
    | rewrite replaceAll_token by (reflexivity || discriminate)
    | rewrite replaceAll_value by reflexivity ].

(** The preview puts the sample value in the place of each of the four
    placeholders wherever it stands in the body, and renders the text before
    it and the text after it on their own: no replacement joins text across
    a substituted value. *)
Theorem updatePreview_substitutes (name value pre post : string) :
  In (name, value) SAMPLE_VALUES ->
  updatePreview (pre ++ placeholder name ++ post)
  = (updatePreview pre ++ value ++ updatePreview post)%string.
Proof.
  intros H. simpl in H.
  destruct H as [E | [E | [E | [E | []]]]]; injection E as <- <-;
    stages; do 4 stage; reflexivity.
Qed.

Lemma updatePreview_substitutes_witness :
  updatePreview ("Order #" ++ placeholder "order_no" ++ " for {name}")
  = (updatePreview "Order #" ++ "12345" ++ updatePreview " for {name}")%string.
Proof.
  apply (updatePreview_substitutes "order_no" "12345" "Order #" " for {name}").
  simpl. right. left. reflexivity.
Defined.

(** A body without an opening brace is previewed as it is. *)
Theorem updatePreview_plain_text (body : string) :
  has "{" body = false -> updatePreview body = body.
Proof.
  intros H. stages.
  rewrite (replaceAll_plain "name" _ body H).
  rewrite (replaceAll_plain "order_no" _ body H).
  rewrite (replaceAll_plain "order_url" _ body H).
  apply (replaceAll_plain "tracking_no" _ body H).
Qed.

Lemma updatePreview_plain_text_witness :
  updatePreview "Thank you } for your order" = "Thank you } for your order".
Proof.
  apply (updatePreview_plain_text "Thank you } for your order"). reflexivity.
Defined.
